(** * Room gateway: the in-memory session coordinator

    A shallow embedding of [src/room/room.gateway.ts] (class [RoomGateway])
    and of [src/room/room.service.ts] (class [RoomService]).  Every handler
    is a function from the state it reads (registry of active rooms, CRDT
    documents, durable room table) to the state it leaves, the list of
    transport effects it performs, in order, and the exception it throws, if
    any: what a call does when nothing overlaps it.  Three handlers await
    the store; the part on interleaved calls cuts them at their awaits and
    lets other events, the replies of the store and writers outside the
    gateway come in between ([wstep]).  A call that runs with nothing in
    between does what the handler function says ([alone]). *)

From Stdlib Require Import String Ascii ZArith List Bool Lia.
Import ListNotations.
Open Scope string_scope.
Open Scope list_scope.

(** ** JavaScript values *)

(** Truthiness of an optional string ([undefined] and [""] are falsy). *)
Definition truthyStr (s : option string) : bool :=
  match s with Some v => negb (v =? "") | None => false end.

(** Truthiness of an optional number ([undefined] and [0] are falsy). *)
Definition truthyNum (n : option Z) : bool :=
  match n with Some v => negb (v =? 0)%Z | None => false end.

(** Truthiness of an optional boolean. *)
Definition truthyBool (b : option bool) : bool :=
  match b with Some v => v | None => false end.

(** Truthiness of an optional object or array (every object is truthy). *)
Definition isSome {A : Type} (o : option A) : bool :=
  match o with Some _ => true | None => false end.

(** [a ?? b] *)
Definition nullish {A : Type} (a b : option A) : option A :=
  match a with Some _ => a | None => b end.

(** [x = l.find(p); if (x) { mutate x }]: the first element that satisfies
    [p] is updated in place. *)
Fixpoint updateFirst {A : Type} (p : A -> bool) (f : A -> A) (l : list A) : list A :=
  match l with
  | [] => []
  | x :: t => if p x then f x :: t else x :: updateFirst p f t
  end.

(** [i = l.findIndex(p); if (i > -1) l.splice(i, 1)] *)
Fixpoint removeFirst {A : Type} (p : A -> bool) (l : list A) : list A :=
  match l with
  | [] => []
  | x :: t => if p x then t else x :: removeFirst p t
  end.

(** ** Data model (the interfaces at the top of the gateway) *)

(** A [Uint8Array]. *)
Definition Update : Type := list Byte.byte.

(** [{ line: number; column: number }] *)
Record Position : Type := { pos_line : Z; pos_column : Z }.

(** The type of [Member.lastSelection]: every field is optional. *)
Record Selection : Type := {
  line : option Z;
  column : option Z;
  selectionStart : option Position;
  selectionEnd : option Position;
  selectedText : option string
}.

(** [{}] *)
Definition emptySelection : Selection :=
  {| line := None; column := None; selectionStart := None;
     selectionEnd := None; selectedText := None |}.

(** [interface Member]; [lastActivity] is a [Date], kept as a timestamp. *)
Record Member : Type := {
  clientId : string;
  telegramId : string;
  username : option string;
  online : bool;
  lastCursorPosition : option (Z * Z);
  lastSelection : option Selection;
  userColor : option string;
  lastActivity : option Z
}.

(** [interface Room]: an active room.  The three toggles are JavaScript
    values: [handleEditRoom] assigns them [activeRoom?.x ?? room.x], which
    the language allows to be nullish. *)
Record Room : Type := {
  id : string;
  members : list Member;
  teacher : string;
  studentCursorEnabled : option bool;
  studentSelectionEnabled : option bool;
  studentEditCodeEnabled : option bool;
  completed : bool
}.

(** [interface JoinPayload] *)
Record JoinPayload : Type := {
  jp_telegramId : string;
  jp_username : option string;
  jp_roomId : string
}.

(** [interface EditMember extends JoinPayload] *)
Record EditMember : Type := {
  em_telegramId : string;
  em_username : option string;
  em_roomId : string;
  em_changeTelegramId : string
}.

(** [interface EditPayload extends EditRoomDto] *)
Record EditPayload : Type := {
  ep_roomId : string;
  ep_telegramId : string;
  ep_studentCursorEnabled : option bool;
  ep_studentEditCodeEnabled : option bool;
  ep_studentSelectionEnabled : option bool;
  ep_language : option string;
  ep_taskId : option string
}.

(** [interface Log] *)
Record Log : Type := { log_telegramId : string; log_cursor : list Z }.

(** [interface CursorPayload] *)
Record CursorPayload : Type := {
  cp_roomId : string;
  cp_position : list Z;
  cp_logs : list Log;
  cp_telegramId : string
}.

(** [interface SelectionPayload] *)
Record SelectionPayload : Type := {
  sp_roomId : string;
  sp_telegramId : string;
  sp_line : option Z;
  sp_column : option Z;
  sp_selectionStart : option Position;
  sp_selectionEnd : option Position;
  sp_selectedText : option string;
  sp_clearSelection : option bool
}.

(** [interface CodeEditPayload] *)
Record CodeEditPayload : Type := {
  ce_roomId : string;
  ce_telegramId : string;
  ce_update : Update
}.

(** Modelled from the spec: the durable Room record ([RoomRdo], the row of
    the Prisma [room] table), whose declaration is not part of the sources:
    identifier, teacher identity, enrolled student identities, the three
    toggles (nullable: the gateway defaults them with [?? true]), completed
    flag, language tag and task reference. *)
Record RoomRdo : Type := {
  r_id : string;
  r_teacher : string;
  r_students : list string;
  r_studentCursorEnabled : option bool;
  r_studentSelectionEnabled : option bool;
  r_studentEditCodeEnabled : option bool;
  r_completed : bool;
  r_language : option string;
  r_taskId : option string
}.

(** Modelled from the spec: [fillDto(RoomRdo, room)], the response shaping of
    a persisted record, which keeps the fields above as they are. *)
Definition fillDto (room : RoomRdo) : RoomRdo := room.

(** ** Field updates of members and rooms *)

Definition withMembers (r : Room) (ms : list Member) : Room :=
  {| id := id r; members := ms; teacher := teacher r;
     studentCursorEnabled := studentCursorEnabled r;
     studentSelectionEnabled := studentSelectionEnabled r;
     studentEditCodeEnabled := studentEditCodeEnabled r;
     completed := completed r |}.

Definition withToggles (r : Room) (c e sel : option bool) : Room :=
  {| id := id r; members := members r; teacher := teacher r;
     studentCursorEnabled := c;
     studentSelectionEnabled := sel;
     studentEditCodeEnabled := e;
     completed := completed r |}.

(** The rejoin branch of [handleJoinRoom]. *)
Definition rebind (client : string) (now : Z) (name : option string) (m : Member) : Member :=
  {| clientId := client; telegramId := telegramId m;
     username := if truthyStr name then name else username m;
     online := true;
     lastCursorPosition := lastCursorPosition m;
     lastSelection := lastSelection m;
     userColor := userColor m;
     lastActivity := Some now |}.

(** [member.lastActivity = new Date()] *)
Definition touch (now : Z) (m : Member) : Member :=
  {| clientId := clientId m; telegramId := telegramId m; username := username m;
     online := online m; lastCursorPosition := lastCursorPosition m;
     lastSelection := lastSelection m; userColor := userColor m;
     lastActivity := Some now |}.

Definition withCursor (p : Z * Z) (m : Member) : Member :=
  {| clientId := clientId m; telegramId := telegramId m; username := username m;
     online := online m; lastCursorPosition := Some p;
     lastSelection := lastSelection m; userColor := userColor m;
     lastActivity := lastActivity m |}.

Definition withSelection (sel : option Selection) (m : Member) : Member :=
  {| clientId := clientId m; telegramId := telegramId m; username := username m;
     online := online m; lastCursorPosition := lastCursorPosition m;
     lastSelection := sel; userColor := userColor m;
     lastActivity := lastActivity m |}.

Definition withUsername (name : option string) (m : Member) : Member :=
  {| clientId := clientId m; telegramId := telegramId m; username := name;
     online := online m; lastCursorPosition := lastCursorPosition m;
     lastSelection := lastSelection m; userColor := userColor m;
     lastActivity := lastActivity m |}.

(** [member.online = false; member.lastSelection = undefined] *)
Definition markOffline (m : Member) : Member :=
  {| clientId := clientId m; telegramId := telegramId m; username := username m;
     online := false; lastCursorPosition := lastCursorPosition m;
     lastSelection := None; userColor := userColor m;
     lastActivity := lastActivity m |}.

(** ** [generateUserColor] *)

Definition colors : list string :=
  [ "#FF6B6B"; "#4ECDC4"; "#45B7D1"; "#96CEB4"; "#FFEAA7";
    "#DDA0DD"; "#98D8C8"; "#F7DC6F"; "#BB8FCE"; "#85C1E9";
    "#F8C471"; "#82E0AA"; "#F1948A"; "#85929E"; "#D7BDE2" ].

(** A JavaScript string is a sequence of UTF-16 code units, and
    [userId.charCodeAt(i)] is the unit at index [i].  The model holds a
    string as the bytes of its UTF-8 encoding; [codeUnits] decodes them:
    one unit per code point below 65536, a surrogate pair above.  (A byte
    sequence that is not well formed stands for no string of the program;
    each offending byte decodes to U+FFFD.) *)
Definition byteOf (c : ascii) : Z := Z.of_N (N_of_ascii c).

Definition unitsOf (cp : Z) : list Z :=
  if (cp <? 65536)%Z then [cp]
  else [55296 + (cp - 65536) / 1024; 56320 + (cp - 65536) mod 1024]%Z.

(** [more] continuation bytes are due and [cp] holds the bits read so far. *)
Fixpoint decode (s : string) (more : nat) (cp : Z) : list Z :=
  match s with
  | EmptyString => match more with O => [] | S _ => [65533%Z] end
  | String c rest =>
      let b := byteOf c in
      match more with
      | O =>
          if (b <? 128)%Z then b :: decode rest 0 0
          else if (b <? 192)%Z then 65533%Z :: decode rest 0 0
          else if (b <? 224)%Z then decode rest 1 (b mod 32)
          else if (b <? 240)%Z then decode rest 2 (b mod 16)
          else if (b <? 248)%Z then decode rest 3 (b mod 8)
          else 65533%Z :: decode rest 0 0
      | S k =>
          if ((128 <=? b) && (b <? 192))%Z then
            let cp' := (cp * 64 + b mod 64)%Z in
            match k with
            | O => unitsOf cp' ++ decode rest 0 0
            | S _ => decode rest k cp'
            end
          else 65533%Z :: decode rest 0 0
      end
  end.

Definition codeUnits (s : string) : list Z := decode s 0 0.

Definition isCodeUnit (c : Z) : Prop := (0 <= c < 65536)%Z.

(** [ToInt32]: the 32-bit two's complement reading of an integer. *)
Definition toInt32 (z : Z) : Z :=
  ((z + 2147483648) mod 4294967296 - 2147483648)%Z.

(** [hash << 5]: the operand is read as an int32 and so is the result. *)
Definition shl5 (hash : Z) : Z := toInt32 (Z.shiftl (toInt32 hash) 5).

(** The result of [+] and [-] on integers is the Number (IEEE 754 binary64)
    nearest to the exact result: the integer itself below 2^53 in absolute
    value, and beyond that the nearest multiple of the spacing of the
    Numbers of that magnitude, a tie going to the even mantissa.  The values
    of [hash] are integers and stay below 2^86 whatever the string
    ([hashLoop_finite]), so that no infinity arises. *)
Definition toNumber (z : Z) : Z :=
  let m := Z.abs z in
  if (m <? 9007199254740992)%Z then z
  else
    let e := (Z.log2 m - 52)%Z in
    let q := (m / 2 ^ e)%Z in
    let r := (m mod 2 ^ e)%Z in
    let half := (2 ^ (e - 1))%Z in
    let q' := if (half <? r)%Z || ((r =? half)%Z && Z.odd q) then (q + 1)%Z else q in
    (Z.sgn z * (q' * 2 ^ e))%Z.

(** The loop of [generateUserColor] over the code units of [userId]:
    [hash = userId.charCodeAt(i) + ((hash << 5) - hash)]. *)
Fixpoint hashLoop (units : list Z) (hash : Z) : Z :=
  match units with
  | [] => hash
  | c :: rest => hashLoop rest (toNumber (c + toNumber (shl5 hash - hash)))
  end.

(** [colors[Math.abs(hash) % colors.length]] *)
Definition pick (hash : Z) : string :=
  nth (Z.to_nat (Z.abs hash mod Z.of_nat (length colors))) colors "".

(** [generateUserColor] of the string with these code units. *)
Definition colorFor (units : list Z) : string := pick (hashLoop units 0).

Definition generateUserColor (userId : string) : string := colorFor (codeUnits userId).

(** The loop on the integers, with nothing rounded. *)
Fixpoint exactLoop (units : list Z) (hash : Z) : Z :=
  match units with
  | [] => hash
  | c :: rest => exactLoop rest (c + (shl5 hash - hash))
  end.

(** ** The room service over the durable table *)

(** [prisma.room.findUnique({ where: { id } })] *)
Definition findUnique (table : list RoomRdo) (rid : string) : option RoomRdo :=
  find (fun r => r_id r =? rid) table.

(** [prisma.room.update({ where, data })]: the updated row and the new
    table, or [None] when no row matches (the call rejects). *)
Fixpoint prismaUpdate (table : list RoomRdo) (where_ : RoomRdo -> bool)
    (data : RoomRdo -> RoomRdo) : option (RoomRdo * list RoomRdo) :=
  match table with
  | [] => None
  | r :: t =>
      if where_ r then Some (data r, data r :: t)
      else match prismaUpdate t where_ data with
           | Some (u, t') => Some (u, r :: t')
           | None => None
           end
  end.

(** [RoomService.getRoom] *)
Definition getRoom (table : list RoomRdo) (rid : string) : option RoomRdo :=
  match findUnique table rid with
  | Some room => Some (fillDto room)
  | None => None
  end.

Definition pushStudent (member : string) (r : RoomRdo) : RoomRdo :=
  {| r_id := r_id r; r_teacher := r_teacher r;
     r_students := r_students r ++ [member];
     r_studentCursorEnabled := r_studentCursorEnabled r;
     r_studentSelectionEnabled := r_studentSelectionEnabled r;
     r_studentEditCodeEnabled := r_studentEditCodeEnabled r;
     r_completed := r_completed r; r_language := r_language r;
     r_taskId := r_taskId r |}.

(** [RoomService.joinRoom]; [None] is the [NotFoundException]. *)
Definition joinRoom (table : list RoomRdo) (rid member : string)
    : option (RoomRdo * list RoomRdo) :=
  match findUnique table rid with
  | None => None
  | Some room =>
      let foundStudentInRoom := find (fun student => student =? member) (r_students room) in
      if truthyStr foundStudentInRoom || (r_teacher room =? member)
      then Some (fillDto room, table)
      else match prismaUpdate table (fun r => r_id r =? r_id room) (pushStudent member) with
           | Some (updatedRoom, table') => Some (fillDto updatedRoom, table')
           | None => None
           end
  end.

(** The [data] of the update in [RoomService.editRoom]. *)
Definition editData (dto : EditPayload) (currentRoom r : RoomRdo) : RoomRdo :=
  {| r_id := r_id r; r_teacher := r_teacher r; r_students := r_students r;
     r_studentCursorEnabled :=
       match ep_studentCursorEnabled dto with
       | Some b => Some b
       | None => r_studentCursorEnabled currentRoom
       end;
     r_studentSelectionEnabled :=
       match ep_studentSelectionEnabled dto with
       | Some b => Some b
       | None => r_studentSelectionEnabled currentRoom
       end;
     r_studentEditCodeEnabled :=
       match ep_studentEditCodeEnabled dto with
       | Some b => Some b
       | None => r_studentEditCodeEnabled currentRoom
       end;
     r_completed := r_completed r;
     r_language := match ep_language dto with Some l => Some l | None => r_language r end;
     r_taskId := match ep_taskId dto with Some t => Some t | None => r_taskId r end |}.

(** [RoomService.editRoom]; [None] is the [NotFoundException]. *)
Definition editRoom (table : list RoomRdo) (rid : string) (dto : EditPayload)
    : option (RoomRdo * list RoomRdo) :=
  let where_ := fun r => (r_id r =? rid) && (r_teacher r =? ep_telegramId dto) in
  match find where_ table with
  | None => None
  | Some currentRoom =>
      match prismaUpdate table where_ (editData dto currentRoom) with
      | Some (editedRoom, table') => Some (fillDto editedRoom, table')
      | None => None
      end
  end.

Definition markCompleted (r : RoomRdo) : RoomRdo :=
  {| r_id := r_id r; r_teacher := r_teacher r; r_students := r_students r;
     r_studentCursorEnabled := r_studentCursorEnabled r;
     r_studentSelectionEnabled := r_studentSelectionEnabled r;
     r_studentEditCodeEnabled := r_studentEditCodeEnabled r;
     r_completed := true; r_language := r_language r; r_taskId := r_taskId r |}.

(** [RoomService.completeRoom]; [None] is the [NotFoundException]. *)
Definition completeRoom (table : list RoomRdo) (rid : string) : option (list RoomRdo) :=
  match prismaUpdate table (fun r => r_id r =? rid) markCompleted with
  | Some (_, table') => Some table'
  | None => None
  end.

(** ** Outbound events and transport effects *)

(** An item of the roster sent with [members-updated]; [isYourself] is
    present in the roster of [handleJoinRoom] only. *)
Record MemberView : Type := {
  mv_telegramId : string;
  mv_username : option string;
  mv_isYourself : option bool;
  mv_online : bool;
  mv_userColor : option string;
  mv_lastActivity : option Z
}.

(** An item of [currentCursors]. *)
Record CursorEntry : Type := {
  cur_telegramId : string;
  cur_position : option (Z * Z);
  cur_userColor : option string;
  cur_username : option string
}.

(** An item of [currentSelections]: [{ telegramId, ...m.lastSelection,
    userColor, username }].  [se_fields] is the spread: the fields of the
    stored selection, none of them for [undefined] and for [{}]. *)
Record SelectionEntry : Type := {
  se_telegramId : string;
  se_fields : Selection;
  se_userColor : option string;
  se_username : option string
}.

(** The payload of [joined]. *)
Record JoinedPayload : Type := {
  j_telegramId : string;
  j_currentCursors : list CursorEntry;
  j_currentSelections : list SelectionEntry;
  j_userColor : string;
  j_isTeacher : bool;
  j_studentCursorEnabled : option bool;
  j_studentSelectionEnabled : option bool;
  j_studentEditCodeEnabled : option bool;
  j_language : option string;
  j_completed : bool
}.

Inductive Payload : Type :=
| JoinRoomError (message : string)
| MembersUpdated (roster : list MemberView) (trigger : string) (tid : string)
| Joined (j : JoinedPayload)
| CodeEditAction (tid color name : option string) (update : Update)
| SelectionState (selections : list SelectionEntry) (updatedUser : string)
| CursorAction (data : CursorPayload) (color name : option string)
| RoomEdited (room : RoomRdo)
| ErrorEvent (message : string)
| CompleteSession (message : string)
| MemberLeft (tid : string) (keepCursor : bool).

(** Where an event goes: [client.emit], [server.to(room).emit] and
    [client.broadcast.to(room).emit]. *)
Inductive Target : Type :=
| ToClient (client : string)
| ToRoom (rid : string)
| ToRoomExceptSender (rid : string) (client : string).

Inductive Effect : Type :=
| JoinGroup (client rid : string)
| Emit (target : Target) (payload : Payload).

Definition msgRoomNotFound : string := "Комната не найдена".
Definition msgCursorPosition : string :=
  "Позиция по курсору может иметь только два значения - x, y".
Definition msgEditDisabled : string := "Редактирование кода отключено в этой комнате".
Definition msgNoTelegramId : string := "Не указан telegramId".
Definition msgMemberNotFound : string := "Участник не найден в комнате".
Definition msgSessionClosed : string := "Учитель завершил сессию".

(** The room an effect is broadcast to, if it is a broadcast. *)
Definition broadcastRoom (e : Effect) : option string :=
  match e with
  | Emit (ToRoom rid) _ => Some rid
  | Emit (ToRoomExceptSender rid _) _ => Some rid
  | _ => None
  end.

Definition isBroadcast (e : Effect) : bool := isSome (broadcastRoom e).

(** ** The CRDT engine *)

(** The result of [Y.applyUpdate(doc, update)], which changes the document
    in place and throws on a blob it cannot decode. *)
Inductive ApplyResult (D : Type) : Type :=
| Applied (d : D)
| Rejected (d : D).
Arguments Applied {D} d.
Arguments Rejected {D} d.

(** What the gateway uses of the [yjs] library. *)
Class YEngine : Type := {
  Doc : Type;
  newDoc : Doc;
  applyUpdate : Doc -> Update -> ApplyResult Doc;
  encodeStateAsUpdate : Doc -> Update
}.

(** What a handler call can end with: the [NotFoundException] of the room
    service, the error of the engine, and the rejection of a store query
    that nothing catches. *)
Inductive Exn : Type :=
| NotFoundException
| EngineError
| PrismaError.

Section Gateway.
Context {Y : YEngine}.

(** The fields of [RoomGateway] and the table behind [RoomService]. *)
Record State : Type := {
  activeRooms : list Room;
  docs : list (string * Doc);
  table : list RoomRdo
}.

(** What a handler call leaves: the state, the effects in the order they
    were performed, and the exception that ended the call, if any. *)
Record Outcome : Type := {
  state : State;
  effects : list Effect;
  thrown : option Exn
}.

Definition ret (s : State) (es : list Effect) : Outcome :=
  {| state := s; effects := es; thrown := None |}.

Definition throw (s : State) (es : list Effect) (e : Exn) : Outcome :=
  {| state := s; effects := es; thrown := Some e |}.

Definition withRooms (s : State) (rooms : list Room) : State :=
  {| activeRooms := rooms; docs := docs s; table := table s |}.

Definition docsGet (ds : list (string * Doc)) (rid : string) : option Doc :=
  match find (fun kv => fst kv =? rid) ds with
  | Some kv => Some (snd kv)
  | None => None
  end.

Fixpoint docsSet (ds : list (string * Doc)) (rid : string) (d : Doc) : list (string * Doc) :=
  match ds with
  | [] => [(rid, d)]
  | kv :: t => if fst kv =? rid then (rid, d) :: t else kv :: docsSet t rid d
  end.

(** [getOrCreateDoc]: the document and the map after the call. *)
Definition getOrCreateDoc (ds : list (string * Doc)) (rid : string)
    : Doc * list (string * Doc) :=
  match docsGet ds rid with
  | Some d => (d, ds)
  | None => (newDoc, docsSet ds rid newDoc)
  end.

(** The room a first join puts in the registry. *)
Definition activate (room : RoomRdo) : Room :=
  {| id := r_id room; members := []; teacher := r_teacher room;
     studentCursorEnabled := nullish (r_studentCursorEnabled room) (Some true);
     studentSelectionEnabled := nullish (r_studentSelectionEnabled room) (Some true);
     studentEditCodeEnabled := nullish (r_studentEditCodeEnabled room) (Some true);
     completed := r_completed room |}.

Definition newMember (client tid : string) (name : option string) (now : Z) : Member :=
  {| clientId := client; telegramId := tid; username := name; online := true;
     lastCursorPosition := None; lastSelection := None;
     userColor := Some (generateUserColor tid); lastActivity := Some now |}.

(** The roster item of [handleJoinRoom]. *)
Definition joinView (tid : string) (m : Member) : MemberView :=
  {| mv_telegramId := telegramId m; mv_username := username m;
     mv_isYourself := Some (telegramId m =? tid); mv_online := online m;
     mv_userColor := userColor m; mv_lastActivity := lastActivity m |}.

(** The roster item of [handleEditMember] and [handleDisconnect]. *)
Definition memberView (m : Member) : MemberView :=
  {| mv_telegramId := telegramId m; mv_username := username m;
     mv_isYourself := None; mv_online := online m;
     mv_userColor := userColor m; mv_lastActivity := lastActivity m |}.

Definition cursorEntry (m : Member) : CursorEntry :=
  {| cur_telegramId := telegramId m; cur_position := lastCursorPosition m;
     cur_userColor := userColor m; cur_username := username m |}.

(** [...m.lastSelection] *)
Definition spread (sel : option Selection) : Selection :=
  match sel with Some f => f | None => emptySelection end.

Definition selectionEntry (m : Member) : SelectionEntry :=
  {| se_telegramId := telegramId m; se_fields := spread (lastSelection m);
     se_userColor := userColor m; se_username := username m |}.

(** The item of [handleDisconnect], which has no [username]. *)
Definition selectionEntryLeave (m : Member) : SelectionEntry :=
  {| se_telegramId := telegramId m; se_fields := spread (lastSelection m);
     se_userColor := userColor m; se_username := None |}.

Definition byId (rid : string) (r : Room) : bool := id r =? rid.
Definition byTelegramId (tid : string) (m : Member) : bool := telegramId m =? tid.
Definition byClientId (client : string) (m : Member) : bool := clientId m =? client.

(** ** The handlers *)

Definition handleJoinRoom (now : Z) (data : JoinPayload) (client : string) (s : State)
    : Outcome :=
  let tid := jp_telegramId data in
  let rid := jp_roomId data in
  let name := jp_username data in
  match getRoom (table s) rid with
  | None => ret s [Emit (ToClient client) (JoinRoomError msgRoomNotFound)]
  | Some room0 =>
    let isParticipant :=
      (r_teacher room0 =? tid) || existsb (fun st => st =? tid) (r_students room0) in
    match (if isParticipant then Some (room0, table s)
           else joinRoom (table s) (r_id room0) tid) with
    | None => throw s [] NotFoundException
    | Some (room, table') =>
      let found := find (byId (r_id room)) (activeRooms s) in
      let rooms1 :=
        match found with
        | Some _ => activeRooms s
        | None => activeRooms s ++ [activate room]
        end in
      let activeRoom := match found with Some r => r | None => activate room end in
      let existingMember := find (byTelegramId tid) (members activeRoom) in
      let members' :=
        match existingMember with
        | Some _ => updateFirst (byTelegramId tid) (rebind client now name) (members activeRoom)
        | None => members activeRoom ++ [newMember client tid name now]
        end in
      let rooms2 := updateFirst (byId (r_id room)) (fun r => withMembers r members') rooms1 in
      let currentCursors :=
        map cursorEntry
            (filter (fun m => isSome (lastCursorPosition m) && online m) members') in
      let currentSelections :=
        map selectionEntry
            (filter (fun m => isSome (lastSelection m) && online m) members') in
      let color :=
        match existingMember with
        | Some m => if truthyStr (userColor m)
                    then match userColor m with Some c => c | None => generateUserColor tid end
                    else generateUserColor tid
        | None => generateUserColor tid
        end in
      let (doc, docs') := getOrCreateDoc (docs s) (r_id room) in
      ret {| activeRooms := rooms2; docs := docs'; table := table' |}
          [ JoinGroup client rid;
            Emit (ToRoom rid) (MembersUpdated (map (joinView tid) members') "join" tid);
            Emit (ToClient client)
                 (Joined {| j_telegramId := tid;
                            j_currentCursors := currentCursors;
                            j_currentSelections := currentSelections;
                            j_userColor := color;
                            j_isTeacher := r_teacher room =? tid;
                            j_studentCursorEnabled := studentCursorEnabled activeRoom;
                            j_studentSelectionEnabled := studentSelectionEnabled activeRoom;
                            j_studentEditCodeEnabled := studentEditCodeEnabled activeRoom;
                            j_language := r_language room;
                            j_completed := r_completed room |});
            Emit (ToClient client) (CodeEditAction None None None (encodeStateAsUpdate doc));
            Emit (ToClient client) (SelectionState currentSelections tid) ]
    end
  end.

(** One toggle of the updated active room in [handleEditRoom]:
    [data.x !== undefined ? Boolean(data.x) : (activeRoom?.x ?? room.x)]. *)
Definition mergedToggle (given : option bool) (activeRoom : option Room)
    (proj : Room -> option bool) (durable : option bool) : option bool :=
  match given with
  | Some b => Some b
  | None => nullish (match activeRoom with Some a => proj a | None => None end) durable
  end.

Definition handleEditRoom (client : string) (data : EditPayload) (s : State) : Outcome :=
  match getRoom (table s) (ep_roomId data) with
  | None => ret s [Emit (ToClient client) (ErrorEvent msgRoomNotFound)]
  | Some room =>
    if negb (r_teacher room =? ep_telegramId data)
    then ret s [Emit (ToClient client) (ErrorEvent msgRoomNotFound)]
    else if r_completed room then ret s []
    else
      let activeRoom := find (byId (r_id room)) (activeRooms s) in
      match editRoom (table s) (r_id room) data with
      | None => throw s [] NotFoundException
      | Some (updatedRoom, table') =>
        let rooms' :=
          map (fun activeRoomItem =>
                 if id activeRoomItem =? r_id updatedRoom
                 then withToggles activeRoomItem
                        (mergedToggle (ep_studentCursorEnabled data) activeRoom
                           studentCursorEnabled (r_studentCursorEnabled room))
                        (mergedToggle (ep_studentEditCodeEnabled data) activeRoom
                           studentEditCodeEnabled (r_studentEditCodeEnabled room))
                        (mergedToggle (ep_studentSelectionEnabled data) activeRoom
                           studentSelectionEnabled (r_studentSelectionEnabled room))
                 else activeRoomItem)
              (activeRooms s) in
        ret {| activeRooms := rooms'; docs := docs s; table := table' |}
            [Emit (ToRoom (ep_roomId data)) (RoomEdited (fillDto updatedRoom))]
      end
  end.

(** [member.lastCursorPosition = [data.position[0], data.position[1]]] for a
    position of two coordinates. *)
Definition cursorOf (position : list Z) : Z * Z :=
  (nth 0 position 0%Z, nth 1 position 0%Z).

Definition handleCursor (now : Z) (client : string) (data : CursorPayload) (s : State)
    : Outcome :=
  match find (byId (cp_roomId data)) (activeRooms s) with
  | None => ret s [Emit (ToClient client) (ErrorEvent msgRoomNotFound)]
  | Some activeRoom =>
    if completed activeRoom then ret s []
    else if negb (truthyBool (studentCursorEnabled activeRoom)) then ret s []
    else if negb (length (cp_position data) =? 2)%nat
    then ret s [Emit (ToClient client) (ErrorEvent msgCursorPosition)]
    else
      let member := find (byTelegramId (cp_telegramId data)) (members activeRoom) in
      let members' :=
        updateFirst (byTelegramId (cp_telegramId data))
          (fun m => touch now (withCursor (cursorOf (cp_position data)) m))
          (members activeRoom) in
      let rooms' :=
        updateFirst (byId (cp_roomId data)) (fun r => withMembers r members') (activeRooms s) in
      ret (withRooms s rooms')
          [Emit (ToRoomExceptSender (id activeRoom) client)
                (CursorAction data
                   (match member with Some m => userColor m | None => None end)
                   (match member with Some m => username m | None => None end))]
  end.

(** The three tests of [handleSelection], in the order of the source. *)
Definition isPoint (data : SelectionPayload) : bool :=
  truthyNum (sp_line data) && isSome (sp_column data)
  && (negb (isSome (sp_selectionStart data))
      || negb (isSome (sp_selectionEnd data))
      || negb (truthyStr (sp_selectedText data))).

Definition isRange (data : SelectionPayload) : bool :=
  isSome (sp_selectionStart data) && isSome (sp_selectionEnd data)
  && truthyStr (sp_selectedText data).

Definition isClear (data : SelectionPayload) : bool :=
  truthyBool (sp_clearSelection data).

(** The assignment to [member.lastSelection] in [handleSelection]. *)
Definition select (data : SelectionPayload) (m : Member) : Member :=
  if isPoint data then
    withSelection (Some {| line := sp_line data; column := sp_column data;
                           selectionStart := None; selectionEnd := None;
                           selectedText := None |}) m
  else if isRange data then
    withSelection (Some {| line := None; column := None;
                           selectionStart := sp_selectionStart data;
                           selectionEnd := sp_selectionEnd data;
                           selectedText := sp_selectedText data |}) m
  else if isClear data then withSelection (Some emptySelection) m
  else m.

Definition handleSelection (now : Z) (client : string) (data : SelectionPayload) (s : State)
    : Outcome :=
  match find (byId (sp_roomId data)) (activeRooms s) with
  | None => ret s [Emit (ToClient client) (ErrorEvent msgRoomNotFound)]
  | Some activeRoom =>
    if completed activeRoom && negb (teacher activeRoom =? sp_telegramId data) then ret s []
    else if negb (truthyBool (studentSelectionEnabled activeRoom))
            && negb (teacher activeRoom =? sp_telegramId data) then ret s []
    else
      let members' :=
        updateFirst (byTelegramId (sp_telegramId data))
          (fun m => select data (touch now m)) (members activeRoom) in
      let rooms' :=
        updateFirst (byId (sp_roomId data)) (fun r => withMembers r members') (activeRooms s) in
      let currentSelections := map selectionEntry (filter online members') in
      ret (withRooms s rooms')
          [Emit (ToRoomExceptSender (id activeRoom) client)
                (SelectionState currentSelections (sp_telegramId data))]
  end.

Definition handleCodeEdit (now : Z) (client : string) (data : CodeEditPayload) (s : State)
    : Outcome :=
  match find (byId (ce_roomId data)) (activeRooms s) with
  | None => ret s [Emit (ToClient client) (ErrorEvent msgRoomNotFound)]
  | Some activeRoom =>
    if completed activeRoom && negb (teacher activeRoom =? ce_telegramId data) then ret s []
    else if negb (truthyBool (studentEditCodeEnabled activeRoom))
            && negb (ce_telegramId data =? teacher activeRoom)
    then ret s [Emit (ToClient client) (ErrorEvent msgEditDisabled)]
    else if ce_telegramId data =? ""
    then ret s [Emit (ToClient client) (ErrorEvent msgNoTelegramId)]
    else
      let member := find (byTelegramId (ce_telegramId data)) (members activeRoom) in
      let members' :=
        updateFirst (byTelegramId (ce_telegramId data)) (touch now) (members activeRoom) in
      let rooms' :=
        updateFirst (byId (ce_roomId data)) (fun r => withMembers r members') (activeRooms s) in
      let (doc, docs1) := getOrCreateDoc (docs s) (ce_roomId data) in
      match applyUpdate doc (ce_update data) with
      | Rejected doc' =>
          throw {| activeRooms := rooms'; docs := docsSet docs1 (ce_roomId data) doc';
                   table := table s |} [] EngineError
      | Applied doc' =>
          ret {| activeRooms := rooms'; docs := docsSet docs1 (ce_roomId data) doc';
                 table := table s |}
              [Emit (ToRoomExceptSender (id activeRoom) client)
                    (CodeEditAction (Some (ce_telegramId data))
                       (match member with Some m => userColor m | None => None end)
                       (match member with Some m => username m | None => None end)
                       (ce_update data))]
      end
  end.

Definition handleEditMember (client : string) (data : EditMember) (s : State) : Outcome :=
  match find (byId (em_roomId data)) (activeRooms s) with
  | None => ret s [Emit (ToClient client) (ErrorEvent msgRoomNotFound)]
  | Some activeRoom =>
    if completed activeRoom then ret s []
    else
      match find (byTelegramId (em_changeTelegramId data)) (members activeRoom) with
      | Some member =>
        if (telegramId member =? em_telegramId data)
           || (teacher activeRoom =? em_telegramId data)
        then
          let members' :=
            updateFirst (byTelegramId (em_changeTelegramId data))
              (withUsername (em_username data)) (members activeRoom) in
          let rooms' :=
            updateFirst (byId (em_roomId data)) (fun r => withMembers r members')
              (activeRooms s) in
          ret (withRooms s rooms')
              [Emit (ToRoom (id activeRoom))
                    (MembersUpdated (map memberView members') "username-update"
                       (em_telegramId data))]
        else ret s [Emit (ToClient client) (ErrorEvent msgMemberNotFound)]
      | None => ret s [Emit (ToClient client) (ErrorEvent msgMemberNotFound)]
      end
  end.

Definition handleCloseSession (client : string) (data : JoinPayload) (s : State) : Outcome :=
  match getRoom (table s) (jp_roomId data) with
  | None => ret s [Emit (ToClient client) (ErrorEvent msgRoomNotFound)]
  | Some activeRoom =>
    if negb (r_teacher activeRoom =? jp_telegramId data)
    then ret s [Emit (ToClient client) (ErrorEvent msgRoomNotFound)]
    else if r_completed activeRoom then ret s []
    else
      match completeRoom (table s) (jp_roomId data) with
      | None => throw s [] NotFoundException
      | Some table' =>
        ret {| activeRooms :=
                 filter (fun room => negb (id room =? r_id activeRoom)) (activeRooms s);
               docs := docs s; table := table' |}
            [Emit (ToRoom (r_id activeRoom)) (CompleteSession msgSessionClosed)]
      end
  end.

(** The loop of [handleDisconnect] up to its [break]: the first room, in
    registry order, with a member bound to the connection; the first such
    member of that room is set offline and loses its selection.  The result
    is that room, that member (both after the update) and the registry. *)
Fixpoint reap (client : string) (rooms : list Room) : option (Room * Member * list Room) :=
  match rooms with
  | [] => None
  | room :: rest =>
      match find (byClientId client) (members room) with
      | Some member =>
          let room' :=
            withMembers room (updateFirst (byClientId client) markOffline (members room)) in
          Some (room', markOffline member, room' :: rest)
      | None =>
          match reap client rest with
          | Some (r, m, rest') => Some (r, m, room :: rest')
          | None => None
          end
      end
  end.

Definition handleDisconnect (client : string) (s : State) : Outcome :=
  match reap client (activeRooms s) with
  | None => ret s []
  | Some (room, member, rooms1) =>
    let currentSelections :=
      map selectionEntryLeave
          (filter (fun m => isSome (lastSelection m) && online m) (members room)) in
    let onlineMembers := filter online (members room) in
    let rooms2 :=
      if (length onlineMembers =? 0)%nat then removeFirst (byId (id room)) rooms1
      else rooms1 in
    ret (withRooms s rooms2)
        [ Emit (ToRoom (id room)) (MemberLeft (telegramId member) true);
          Emit (ToRoom (id room))
               (MembersUpdated (map memberView (members room)) "leave" (telegramId member));
          Emit (ToRoom (id room)) (SelectionState currentSelections (telegramId member)) ]
  end.

(** ** The gateway as a transition system *)

(** An inbound transport event, with the socket it arrives on. *)
Inductive Event : Type :=
| JoinRoomEv (client : string) (data : JoinPayload)
| EditRoomEv (client : string) (data : EditPayload)
| CursorEv (client : string) (data : CursorPayload)
| SelectionEv (client : string) (data : SelectionPayload)
| CodeEditEv (client : string) (data : CodeEditPayload)
| EditMemberEv (client : string) (data : EditMember)
| CloseSessionEv (client : string) (data : JoinPayload)
| DisconnectEv (client : string).

(** The dispatch of an event that arrives at time [now]. *)
Definition handle (now : Z) (ev : Event) (s : State) : Outcome :=
  match ev with
  | JoinRoomEv client data => handleJoinRoom now data client s
  | EditRoomEv client data => handleEditRoom client data s
  | CursorEv client data => handleCursor now client data s
  | SelectionEv client data => handleSelection now client data s
  | CodeEditEv client data => handleCodeEdit now client data s
  | EditMemberEv client data => handleEditMember client data s
  | CloseSessionEv client data => handleCloseSession client data s
  | DisconnectEv client => handleDisconnect client s
  end.

(** The state after a list of timed events, from [s]. *)
Fixpoint run (evs : list (Z * Event)) (s : State) : State :=
  match evs with
  | [] => s
  | (now, ev) :: rest => run rest (state (handle now ev s))
  end.

(** A process starts with an empty registry and no document; the durable
    table is whatever the store holds. *)
Definition initial (rooms : list RoomRdo) : State :=
  {| activeRooms := []; docs := []; table := rooms |}.

(** The states the gateway is in between calls, when calls do not overlap
    and nothing but the gateway writes the table: those the handlers lead to
    from an initial state, each call running to its end before the next
    event is handled.  The state an exception leaves behind counts.  The
    states of overlapping calls are those of [interleaved], further down,
    which these are among ([reachable_quiescent]). *)
Inductive reachable : State -> Prop :=
| reachable_initial : forall rooms, reachable (initial rooms)
| reachable_step : forall s now ev, reachable s -> reachable (state (handle now ev s)).

End Gateway.

(** ** A sample engine and sample sessions *)

(** An engine that keeps the log of the updates it applied and rejects the
    empty blob, which has nothing to decode. *)
Definition logEngine : YEngine :=
  {| Doc := list Update;
     newDoc := [];
     applyUpdate := fun d u =>
       match u with
       | [] => Rejected d
       | _ :: _ => Applied (d ++ [u])
       end;
     encodeStateAsUpdate := fun d => concat d |}.

Definition durable (rid : string) (cursorOn done : bool) : RoomRdo :=
  {| r_id := rid; r_teacher := "1000"; r_students := ["2001"; "2002"];
     r_studentCursorEnabled := Some cursorOn;
     r_studentSelectionEnabled := Some true;
     r_studentEditCodeEnabled := Some true;
     r_completed := done; r_language := Some "js"; r_taskId := None |}.

(** An open room, a completed room and an open room whose students may not
    broadcast their cursor; ["1000"] teaches all three. *)
Definition sampleTable : list RoomRdo :=
  [durable "open" true false; durable "done" true true; durable "quiet" false false].

Definition join (client tid rid : string) : Event :=
  JoinRoomEv client {| jp_telegramId := tid; jp_username := None; jp_roomId := rid |}.

Definition cursorAt (client tid rid : string) (position : list Z) : Event :=
  CursorEv client {| cp_roomId := rid; cp_position := position; cp_logs := [];
                     cp_telegramId := tid |}.

Definition pointAt (client tid rid : string) (l c : Z) : Event :=
  SelectionEv client
    {| sp_roomId := rid; sp_telegramId := tid; sp_line := Some l; sp_column := Some c;
       sp_selectionStart := None; sp_selectionEnd := None; sp_selectedText := None;
       sp_clearSelection := None |}.

Definition clearSel (client tid rid : string) : Event :=
  SelectionEv client
    {| sp_roomId := rid; sp_telegramId := tid; sp_line := None; sp_column := None;
       sp_selectionStart := None; sp_selectionEnd := None; sp_selectedText := None;
       sp_clearSelection := Some true |}.

Definition codeEdit (client tid rid : string) (update : Update) : Event :=
  CodeEditEv client {| ce_roomId := rid; ce_telegramId := tid; ce_update := update |}.

Definition onlyCursor (tid rid : string) (b : bool) : EditPayload :=
  {| ep_roomId := rid; ep_telegramId := tid; ep_studentCursorEnabled := Some b;
     ep_studentEditCodeEnabled := None; ep_studentSelectionEnabled := None;
     ep_language := None; ep_taskId := None |}.

(** The state of the sample process after a list of events, one per tick. *)
Definition after (evs : list Event) : @State logEngine :=
  run (combine (map Z.of_nat (seq 1 (length evs))) evs) (initial sampleTable).

(** What the registry shows of its rooms: identifier, completed flag, and
    for every member its identity, connection, online flag, cursor and
    selection. *)
Definition registryView {Y : YEngine} (s : State)
    : list (string * bool
            * list (string * string * bool * option (Z * Z) * option Selection)) :=
  map (fun r => (id r, completed r,
                 map (fun m => (telegramId m, clientId m, online m,
                                lastCursorPosition m, lastSelection m))
                     (members r)))
      (activeRooms s).

(** The name an event goes out under. *)
Definition eventName (p : Payload) : string :=
  match p with
  | JoinRoomError _ => "join-room:error"
  | MembersUpdated _ _ _ => "members-updated"
  | Joined _ => "joined"
  | CodeEditAction _ _ _ _ => "code-edit-action"
  | SelectionState _ _ => "selection-state"
  | CursorAction _ _ _ => "cursor-action"
  | RoomEdited _ => "room-edited"
  | ErrorEvent _ => "error"
  | CompleteSession _ => "complete-session"
  | MemberLeft _ _ => "member-left"
  end.

(** The broadcasts among some effects: the room and the name of each. *)
Fixpoint broadcasts (es : list Effect) : list (string * string) :=
  match es with
  | [] => []
  | Emit (ToRoom rid) p :: rest => (rid, eventName p) :: broadcasts rest
  | Emit (ToRoomExceptSender rid _) p :: rest => (rid, eventName p) :: broadcasts rest
  | _ :: rest => broadcasts rest
  end.


(** ** Invariants of the registry *)

(** A member carries the color of its identity. *)
Definition memberOk (m : Member) : Prop :=
  userColor m = Some (generateUserColor (telegramId m)).

(** A room has one member per identity, every member carries the color of
    its identity, and the three toggles hold a boolean. *)
Definition roomOk (r : Room) : Prop :=
  NoDup (map telegramId (members r))
  /\ Forall memberOk (members r)
  /\ isSome (studentCursorEnabled r) = true
  /\ isSome (studentSelectionEnabled r) = true
  /\ isSome (studentEditCodeEnabled r) = true.

(** The completed flag of the durable record of a room, if there is one. *)
Definition completedOf (t : list RoomRdo) (rid : string) : option bool :=
  match findUnique t rid with
  | Some d => Some (r_completed d)
  | None => None
  end.

(** An active room has a durable record, with the same completed flag. *)
Definition synced (t : list RoomRdo) (r : Room) : Prop :=
  completedOf t (id r) = Some (completed r).

(** The registry holds one room per identifier, of well-formed rooms, in
    step with the durable table. *)
Definition Inv {Y : YEngine} (s : State) : Prop :=
  NoDup (map id (activeRooms s))
  /\ Forall roomOk (activeRooms s)
  /\ Forall (synced (table s)) (activeRooms s).




(** [RoomService.deleteRoom]: [prisma.room.delete] on the row of that
    identifier and teacher; [None] is the [NotFoundException]. *)
Definition deleteRoom (table : list RoomRdo) (rid tid : string) : option (list RoomRdo) :=
  let where_ := fun r => (r_id r =? rid) && (r_teacher r =? tid) in
  match find where_ table with
  | Some _ => Some (removeFirst where_ table)
  | None => None
  end.

(** The connection an event arrives on. *)
Definition sender (ev : Event) : string :=
  match ev with
  | JoinRoomEv c _ | EditRoomEv c _ | CursorEv c _ | SelectionEv c _
  | CodeEditEv c _ | EditMemberEv c _ | CloseSessionEv c _ | DisconnectEv c => c
  end.

(** The two error events, ['error'] and ['join-room:error']. *)
Definition isError (p : Payload) : bool :=
  match p with
  | ErrorEvent _ | JoinRoomError _ => true
  | _ => false
  end.

(** The shapes a stored selection has: none, a point (a truthy line and a
    column, no range field), a range (start, end and a non-empty text, no
    point field), or the cleared selection [{}]. *)
Definition wellShaped (sel : option Selection) : bool :=
  match sel with
  | None => true
  | Some f =>
      match selectionStart f, selectionEnd f, selectedText f with
      | None, None, None =>
          match line f, column f with
          | None, None => true
          | Some l, Some _ => negb (l =? 0)%Z
          | _, _ => false
          end
      | Some _, Some _, Some t =>
          negb (t =? "") && negb (isSome (line f)) && negb (isSome (column f))
      | _, _, _ => false
      end
  end.

(** The name an inbound event arrives under. *)
Definition kind (ev : Event) : string :=
  match ev with
  | JoinRoomEv _ _ => "join-room"
  | EditRoomEv _ _ => "edit-room"
  | CursorEv _ _ => "cursor"
  | SelectionEv _ _ => "selection"
  | CodeEditEv _ _ => "code-edit"
  | EditMemberEv _ _ => "edit-member"
  | CloseSessionEv _ _ => "close-session"
  | DisconnectEv _ => "disconnect"
  end.

(** The room and the identity the payload of an event names. *)
Definition named (ev : Event) : option (string * string) :=
  match ev with
  | JoinRoomEv _ d => Some (jp_roomId d, jp_telegramId d)
  | EditRoomEv _ d => Some (ep_roomId d, ep_telegramId d)
  | CursorEv _ d => Some (cp_roomId d, cp_telegramId d)
  | SelectionEv _ d => Some (sp_roomId d, sp_telegramId d)
  | CodeEditEv _ d => Some (ce_roomId d, ce_telegramId d)
  | EditMemberEv _ d => Some (em_roomId d, em_telegramId d)
  | CloseSessionEv _ d => Some (jp_roomId d, jp_telegramId d)
  | DisconnectEv _ => None
  end.

(** ** Handler calls interleaved at their awaits

    [handleJoinRoom], [handleEditRoom] and [handleCloseSession] await the
    room service, which awaits the store: between the moment a query is
    sent and the moment the call resumes with the reply, other events are
    handled, other calls resume, and the table is written by whoever else
    uses the store.  A call in flight is a task; a step of the system is the
    arrival of an event, the execution of a query by the store, or the run
    of a call from one await to the next. *)

(** A query of the room service on [prisma.room]. *)
Inductive Query : Type :=
| FindById (rid : string)
| FindByIdTeacher (rid tid : string)
| PushStudent (rid member : string)
| UpdateEdit (rid : string) (dto : EditPayload) (currentRoom : RoomRdo)
| UpdateCompleted (rid : string)
| Delete (rid tid : string)
| Create (row : RoomRdo).

(** What the store answers: a row ([null] when [findUnique] finds none), or
    a rejection (no row to update or delete, or a failure of the store). *)
Inductive Reply : Type :=
| Row (row : option RoomRdo)
| Failed.

Definition written (u : option (RoomRdo * list RoomRdo)) (table : list RoomRdo)
    : Reply * list RoomRdo :=
  match u with
  | Some (row, table') => (Row (Some row), table')
  | None => (Failed, table)
  end.

(** The store executes a query: the reply and the table it leaves.
    [Create] is [prisma.room.create] of [RoomService.createRoom]: the store
    chooses the identifier and the columns the dto does not give, so any
    row under an identifier the table does not hold can come of it. *)
Definition serve (q : Query) (table : list RoomRdo) : Reply * list RoomRdo :=
  match q with
  | FindById rid => (Row (findUnique table rid), table)
  | FindByIdTeacher rid tid =>
      (Row (find (fun r => (r_id r =? rid) && (r_teacher r =? tid)) table), table)
  | PushStudent rid member =>
      written (prismaUpdate table (fun r => r_id r =? rid) (pushStudent member)) table
  | UpdateEdit rid dto currentRoom =>
      written (prismaUpdate table
                 (fun r => (r_id r =? rid) && (r_teacher r =? ep_telegramId dto))
                 (editData dto currentRoom)) table
  | UpdateCompleted rid =>
      written (prismaUpdate table (fun r => r_id r =? rid) markCompleted) table
  | Delete rid tid =>
      let where_ := fun r => (r_id r =? rid) && (r_teacher r =? tid) in
      match find where_ table with
      | Some row => (Row (Some row), removeFirst where_ table)
      | None => (Failed, table)
      end
  | Create row =>
      match findUnique table (r_id row) with
      | None => (Row (Some row), table ++ [row])
      | Some _ => (Failed, table)
      end
  end.

(** The awaits of the gateway on the store, each with the variables the
    rest of the call reads: [getRoom] called by the three handlers (lines
    152, 269, 510), the two queries of [joinRoom] (line 164), the two
    queries of [editRoom] (line 280) and the query of [completeRoom] (line
    521).  [activeRoom] of [handleEditRoom] is kept by value: no toggle of
    a room object is assigned after the object is made (an edit puts new
    objects in the registry, line 291), so the toggles read from it at line
    296 are those it had at line 278. *)
Inductive Await : Type :=
| JoinGetRoom (client : string) (data : JoinPayload)
| JoinFind (client : string) (data : JoinPayload)
| JoinPush (client : string) (data : JoinPayload)
| EditGetRoom (client : string) (data : EditPayload)
| EditFind (client : string) (data : EditPayload) (room : RoomRdo) (activeRoom : option Room)
| EditUpdate (client : string) (data : EditPayload) (room : RoomRdo)
    (activeRoom : option Room)
| CloseGetRoom (client : string) (data : JoinPayload)
| CloseUpdate (client : string) (data : JoinPayload) (activeRoom : RoomRdo).

(** A call in flight: its query is with the store, or the reply is on its
    way back, or it is at [await client.join(roomId)] (line 167). *)
Inductive Task : Type :=
| Waiting (q : Query) (a : Await)
| Answered (r : Reply) (a : Await)
| Joining (client : string) (data : JoinPayload) (room : RoomRdo).



Fixpoint setNth {A : Type} (i : nat) (x : A) (l : list A) : list A :=
  match l, i with
  | [], _ => []
  | _ :: t, O => x :: t
  | y :: t, S k => y :: setNth k x t
  end.

Fixpoint dropNth {A : Type} (i : nat) (l : list A) : list A :=
  match l, i with
  | [], _ => []
  | _ :: t, O => t
  | y :: t, S k => y :: dropNth k t
  end.

(** The task at [i] goes on as [t], or is over. *)
Definition settle {A : Type} (i : nat) (t : option A) (l : list A) : list A :=
  match t with
  | Some x => setNth i x l
  | None => dropNth i l
  end.

Section Interleaving.
Context {Y : YEngine}.

Definition withTable (s : State) (t : list RoomRdo) : State :=
  {| activeRooms := activeRooms s; docs := docs s; table := t |}.

(** [handleJoinRoom] from line 169 on, with the record [room] the awaits
    before left it. *)
Definition joinPost (now : Z) (client : string) (data : JoinPayload) (room : RoomRdo)
    (s : State) : Outcome :=
  let tid := jp_telegramId data in
  let rid := jp_roomId data in
  let name := jp_username data in
  let found := find (byId (r_id room)) (activeRooms s) in
  let rooms1 :=
    match found with
    | Some _ => activeRooms s
    | None => activeRooms s ++ [activate room]
    end in
  let activeRoom := match found with Some r => r | None => activate room end in
  let existingMember := find (byTelegramId tid) (members activeRoom) in
  let members' :=
    match existingMember with
    | Some _ => updateFirst (byTelegramId tid) (rebind client now name) (members activeRoom)
    | None => members activeRoom ++ [newMember client tid name now]
    end in
  let rooms2 := updateFirst (byId (r_id room)) (fun r => withMembers r members') rooms1 in
  let currentCursors :=
    map cursorEntry
        (filter (fun m => isSome (lastCursorPosition m) && online m) members') in
  let currentSelections :=
    map selectionEntry
        (filter (fun m => isSome (lastSelection m) && online m) members') in
  let color :=
    match existingMember with
    | Some m => if truthyStr (userColor m)
                then match userColor m with Some c => c | None => generateUserColor tid end
                else generateUserColor tid
    | None => generateUserColor tid
    end in
  let (doc, docs') := getOrCreateDoc (docs s) (r_id room) in
  ret {| activeRooms := rooms2; docs := docs'; table := table s |}
      [ Emit (ToRoom rid) (MembersUpdated (map (joinView tid) members') "join" tid);
        Emit (ToClient client)
             (Joined {| j_telegramId := tid;
                        j_currentCursors := currentCursors;
                        j_currentSelections := currentSelections;
                        j_userColor := color;
                        j_isTeacher := r_teacher room =? tid;
                        j_studentCursorEnabled := studentCursorEnabled activeRoom;
                        j_studentSelectionEnabled := studentSelectionEnabled activeRoom;
                        j_studentEditCodeEnabled := studentEditCodeEnabled activeRoom;
                        j_language := r_language room;
                        j_completed := r_completed room |});
        Emit (ToClient client) (CodeEditAction None None None (encodeStateAsUpdate doc));
        Emit (ToClient client) (SelectionState currentSelections tid) ].

(** [handleEditRoom] from line 289 on: [updatedRoom] is what [editRoom]
    returned, [room] and [activeRoom] are those of lines 269 and 278. *)
Definition editPost (client : string) (data : EditPayload) (room : RoomRdo)
    (activeRoom : option Room) (updatedRoom : RoomRdo) (s : State) : Outcome :=
  let rooms' :=
    map (fun activeRoomItem =>
           if id activeRoomItem =? r_id updatedRoom
           then withToggles activeRoomItem
                  (mergedToggle (ep_studentCursorEnabled data) activeRoom
                     studentCursorEnabled (r_studentCursorEnabled room))
                  (mergedToggle (ep_studentEditCodeEnabled data) activeRoom
                     studentEditCodeEnabled (r_studentEditCodeEnabled room))
                  (mergedToggle (ep_studentSelectionEnabled data) activeRoom
                     studentSelectionEnabled (r_studentSelectionEnabled room))
           else activeRoomItem)
        (activeRooms s) in
  ret {| activeRooms := rooms'; docs := docs s; table := table s |}
      [Emit (ToRoom (ep_roomId data)) (RoomEdited (fillDto updatedRoom))].

(** [handleCloseSession] from line 524 on. *)
Definition closePost (client : string) (data : JoinPayload) (activeRoom : RoomRdo)
    (s : State) : Outcome :=
  ret {| activeRooms := filter (fun room => negb (id room =? r_id activeRoom)) (activeRooms s);
         docs := docs s; table := table s |}
      [Emit (ToRoom (r_id activeRoom)) (CompleteSession msgSessionClosed)].

(** The call is over. *)
Definition finish (o : Outcome) : Outcome * option Task := (o, None).

(** The call awaits again. *)
Definition suspend (s : State) (es : list Effect) (t : Task) : Outcome * option Task :=
  (ret s es, Some t).

(** A call resumes with the reply to its query and runs to its next await
    or to its end.  [getRoom] and [joinRoom] have no [try]: a rejection of
    the store leaves them as it is; [editRoom] and [completeRoom] catch
    whatever is thrown and throw [NotFoundException]. *)
Definition resumeAwait (a : Await) (r : Reply) (s : State) : Outcome * option Task :=
  match a with
  | JoinGetRoom client data =>
      match r with
      | Failed => finish (throw s [] PrismaError)
      | Row None => finish (ret s [Emit (ToClient client) (JoinRoomError msgRoomNotFound)])
      | Row (Some row) =>
          let room := fillDto row in
          let tid := jp_telegramId data in
          let isParticipant :=
            (r_teacher room =? tid) || existsb (fun st => st =? tid) (r_students room) in
          if isParticipant
          then suspend s [JoinGroup client (jp_roomId data)] (Joining client data room)
          else suspend s [] (Waiting (FindById (r_id room)) (JoinFind client data))
      end
  | JoinFind client data =>
      match r with
      | Failed => finish (throw s [] PrismaError)
      | Row None => finish (throw s [] NotFoundException)
      | Row (Some room) =>
          let member := jp_telegramId data in
          let foundStudentInRoom := find (fun student => student =? member) (r_students room) in
          if truthyStr foundStudentInRoom || (r_teacher room =? member)
          then suspend s [JoinGroup client (jp_roomId data)] (Joining client data (fillDto room))
          else suspend s [] (Waiting (PushStudent (r_id room) member) (JoinPush client data))
      end
  | JoinPush client data =>
      match r with
      | Row (Some updatedRoom) =>
          suspend s [JoinGroup client (jp_roomId data)]
            (Joining client data (fillDto updatedRoom))
      | _ => finish (throw s [] PrismaError)
      end
  | EditGetRoom client data =>
      match r with
      | Failed => finish (throw s [] PrismaError)
      | Row None => finish (ret s [Emit (ToClient client) (ErrorEvent msgRoomNotFound)])
      | Row (Some row) =>
          let room := fillDto row in
          if negb (r_teacher room =? ep_telegramId data)
          then finish (ret s [Emit (ToClient client) (ErrorEvent msgRoomNotFound)])
          else if r_completed room then finish (ret s [])
          else
            let activeRoom := find (byId (r_id room)) (activeRooms s) in
            suspend s []
              (Waiting (FindByIdTeacher (r_id room) (ep_telegramId data))
                 (EditFind client data room activeRoom))
      end
  | EditFind client data room activeRoom =>
      match r with
      | Row (Some currentRoom) =>
          suspend s []
            (Waiting (UpdateEdit (r_id room) data currentRoom)
               (EditUpdate client data room activeRoom))
      | _ => finish (throw s [] NotFoundException)
      end
  | EditUpdate client data room activeRoom =>
      match r with
      | Row (Some editedRoom) => finish (editPost client data room activeRoom (fillDto editedRoom) s)
      | _ => finish (throw s [] NotFoundException)
      end
  | CloseGetRoom client data =>
      match r with
      | Failed => finish (throw s [] PrismaError)
      | Row None => finish (ret s [Emit (ToClient client) (ErrorEvent msgRoomNotFound)])
      | Row (Some row) =>
          let activeRoom := fillDto row in
          if negb (r_teacher activeRoom =? jp_telegramId data)
          then finish (ret s [Emit (ToClient client) (ErrorEvent msgRoomNotFound)])
          else if r_completed activeRoom then finish (ret s [])
          else
            suspend s []
              (Waiting (UpdateCompleted (jp_roomId data)) (CloseUpdate client data activeRoom))
      end
  | CloseUpdate client data activeRoom =>
      match r with
      | Row (Some _) => finish (closePost client data activeRoom s)
      | _ => finish (throw s [] NotFoundException)
      end
  end.

(** The process and the store: the state the handlers share and the calls
    in flight. *)
Record World : Type := {
  shared : State;
  tasks : list Task
}.

(** What a step leaves: the world, the events sent, in order, and the
    exception that ended the call that ran, if any. *)
Record Move : Type := {
  world : World;
  sent : list Effect;
  raised : option Exn
}.

Definition still (w : World) : Move := {| world := w; sent := []; raised := None |}.

(** A handler sends its first query and awaits. *)
Definition spawn (w : World) (t : Task) : Move :=
  still {| shared := shared w; tasks := tasks w ++ [t] |}.

(** A handler with no await runs from start to end. *)
Definition lift (w : World) (o : Outcome) : Move :=
  {| world := {| shared := state o; tasks := tasks w |};
     sent := effects o; raised := thrown o |}.

(** A step: an event arrives and its handler runs to its first await (or to
    its end); the store executes the query of a task, or rejects it; a task
    resumes; something outside the gateway (a caller of [RoomService], or
    another user of the database) has a query executed. *)
Inductive Step : Type :=
| Arrive (now : Z) (ev : Event)
| Serve (i : nat)
| Refuse (i : nat)
| Resume (now : Z) (i : nat)
| Outside (q : Query).

Definition arrive (now : Z) (ev : Event) (w : World) : Move :=
  match ev with
  | JoinRoomEv client data =>
      spawn w (Waiting (FindById (jp_roomId data)) (JoinGetRoom client data))
  | EditRoomEv client data =>
      spawn w (Waiting (FindById (ep_roomId data)) (EditGetRoom client data))
  | CloseSessionEv client data =>
      spawn w (Waiting (FindById (jp_roomId data)) (CloseGetRoom client data))
  | CursorEv client data => lift w (handleCursor now client data (shared w))
  | SelectionEv client data => lift w (handleSelection now client data (shared w))
  | CodeEditEv client data => lift w (handleCodeEdit now client data (shared w))
  | EditMemberEv client data => lift w (handleEditMember client data (shared w))
  | DisconnectEv client => lift w (handleDisconnect client (shared w))
  end.

Definition wstep (st : Step) (w : World) : Move :=
  match st with
  | Arrive now ev => arrive now ev w
  | Serve i =>
      match nth_error (tasks w) i with
      | Some (Waiting q a) =>
          let (r, table') := serve q (table (shared w)) in
          still {| shared := withTable (shared w) table';
                   tasks := setNth i (Answered r a) (tasks w) |}
      | _ => still w
      end
  | Refuse i =>
      match nth_error (tasks w) i with
      | Some (Waiting q a) =>
          still {| shared := shared w; tasks := setNth i (Answered Failed a) (tasks w) |}
      | _ => still w
      end
  | Resume now i =>
      match nth_error (tasks w) i with
      | Some (Answered r a) =>
          let (o, t) := resumeAwait a r (shared w) in
          {| world := {| shared := state o; tasks := settle i t (tasks w) |};
             sent := effects o; raised := thrown o |}
      | Some (Joining client data room) =>
          let o := joinPost now client data room (shared w) in
          {| world := {| shared := state o; tasks := dropNth i (tasks w) |};
             sent := effects o; raised := thrown o |}
      | _ => still w
      end
  | Outside q =>
      still {| shared := withTable (shared w) (snd (serve q (table (shared w))));
               tasks := tasks w |}
  end.

(** The world after a list of steps, and what was sent on the way. *)
Fixpoint wrun (steps : list Step) (w : World) : World :=
  match steps with
  | [] => w
  | st :: rest => wrun rest (world (wstep st w))
  end.

Fixpoint wsent (steps : list Step) (w : World) : list Effect :=
  match steps with
  | [] => []
  | st :: rest => sent (wstep st w) ++ wsent rest (world (wstep st w))
  end.

(** A process starts with an empty registry, no document and no call in
    flight. *)
Definition start (rooms : list RoomRdo) : World :=
  {| shared := initial rooms; tasks := [] |}.

(** The worlds the system can be in. *)
Inductive interleaved : World -> Prop :=
| interleaved_start : forall rooms, interleaved (start rooms)
| interleaved_step : forall w st, interleaved w -> interleaved (world (wstep st w)).


(** A call runs with nothing in between: the store executes each of its
    queries as soon as it is sent and the call resumes at once. *)
Fixpoint uninterrupted (fuel : nat) (now : Z) (i : nat) (m : Move) : Move :=
  match fuel with
  | O => m
  | S k =>
      match raised m, nth_error (tasks (world m)) i with
      | None, Some (Waiting _ _) =>
          uninterrupted k now i
            {| world := world (wstep (Serve i) (world m)); sent := sent m; raised := None |}
      | None, Some _ =>
          let m' := wstep (Resume now i) (world m) in
          uninterrupted k now i
            {| world := world m'; sent := sent m ++ sent m'; raised := raised m' |}
      | _, _ => m
      end
  end.

End Interleaving.


(** A row that does not say that room [rid] is open. *)
Definition closedRow (rid : string) (row : RoomRdo) : Prop :=
  r_id row = rid -> r_completed row = true.

(** The rows a task holds: the reply on its way, the record with which the
    rest of [handleJoinRoom] will run, a row to create. *)
Definition closedTask (rid : string) (t : Task) : Prop :=
  match t with
  | Waiting (Create row) _ => closedRow rid row
  | Answered (Row (Some row)) _ => closedRow rid row
  | Joining _ _ room => closedRow rid room
  | _ => True
  end.

(** Room [rid] is closed and nothing is left that says otherwise: no row of
    the table, no room of the registry, no row held by a call in flight. *)
Definition closed {Y : YEngine} (rid : string) (w : World) : Prop :=
  Forall (closedRow rid) (table (shared w))
  /\ Forall (fun a => id a = rid -> completed a = true) (activeRooms (shared w))
  /\ Forall (closedTask rid) (tasks w).

(** The step does not create a record that says that room [rid] is open. *)
Definition keepsClosed (rid : string) (st : Step) : Prop :=
  match st with
  | Outside (Create row) => closedRow rid row
  | _ => True
  end.

(** A member has the color of its identity and a selection of one of the
    four shapes. *)
Definition memberFine (m : Member) : Prop :=
  memberOk m /\ wellShaped (lastSelection m) = true.

(** A room has one member per identity, and its members are fine. *)
Definition roomFine (r : Room) : Prop :=
  NoDup (map telegramId (members r)) /\ Forall memberFine (members r).

(** The registry holds one room per identifier, and its rooms are fine. *)
Definition wellFormed (rooms : list Room) : Prop :=
  NoDup (map id rooms) /\ Forall roomFine rooms.

(** The sample process after a list of steps. *)
Definition wafter (steps : list Step) : @World logEngine :=
  wrun steps (start sampleTable).

(** The steps of a join of a participant when no other call is in flight:
    the event, the query of [getRoom], the call up to [client.join], the
    rest of the call. *)
Definition joins (now : Z) (client tid rid : string) : list Step :=
  [Arrive now (join client tid rid); Serve 0; Resume now 0; Resume now 0].

Definition onlyEdit (tid rid : string) (b : bool) : EditPayload :=
  {| ep_roomId := rid; ep_telegramId := tid; ep_studentCursorEnabled := None;
     ep_studentEditCodeEnabled := Some b; ep_studentSelectionEnabled := None;
     ep_language := None; ep_taskId := None |}.

(** The teacher of the open room turns the code editing of the students
    off and, before that call is over, turns their cursor off: two
    edit-room events one after the other, the store executing the queries
    of the two calls in the order they were sent, and each call resuming as
    its reply comes.  The last step, the second call resuming from
    [editRoom], is left out: [overlappingEdits] is what it finds. *)
Definition overlappingEdits : list Step :=
  joins 1 "c0" "1000" "open" ++ joins 2 "c1" "2001" "open"
  ++ [ Arrive 3 (EditRoomEv "c0" (onlyEdit "1000" "open" false));
       Arrive 4 (EditRoomEv "c0" (onlyCursor "1000" "open" false));
       Serve 0; Serve 1; Resume 5 0; Resume 5 1;
       Serve 0; Serve 1; Resume 6 0; Resume 6 1;
       Serve 0; Serve 1; Resume 7 0 ].


Definition closeOpen : JoinPayload :=
  {| jp_telegramId := "1000"; jp_username := None; jp_roomId := "open" |}.

(** The teacher and a student are in the open room and the teacher closes
    the session: the call has read the record and sent the query of
    [completeRoom]. *)
Definition closing : list Step :=
  joins 1 "c0" "1000" "open" ++ joins 2 "c1" "2001" "open"
  ++ [ Arrive 3 (CloseSessionEv "c0" closeOpen); Serve 0; Resume 4 0 ].

(** A student joins the open room while the teacher, alone in it, closes
    the session: the store answers the [getRoom] of the join before it
    completes the record, and the join resumes after the close-session call
    is over.  The last step, the join running from line 169 on, is left
    out. *)
Definition joinOverClose : list Step :=
  joins 1 "c0" "1000" "open"
  ++ [ Arrive 2 (join "c1" "2001" "open"); Serve 0;
       Arrive 3 (CloseSessionEv "c0" closeOpen); Serve 1; Resume 4 1; Serve 1; Resume 5 1;
       Resume 6 0 ].

(** What the registry shows of the toggles of its rooms: identifier,
    cursor, selection, edit. *)
Definition togglesView {Y : YEngine} (s : State)
    : list (string * option bool * option bool * option bool) :=
  map (fun r => (id r, studentCursorEnabled r, studentSelectionEnabled r,
                 studentEditCodeEnabled r))
      (activeRooms s).

(** ** Lists *)

Lemma eqb_true (a b : string) : (a =? b) = true -> a = b.
Proof. apply String.eqb_eq. Qed.

Lemma updateFirst_none {A : Type} (p : A -> bool) (f : A -> A) (l : list A) :
  find p l = None -> updateFirst p f l = l.
Proof.
  induction l as [|x t IH]; simpl; intros H; [reflexivity|].
  destruct (p x); [discriminate|]. now rewrite IH.
Qed.

Lemma find_split {A : Type} (p : A -> bool) (l : list A) (a : A) :
  find p l = Some a ->
  exists pre post, l = pre ++ a :: post /\ find p pre = None /\ p a = true.
Proof.
  induction l as [|x t IH]; simpl; intros H; [discriminate|].
  destruct (p x) eqn:E.
  - injection H as ->. exists [], t. auto.
  - destruct (IH H) as (pre & post & -> & Hpre & Ha).
    exists (x :: pre), post. simpl. rewrite E. auto.
Qed.

Lemma find_app_none {A : Type} (p : A -> bool) (pre l : list A) :
  find p pre = None -> find p (pre ++ l) = find p l.
Proof.
  induction pre as [|x t IH]; simpl; intros H; [reflexivity|].
  destruct (p x); [discriminate|]. auto.
Qed.

Lemma updateFirst_app_none {A : Type} (p : A -> bool) (f : A -> A) (pre l : list A) :
  find p pre = None -> updateFirst p f (pre ++ l) = pre ++ updateFirst p f l.
Proof.
  induction pre as [|x t IH]; simpl; intros H; [reflexivity|].
  destruct (p x); [discriminate|]. now rewrite IH.
Qed.

Lemma updateFirst_found {A : Type} (p : A -> bool) (f : A -> A) (l : list A) (a : A) :
  find p l = Some a ->
  exists pre post,
    l = pre ++ a :: post /\ find p pre = None /\ p a = true
    /\ updateFirst p f l = pre ++ f a :: post.
Proof.
  intros H. destruct (find_split p l a H) as (pre & post & -> & Hpre & Ha).
  exists pre, post. repeat split; auto.
  rewrite updateFirst_app_none by assumption. simpl. now rewrite Ha.
Qed.

Lemma map_updateFirst {A B : Type} (g : A -> B) (p : A -> bool) (f : A -> A) (l : list A) :
  (forall x, g (f x) = g x) -> map g (updateFirst p f l) = map g l.
Proof.
  intros Hg. induction l as [|x t IH]; simpl; [reflexivity|].
  destruct (p x); simpl; [now rewrite Hg | now rewrite IH].
Qed.

Lemma Forall_updateFirst {A : Type} (P : A -> Prop) (p : A -> bool) (f : A -> A)
    (l : list A) :
  (forall x, P x -> P (f x)) -> Forall P l -> Forall P (updateFirst p f l).
Proof.
  intros Hf. induction 1 as [|x t Hx Ht IH]; simpl; [constructor|].
  destruct (p x); constructor; auto.
Qed.

Lemma find_updateFirst {A : Type} (p : A -> bool) (f : A -> A) (l : list A) :
  (forall x, p (f x) = p x) ->
  find p (updateFirst p f l) =
  match find p l with Some x => Some (f x) | None => None end.
Proof.
  intros Hp. induction l as [|x t IH]; simpl; [reflexivity|].
  destruct (p x) eqn:E; simpl.
  - now rewrite Hp, E.
  - now rewrite E.
Qed.

Lemma In_removeFirst {A : Type} (p : A -> bool) (l : list A) (x : A) :
  In x (removeFirst p l) -> In x l.
Proof.
  induction l as [|y t IH]; simpl; [tauto|].
  destruct (p y); simpl; intuition.
Qed.

Lemma Forall_removeFirst {A : Type} (P : A -> Prop) (p : A -> bool) (l : list A) :
  Forall P l -> Forall P (removeFirst p l).
Proof.
  rewrite !Forall_forall. intros H x Hx. apply H. eapply In_removeFirst; eauto.
Qed.

Lemma In_map_removeFirst {A B : Type} (g : A -> B) (p : A -> bool) (l : list A) (b : B) :
  In b (map g (removeFirst p l)) -> In b (map g l).
Proof.
  rewrite !in_map_iff. intros (x & <- & Hx). exists x. split; [reflexivity|].
  eapply In_removeFirst; eauto.
Qed.

Lemma NoDup_map_removeFirst {A B : Type} (g : A -> B) (p : A -> bool) (l : list A) :
  NoDup (map g l) -> NoDup (map g (removeFirst p l)).
Proof.
  induction l as [|y t IH]; simpl; intros H; [constructor|].
  inversion H as [|? ? Hy Ht]; subst.
  destruct (p y); [assumption|]. simpl. constructor; auto.
  intros Hin. apply Hy. eapply In_map_removeFirst; eauto.
Qed.

Lemma In_filter_sub {A : Type} (p : A -> bool) (l : list A) (x : A) :
  In x (filter p l) -> In x l.
Proof. rewrite filter_In. tauto. Qed.

Lemma NoDup_map_filter {A B : Type} (g : A -> B) (p : A -> bool) (l : list A) :
  NoDup (map g l) -> NoDup (map g (filter p l)).
Proof.
  induction l as [|y t IH]; simpl; intros H; [constructor|].
  inversion H as [|? ? Hy Ht]; subst.
  destruct (p y); simpl; auto. constructor; auto.
  intros Hin. apply Hy. rewrite in_map_iff in *.
  destruct Hin as (x & E & Hx). exists x. split; [assumption|].
  eapply In_filter_sub; eauto.
Qed.

Lemma Forall_filter {A : Type} (P : A -> Prop) (p : A -> bool) (l : list A) :
  Forall P l -> Forall P (filter p l).
Proof.
  rewrite !Forall_forall. intros H x Hx. apply H. eapply In_filter_sub; eauto.
Qed.

(** With one element per key, the first element with a key is the only one. *)
Lemma find_key_unique {A : Type} (key : A -> string) (k : string)
    (pre post : list A) (a : A) :
  NoDup (map key (pre ++ a :: post)) -> key a = k ->
  find (fun x => key x =? k) (pre ++ post) = None.
Proof.
  intros Hnd Hk.
  destruct (find (fun x => key x =? k) (pre ++ post)) as [y|] eqn:E; [|reflexivity].
  exfalso. apply find_some in E. destruct E as [Hin Hy]. apply eqb_true in Hy.
  rewrite map_app in Hnd. simpl in Hnd. apply NoDup_remove_2 in Hnd.
  apply Hnd. rewrite <- map_app, Hk, <- Hy. now apply in_map.
Qed.

Lemma find_none_not_in {A : Type} (key : A -> string) (k : string) (l : list A) :
  find (fun x => key x =? k) l = None -> ~ In k (map key l).
Proof.
  intros H Hin. rewrite in_map_iff in Hin. destruct Hin as (x & E & Hx).
  pose proof (find_none _ _ H x Hx) as Hf. simpl in Hf.
  rewrite E, String.eqb_refl in Hf. discriminate.
Qed.

Lemma filter_key_le1 {A : Type} (key : A -> string) (k : string) (l : list A) :
  NoDup (map key l) -> length (filter (fun x => key x =? k) l) <= 1.
Proof.
  induction l as [|y t IH]; simpl; intros H; [lia|].
  inversion H as [|? ? Hy Ht]; subst.
  destruct (key y =? k) eqn:E; [|auto].
  apply eqb_true in E. simpl.
  assert (filter (fun x => key x =? k) t = []) as ->; [|simpl; lia].
  destruct (filter (fun x => key x =? k) t) as [|z zs] eqn:F; [reflexivity|].
  exfalso. assert (In z (filter (fun x => key x =? k) t)) as Hz by (rewrite F; left; reflexivity).
  apply filter_In in Hz. destruct Hz as [Hz Hk]. apply eqb_true in Hk.
  apply Hy. rewrite E, <- Hk. now apply in_map.
Qed.

(** ** The durable table *)

Lemma findUnique_id (t : list RoomRdo) (rid : string) (d : RoomRdo) :
  findUnique t rid = Some d -> r_id d = rid.
Proof.
  unfold findUnique. intros H. apply find_some in H. destruct H as [_ H].
  now apply eqb_true.
Qed.

Lemma getRoom_findUnique (t : list RoomRdo) (rid : string) :
  getRoom t rid = findUnique t rid.
Proof. unfold getRoom, fillDto. now destruct (findUnique t rid). Qed.

(** An update that keeps identifiers and completed flags keeps the
    completed flag every identifier resolves to. *)
Lemma prismaUpdate_completedOf (t t' : list RoomRdo) (w : RoomRdo -> bool)
    (f : RoomRdo -> RoomRdo) (u : RoomRdo) :
  (forall r, r_id (f r) = r_id r) -> (forall r, r_completed (f r) = r_completed r) ->
  prismaUpdate t w f = Some (u, t') ->
  forall rid, completedOf t' rid = completedOf t rid.
Proof.
  intros Hid Hc. revert t' u.
  induction t as [|r t IH]; simpl; intros t' u H rid; [discriminate|].
  destruct (w r).
  - injection H as <- <-. unfold completedOf, findUnique. simpl.
    rewrite Hid. destruct (r_id r =? rid); [now rewrite Hc | reflexivity].
  - destruct (prismaUpdate t w f) as [[u0 t0]|] eqn:E; [|discriminate].
    injection H as <- <-. specialize (IH _ _ eq_refl rid).
    unfold completedOf, findUnique in *. simpl.
    destruct (r_id r =? rid); [reflexivity | exact IH].
Qed.

(** An update of the rows of one identifier leaves the others alone. *)
Lemma prismaUpdate_other (t t' : list RoomRdo) (w : RoomRdo -> bool)
    (f : RoomRdo -> RoomRdo) (u : RoomRdo) (rid : string) :
  (forall r, r_id (f r) = r_id r) -> (forall r, w r = true -> r_id r = rid) ->
  prismaUpdate t w f = Some (u, t') ->
  forall rid', rid' <> rid -> findUnique t' rid' = findUnique t rid'.
Proof.
  intros Hid Hw. revert t' u.
  induction t as [|r t IH]; simpl; intros t' u H rid' Hne; [discriminate|].
  destruct (w r) eqn:E.
  - injection H as <- <-. unfold findUnique. simpl. rewrite Hid.
    destruct (r_id r =? rid') eqn:E'; [|reflexivity].
    apply eqb_true in E'. apply Hw in E. congruence.
  - destruct (prismaUpdate t w f) as [[u0 t0]|] eqn:E0; [|discriminate].
    injection H as <- <-. specialize (IH _ _ eq_refl rid' Hne).
    unfold findUnique in *. simpl. destruct (r_id r =? rid'); [reflexivity | exact IH].
Qed.

(** The row an update by identifier returns is the updated first row. *)
Lemma prismaUpdate_byId (t t' : list RoomRdo) (rid : string)
    (f : RoomRdo -> RoomRdo) (u : RoomRdo) :
  prismaUpdate t (fun r => r_id r =? rid) f = Some (u, t') ->
  exists d, findUnique t rid = Some d /\ u = f d.
Proof.
  revert t' u. induction t as [|r t IH]; simpl; intros t' u H; [discriminate|].
  unfold findUnique. simpl. destruct (r_id r =? rid).
  - injection H as <- <-. eauto.
  - destruct (prismaUpdate t _ f) as [[u0 t0]|] eqn:E; [|discriminate].
    injection H as <- <-. destruct (IH _ _ eq_refl) as (d & Hd & ->). eauto.
Qed.

(** An update succeeds when a row matches. *)
Lemma prismaUpdate_some (t : list RoomRdo) (w : RoomRdo -> bool)
    (f : RoomRdo -> RoomRdo) (d : RoomRdo) :
  find w t = Some d -> exists t', prismaUpdate t w f = Some (f d, t').
Proof.
  induction t as [|r t IH]; simpl; intros H; [discriminate|].
  destruct (w r).
  - injection H as ->. eauto.
  - destruct (IH H) as (t' & ->). eauto.
Qed.

(** What [joinRoom] returns for a room the table holds: the room, with its
    identifier, teacher, flags and language, and a table in which every
    identifier resolves to the completed flag it had. *)
Lemma joinRoom_spec (t t' : list RoomRdo) (rid member : string) (room : RoomRdo) :
  joinRoom t rid member = Some (room, t') ->
  exists d, findUnique t rid = Some d
    /\ r_id room = rid /\ r_teacher room = r_teacher d
    /\ r_completed room = r_completed d /\ r_language room = r_language d
    /\ forall rid', completedOf t' rid' = completedOf t rid'.
Proof.
  unfold joinRoom, fillDto. destruct (findUnique t rid) as [d|] eqn:E; [|discriminate].
  pose proof (findUnique_id _ _ _ E) as Hid.
  destruct (truthyStr _ || _).
  - intros H. injection H as <- <-. exists d. auto 10.
  - destruct (prismaUpdate t _ (pushStudent member)) as [[u t0]|] eqn:U; [|discriminate].
    intros H. injection H as <- <-. exists d. rewrite Hid in U.
    destruct (prismaUpdate_byId _ _ _ _ _ U) as (d' & Hd' & ->).
    rewrite E in Hd'. injection Hd' as <-. simpl.
    split; [reflexivity|]. split; [exact Hid|]. split; [reflexivity|].
    split; [reflexivity|]. split; [reflexivity|].
    intros rid'. eapply prismaUpdate_completedOf; [| |exact U]; reflexivity.
Qed.

(** [joinRoom] does not throw on a room the table holds. *)
Lemma joinRoom_some (t : list RoomRdo) (rid member : string) (d : RoomRdo) :
  findUnique t rid = Some d -> exists room t', joinRoom t rid member = Some (room, t').
Proof.
  intros E. unfold joinRoom. rewrite E. destruct (truthyStr _ || _); [eauto|].
  pose proof (findUnique_id _ _ _ E) as Hid. rewrite Hid.
  destruct (prismaUpdate_some t (fun r => r_id r =? rid) (pushStudent member) d E)
    as (t' & ->). eauto.
Qed.

(** What [editRoom] returns: a room with the identifier asked for, and a
    table in which every identifier resolves to the completed flag it had. *)
Lemma editRoom_spec (t t' : list RoomRdo) (rid : string) (dto : EditPayload)
    (room : RoomRdo) :
  editRoom t rid dto = Some (room, t') ->
  r_id room = rid /\ forall rid', completedOf t' rid' = completedOf t rid'.
Proof.
  unfold editRoom, fillDto.
  destruct (find _ t) as [cur|] eqn:E; [|discriminate].
  destruct (prismaUpdate t _ (editData dto cur)) as [[u t0]|] eqn:U; [|discriminate].
  intros H. injection H as <- <-. split.
  - destruct (prismaUpdate_some t _ (editData dto cur) cur E) as (t1 & U1).
    rewrite U in U1. injection U1 as -> _. simpl.
    apply find_some in E. destruct E as [_ E].
    apply andb_true_iff in E. destruct E as [E _]. now apply eqb_true.
  - intros rid'. eapply prismaUpdate_completedOf; [| |exact U]; reflexivity.
Qed.

(** [completeRoom] leaves the rows of the other rooms alone. *)
Lemma completeRoom_other (t t' : list RoomRdo) (rid : string) :
  completeRoom t rid = Some t' ->
  forall rid', rid' <> rid -> completedOf t' rid' = completedOf t rid'.
Proof.
  unfold completeRoom.
  destruct (prismaUpdate t _ markCompleted) as [[u t0]|] eqn:U; [|discriminate].
  intros H rid' Hne. injection H as <-. unfold completedOf.
  rewrite (prismaUpdate_other t t0 _ markCompleted u rid
             (fun r => eq_refl) (fun r Hr => eqb_true _ _ Hr) U rid' Hne).
  reflexivity.
Qed.

(** [completeRoom] sets the completed flag of the room. *)
Lemma completeRoom_done (t t' : list RoomRdo) (rid : string) :
  completeRoom t rid = Some t' -> completedOf t' rid = Some true.
Proof.
  unfold completeRoom.
  destruct (prismaUpdate t _ markCompleted) as [[u t0]|] eqn:U; [|discriminate].
  intros H. injection H as <-. revert u t0 U.
  induction t as [|r t IH]; simpl; intros u t0 U; [discriminate|].
  destruct (r_id r =? rid) eqn:E.
  - injection U as <- <-. unfold completedOf, findUnique. simpl. now rewrite E.
  - destruct (prismaUpdate t _ markCompleted) as [[u1 t1]|] eqn:U1; [|discriminate].
    injection U as <- <-. unfold completedOf, findUnique in *. simpl. rewrite E.
    eapply IH; eauto.
Qed.

Section Properties.
Context {Y : YEngine}.

(** ** The invariant holds in every reachable state *)

Lemma roomOk_members (a : Room) (ms : list Member) :
  roomOk a -> NoDup (map telegramId ms) -> Forall memberOk ms ->
  roomOk (withMembers a ms).
Proof. intros (_ & _ & Ht) Hn Hm. unfold roomOk. simpl. auto. Qed.

(** Updating a member in place, identity and color kept, keeps the member
    list well formed. *)
Lemma members_update (a : Room) (p : Member -> bool) (g : Member -> Member) :
  (forall m, telegramId (g m) = telegramId m) ->
  (forall m, userColor (g m) = userColor m) ->
  roomOk a ->
  NoDup (map telegramId (updateFirst p g (members a)))
  /\ Forall memberOk (updateFirst p g (members a)).
Proof.
  intros Ht Hc Ha. split.
  - rewrite map_updateFirst by assumption. apply Ha.
  - apply Forall_updateFirst; [|apply Ha].
    intros m Hm. unfold memberOk in *. now rewrite Hc, Ht.
Qed.

Lemma Inv_replace (s : State) (pre post : list Room) (a r' : Room)
    (ds : list (string * Doc)) :
  Inv s -> activeRooms s = pre ++ a :: post ->
  id r' = id a -> completed r' = completed a -> roomOk r' ->
  Inv {| activeRooms := pre ++ r' :: post; docs := ds; table := table s |}.
Proof.
  intros (Hn & Ho & Hs) E Hid Hc Hr. rewrite E in *. unfold Inv. simpl.
  rewrite map_app in *. simpl in *. rewrite Hid.
  apply Forall_app in Ho. destruct Ho as [Ho1 Ho2].
  apply Forall_app in Hs. destruct Hs as [Hs1 Hs2].
  inversion Ho2; subst. inversion Hs2; subst.
  split; [assumption|]. split; apply Forall_app; split; auto.
  constructor; auto. unfold synced in *. now rewrite Hid, Hc.
Qed.

(** The registry after a handler has replaced the member list of the room
    it found. *)
Lemma Inv_update (s : State) (rid : string) (a : Room) (ms : list Member)
    (ds : list (string * Doc)) :
  Inv s -> find (byId rid) (activeRooms s) = Some a ->
  NoDup (map telegramId ms) -> Forall memberOk ms ->
  Inv {| activeRooms := updateFirst (byId rid) (fun r => withMembers r ms) (activeRooms s);
         docs := ds; table := table s |}.
Proof.
  intros HI Hf Hn Hm.
  destruct (updateFirst_found _ (fun r => withMembers r ms) _ _ Hf)
    as (pre & post & E & _ & _ & ->).
  eapply Inv_replace; eauto.
  apply roomOk_members; auto.
  destruct HI as (_ & Ho & _). rewrite E in Ho.
  apply Forall_app in Ho. destruct Ho as [_ Ho]. now inversion Ho.
Qed.

Lemma Inv_room (s : State) (r : Room) :
  Inv s -> In r (activeRooms s) -> roomOk r /\ synced (table s) r.
Proof.
  intros (_ & Ho & Hs) Hin. rewrite Forall_forall in Ho, Hs. auto.
Qed.

Lemma Inv_found (s : State) (rid : string) (a : Room) :
  Inv s -> find (byId rid) (activeRooms s) = Some a ->
  roomOk a /\ synced (table s) a /\ id a = rid.
Proof.
  intros HI Hf. apply find_some in Hf. destruct Hf as [Hin Hid].
  destruct (Inv_room _ _ HI Hin) as [Ho Hs].
  split; [exact Ho|]. split; [exact Hs|]. now apply eqb_true.
Qed.

(** A table in which every identifier resolves to the completed flag it
    had keeps the invariant. *)
Lemma Inv_table (s : State) (t' : list RoomRdo) (ds : list (string * Doc)) :
  Inv s -> (forall rid, completedOf t' rid = completedOf (table s) rid) ->
  Inv {| activeRooms := activeRooms s; docs := ds; table := t' |}.
Proof.
  intros (Hn & Ho & Hs) Ht. unfold Inv. simpl. repeat split; auto.
  eapply Forall_impl; [|exact Hs]. intros r Hr. unfold synced in *. now rewrite Ht.
Qed.

Lemma Inv_push (s : State) (r : Room) :
  Inv s -> find (byId (id r)) (activeRooms s) = None ->
  roomOk r -> synced (table s) r ->
  Inv {| activeRooms := activeRooms s ++ [r]; docs := docs s; table := table s |}.
Proof.
  intros (Hn & Ho & Hs) Hf Hr Hy. unfold Inv. simpl.
  split; [|split; apply Forall_app; split; auto].
  rewrite map_app. simpl.
  apply NoDup_app; [assumption | repeat constructor; simpl; tauto |].
  intros x Hx [<-|[]]. revert Hx. now apply find_none_not_in.
Qed.

Lemma activate_ok (room : RoomRdo) : roomOk (activate room).
Proof.
  unfold roomOk, activate. simpl. repeat split; try constructor.
  - now destruct (r_studentCursorEnabled room).
  - now destruct (r_studentSelectionEnabled room).
  - now destruct (r_studentEditCodeEnabled room).
Qed.

Lemma Inv_handleCursor (now : Z) (client : string) (data : CursorPayload) (s : State) :
  Inv s -> Inv (state (handleCursor now client data s)).
Proof.
  intros HI. unfold handleCursor.
  destruct (find _ (activeRooms s)) as [a|] eqn:F; [|exact HI].
  destruct (completed a); [exact HI|].
  destruct (negb (truthyBool _)); [exact HI|].
  destruct (negb _); [exact HI|]. simpl.
  destruct (Inv_found _ _ _ HI F) as (Ha & _ & _).
  destruct (members_update a (byTelegramId (cp_telegramId data))
              (fun m => touch now (withCursor (cursorOf (cp_position data)) m))
              (fun _ => eq_refl) (fun _ => eq_refl) Ha) as [Hn Hm].
  apply (Inv_update s _ a _ (docs s) HI F Hn Hm).
Qed.

Lemma select_telegramId (data : SelectionPayload) (m : Member) :
  telegramId (select data m) = telegramId m.
Proof. unfold select. now destruct (isPoint data), (isRange data), (isClear data). Qed.

Lemma select_userColor (data : SelectionPayload) (m : Member) :
  userColor (select data m) = userColor m.
Proof. unfold select. now destruct (isPoint data), (isRange data), (isClear data). Qed.

Lemma Inv_handleSelection (now : Z) (client : string) (data : SelectionPayload) (s : State) :
  Inv s -> Inv (state (handleSelection now client data s)).
Proof.
  intros HI. unfold handleSelection.
  destruct (find _ (activeRooms s)) as [a|] eqn:F; [|exact HI].
  destruct (completed a && _); [exact HI|].
  destruct (negb (truthyBool _) && _); [exact HI|]. simpl.
  destruct (Inv_found _ _ _ HI F) as (Ha & _ & _).
  destruct (members_update a (byTelegramId (sp_telegramId data))
              (fun m => select data (touch now m))
              (fun m => select_telegramId data _) (fun m => select_userColor data _) Ha)
    as [Hn Hm].
  apply (Inv_update s _ a _ (docs s) HI F Hn Hm).
Qed.

Lemma Inv_handleCodeEdit (now : Z) (client : string) (data : CodeEditPayload) (s : State) :
  Inv s -> Inv (state (handleCodeEdit now client data s)).
Proof.
  intros HI. unfold handleCodeEdit.
  destruct (find _ (activeRooms s)) as [a|] eqn:F; [|exact HI].
  destruct (completed a && _); [exact HI|].
  destruct (negb (truthyBool _) && _); [exact HI|].
  destruct (ce_telegramId data =? ""); [exact HI|].
  destruct (getOrCreateDoc _ _) as [doc docs1].
  destruct (Inv_found _ _ _ HI F) as (Ha & _ & _).
  destruct (members_update a (byTelegramId (ce_telegramId data)) (touch now)
              (fun _ => eq_refl) (fun _ => eq_refl) Ha) as [Hn Hm].
  destruct (applyUpdate doc _); simpl; apply (Inv_update s _ a _ _ HI F Hn Hm).
Qed.

Lemma Inv_handleEditMember (client : string) (data : EditMember) (s : State) :
  Inv s -> Inv (state (handleEditMember client data s)).
Proof.
  intros HI. unfold handleEditMember.
  destruct (find _ (activeRooms s)) as [a|] eqn:F; [|exact HI].
  destruct (completed a); [exact HI|].
  destruct (find _ (members a)) as [m|]; [|exact HI].
  destruct (_ || _); [|exact HI]. simpl.
  destruct (Inv_found _ _ _ HI F) as (Ha & _ & _).
  destruct (members_update a (byTelegramId (em_changeTelegramId data))
              (withUsername (em_username data))
              (fun _ => eq_refl) (fun _ => eq_refl) Ha) as [Hn Hm].
  apply (Inv_update s _ a _ (docs s) HI F Hn Hm).
Qed.

Lemma Inv_map (s : State) (g : Room -> Room) :
  Inv s ->
  (forall r, In r (activeRooms s) ->
     id (g r) = id r /\ completed (g r) = completed r /\ roomOk (g r)) ->
  Inv {| activeRooms := map g (activeRooms s); docs := docs s; table := table s |}.
Proof.
  intros (Hn & Ho & Hs) Hg. unfold Inv. simpl.
  assert (map id (map g (activeRooms s)) = map id (activeRooms s)) as ->.
  { rewrite map_map. apply map_ext_in. intros r Hr. apply Hg, Hr. }
  split; [assumption|]. rewrite Forall_forall in Ho, Hs.
  split; apply Forall_forall; intros x Hx; apply in_map_iff in Hx;
    destruct Hx as (r & <- & Hr); destruct (Hg r Hr) as (Hid & Hc & Hok); auto.
  unfold synced. rewrite Hid, Hc. now apply Hs.
Qed.

Lemma mergedToggle_some (given : option bool) (a : Room) (proj : Room -> option bool)
    (durable : option bool) :
  isSome (proj a) = true -> isSome (mergedToggle given (Some a) proj durable) = true.
Proof.
  intros H. unfold mergedToggle. destruct given; [reflexivity|].
  now destruct (proj a).
Qed.

Lemma Inv_handleEditRoom (client : string) (data : EditPayload) (s : State) :
  Inv s -> Inv (state (handleEditRoom client data s)).
Proof.
  intros HI. unfold handleEditRoom.
  destruct (getRoom _ _) as [room|] eqn:G; [|exact HI].
  destruct (negb _); [exact HI|]. destruct (r_completed room); [exact HI|].
  destruct (editRoom _ _ _) as [[u t']|] eqn:E; [|exact HI]. simpl.
  destruct (editRoom_spec _ _ _ _ _ E) as [Hid Hc].
  pose proof (Inv_table s t' (docs s) HI Hc) as HI1.
  refine (Inv_map _ _ HI1 _). simpl. intros r Hr.
  destruct (id r =? r_id u) eqn:Er; [|split; [|split]; auto; now apply (Inv_room s)].
  simpl. split; [reflexivity|]. split; [reflexivity|].
  apply eqb_true in Er. rewrite Hid in Er.
  destruct (find (byId (r_id room)) (activeRooms s)) as [a|] eqn:F.
  - destruct (Inv_found _ _ _ HI F) as ((_ & _ & Hc1 & Hc2 & Hc3) & _ & _).
    destruct (Inv_room s r HI Hr) as ((Hn & Hm & _) & _).
    unfold roomOk. simpl. repeat split; auto using mergedToggle_some.
  - pose proof (find_none _ _ F r Hr) as Hf. unfold byId in Hf.
    rewrite Er, String.eqb_refl in Hf. discriminate.
Qed.

Lemma Inv_handleCloseSession (client : string) (data : JoinPayload) (s : State) :
  Inv s -> Inv (state (handleCloseSession client data s)).
Proof.
  intros HI. unfold handleCloseSession.
  destruct (getRoom _ _) as [room|] eqn:G; [|exact HI].
  destruct (negb _); [exact HI|]. destruct (r_completed room); [exact HI|].
  destruct (completeRoom _ _) as [t'|] eqn:E; [|exact HI]. simpl.
  rewrite getRoom_findUnique in G. apply findUnique_id in G.
  destruct HI as (Hn & Ho & Hs). unfold Inv. simpl.
  split; [now apply NoDup_map_filter|].
  split; [now apply Forall_filter|].
  rewrite Forall_forall in *. intros r Hr. apply filter_In in Hr.
  destruct Hr as [Hr Hne]. unfold synced.
  rewrite (completeRoom_other _ _ _ E); [now apply Hs|].
  intros Heq. rewrite G, Heq, String.eqb_refl in Hne. discriminate.
Qed.

(** What the loop of [handleDisconnect] finds and changes. *)
Lemma reap_spec (client : string) (rooms rooms1 : list Room) (r' : Room) (m' : Member) :
  reap client rooms = Some (r', m', rooms1) ->
  exists pre a post m,
    rooms = pre ++ a :: post
    /\ Forall (fun r => find (byClientId client) (members r) = None) pre
    /\ find (byClientId client) (members a) = Some m
    /\ r' = withMembers a (updateFirst (byClientId client) markOffline (members a))
    /\ m' = markOffline m
    /\ rooms1 = pre ++ r' :: post.
Proof.
  revert rooms1. induction rooms as [|r t IH]; simpl; intros rooms1 H; [discriminate|].
  destruct (find (byClientId client) (members r)) as [m|] eqn:F.
  - injection H as <- <- <-. exists [], r, t, m. simpl. auto 10.
  - destruct (reap client t) as [[[r0 m0] t0]|] eqn:R; [|discriminate].
    injection H as <- <- <-.
    destruct (IH _ eq_refl) as (pre & a & post & m & -> & Hpre & Hm & Hr & Hm' & ->).
    exists (r :: pre), a, post, m. simpl. auto 10.
Qed.

Lemma Inv_removeFirst (s : State) (p : Room -> bool) :
  Inv s -> Inv (withRooms s (removeFirst p (activeRooms s))).
Proof.
  intros (Hn & Ho & Hs). unfold Inv. simpl.
  auto using NoDup_map_removeFirst, Forall_removeFirst.
Qed.

Lemma Inv_handleDisconnect (client : string) (s : State) :
  Inv s -> Inv (state (handleDisconnect client s)).
Proof.
  intros HI. unfold handleDisconnect.
  destruct (reap client (activeRooms s)) as [[[r' m'] rooms1]|] eqn:R; [|exact HI].
  destruct (reap_spec _ _ _ _ _ R) as (pre & a & post & m & E & _ & _ & Hr & _ & ->).
  assert (In a (activeRooms s)) as Hin by (rewrite E; apply in_elt).
  destruct (Inv_room _ _ HI Hin) as [Ha _].
  destruct (members_update a (byClientId client) markOffline
              (fun _ => eq_refl) (fun _ => eq_refl) Ha) as [Hn Hm].
  assert (Inv {| activeRooms := pre ++ r' :: post; docs := docs s; table := table s |}) as HI1.
  { eapply Inv_replace; eauto; subst r'; try reflexivity.
    now apply roomOk_members. }
  simpl. destruct (length _ =? 0)%nat; [|exact HI1].
  apply (Inv_removeFirst _ _ HI1).
Qed.

Lemma Inv_handleJoinRoom (now : Z) (data : JoinPayload) (client : string) (s : State) :
  Inv s -> Inv (state (handleJoinRoom now data client s)).
Proof.
  intros HI. unfold handleJoinRoom.
  destruct (getRoom _ _) as [room0|] eqn:G; [|exact HI].
  rewrite getRoom_findUnique in G.
  set (tid := jp_telegramId data). set (rid := jp_roomId data) in *.
  assert (exists room t',
            (if (r_teacher room0 =? tid) || existsb (fun st => st =? tid) (r_students room0)
             then Some (room0, table s) else joinRoom (table s) (r_id room0) tid)
            = Some (room, t')
            /\ r_id room = rid
            /\ completedOf t' rid = Some (r_completed room)
            /\ forall rid', completedOf t' rid' = completedOf (table s) rid')
    as (room & t' & -> & Hid & Hsync & Ht).
  { pose proof (findUnique_id _ _ _ G) as Hid0.
    destruct (_ || _).
    - exists room0, (table s). unfold completedOf. rewrite G. auto.
    - rewrite Hid0. destruct (joinRoom_some (table s) rid tid room0 G) as (room & t' & J).
      exists room, t'. destruct (joinRoom_spec _ _ _ _ _ J)
        as (d & Hd & Hid & _ & Hc & _ & Ht).
      rewrite G in Hd. injection Hd as <-.
      repeat split; auto. rewrite Ht. unfold completedOf. now rewrite G, Hc. }
  pose proof (Inv_table s t' (docs s) HI Ht) as HI1.
  destruct (getOrCreateDoc (docs s) (r_id room)) as [doc docs'].
  simpl. rewrite Hid.
  destruct (find (byId rid) (activeRooms s)) as [a|] eqn:F.
  - destruct (Inv_found _ _ _ HI F) as (Ha & _ & _).
    apply (Inv_update _ rid a _ docs' HI1 F).
    + destruct (find (byTelegramId tid) (members a)) eqn:M.
      * now apply members_update.
      * rewrite map_app. simpl. apply NoDup_app; [apply Ha | repeat constructor; simpl; tauto|].
        intros x Hx [<-|[]]. revert Hx. now apply find_none_not_in.
    + destruct (find (byTelegramId tid) (members a)) eqn:M.
      * now apply members_update.
      * apply Forall_app. split; [apply Ha|]. repeat constructor.
  - assert (Inv {| activeRooms := activeRooms s ++ [activate room]; docs := docs s;
                   table := t' |}) as HI2.
    { apply (Inv_push _ (activate room) HI1); simpl.
      - now rewrite Hid.
      - apply activate_ok.
      - unfold synced. simpl. now rewrite Hid. }
    assert (find (byId rid) (activeRooms s ++ [activate room]) = Some (activate room)) as F2.
    { rewrite find_app_none by assumption. simpl. unfold byId. simpl.
      now rewrite Hid, String.eqb_refl. }
    apply (Inv_update _ rid (activate room) _ docs' HI2 F2); simpl;
      repeat constructor; simpl; tauto.
Qed.

Lemma Inv_handle (now : Z) (ev : Event) (s : State) :
  Inv s -> Inv (state (handle now ev s)).
Proof.
  destruct ev; simpl;
    auto using Inv_handleJoinRoom, Inv_handleEditRoom, Inv_handleCursor,
      Inv_handleSelection, Inv_handleCodeEdit, Inv_handleEditMember,
      Inv_handleCloseSession, Inv_handleDisconnect.
Qed.

Lemma reachable_Inv (s : State) : reachable s -> Inv s.
Proof.
  induction 1 as [rooms|s now ev _ IH].
  - unfold Inv, initial. simpl. repeat constructor.
  - now apply Inv_handle.
Qed.

Lemma reachable_run (evs : list (Z * Event)) (s : State) :
  reachable s -> reachable (run evs s).
Proof.
  revert s. induction evs as [|[now ev] rest IH]; simpl; intros s H; [exact H|].
  apply IH. now constructor.
Qed.

(** ** Cursor events *)

(** C2 (as amended): a cursor event for a room that is in the registry and
    is completed, or has the student-cursor toggle disabled, is a silent
    no-op (no event at all, no change of state); a cursor event for a room
    that is not in the registry changes no state and broadcasts nothing, but
    it is answered with a room-not-found error sent to the sender only. *)
Theorem C2_cursor_gate (now : Z) (client : string) (data : CursorPayload) (s : State) :
  (find (byId (cp_roomId data)) (activeRooms s) = None ->
   handleCursor now client data s
   = ret s [Emit (ToClient client) (ErrorEvent msgRoomNotFound)])
  /\ (forall a, find (byId (cp_roomId data)) (activeRooms s) = Some a ->
        completed a = true \/ truthyBool (studentCursorEnabled a) = false ->
        handleCursor now client data s = ret s []).
Proof.
  unfold handleCursor. split.
  - intros ->. reflexivity.
  - intros a -> [Hc|Ht].
    + now rewrite Hc.
    + rewrite Ht. simpl. now destruct (completed a).
Qed.

(** C7 (as amended): a cursor event whose position does not have exactly
    two coordinates changes no state and broadcasts nothing; it is answered
    with the invalid-position error, sent to the sender only, when the room
    is in the registry, not completed and has the student-cursor toggle
    enabled; when the room is completed or the toggle is disabled no event
    is emitted at all, and when the room is not in the registry the answer
    is the room-not-found error. *)
Theorem C7_bad_position (now : Z) (client : string) (data : CursorPayload) (s : State) :
  length (cp_position data) <> 2 ->
  state (handleCursor now client data s) = s
  /\ thrown (handleCursor now client data s) = None
  /\ filter isBroadcast (effects (handleCursor now client data s)) = []
  /\ (forall a, find (byId (cp_roomId data)) (activeRooms s) = Some a ->
        completed a = false -> truthyBool (studentCursorEnabled a) = true ->
        effects (handleCursor now client data s)
        = [Emit (ToClient client) (ErrorEvent msgCursorPosition)])
  /\ (forall a, find (byId (cp_roomId data)) (activeRooms s) = Some a ->
        completed a = true \/ truthyBool (studentCursorEnabled a) = false ->
        effects (handleCursor now client data s) = [])
  /\ (find (byId (cp_roomId data)) (activeRooms s) = None ->
      effects (handleCursor now client data s)
      = [Emit (ToClient client) (ErrorEvent msgRoomNotFound)]).
Proof.
  intros Hlen. apply Nat.eqb_neq in Hlen. unfold handleCursor.
  destruct (find _ (activeRooms s)) as [a|].
  - rewrite Hlen. simpl.
    destruct (completed a) eqn:Hc, (truthyBool (studentCursorEnabled a)) eqn:Ht; simpl;
      repeat split; auto; try discriminate; intros a' [= <-]; try congruence;
      intros [?|?]; congruence.
  - simpl. repeat split; auto; discriminate.
Qed.

(** ** Selection events *)

(** C10: a selection payload whose [line] is [0] or absent never takes the
    point branch, whatever its [column]; when it carries no complete range
    and no clear flag either, the handler leaves the last selection of
    every member of every room as it was. *)
Theorem C10_falsy_line (now : Z) (client : string) (data : SelectionPayload) (s : State) :
  truthyNum (sp_line data) = false -> isRange data = false -> isClear data = false ->
  isPoint data = false
  /\ map (fun r => map (fun m => (telegramId m, lastSelection m)) (members r))
         (activeRooms (state (handleSelection now client data s)))
     = map (fun r => map (fun m => (telegramId m, lastSelection m)) (members r))
           (activeRooms s).
Proof.
  intros Hl Hr Hc.
  assert (isPoint data = false) as Hp by (unfold isPoint; now rewrite Hl).
  split; [exact Hp|]. unfold handleSelection.
  destruct (find _ (activeRooms s)) as [a|] eqn:F; [|reflexivity].
  destruct (completed a && _); [reflexivity|].
  destruct (negb (truthyBool _) && _); [reflexivity|]. simpl.
  destruct (updateFirst_found _
              (fun r => withMembers r
                 (updateFirst (byTelegramId (sp_telegramId data))
                    (fun m => select data (touch now m)) (members a))) _ _ F)
    as (pre & post & E & _ & _ & ->).
  rewrite E, !map_app. simpl. f_equal. f_equal.
  apply map_updateFirst. intros m. unfold select. now rewrite Hp, Hr, Hc.
Qed.

(** ** Code edits *)

(** C5 (as amended): when a code-edit event passes the permission gate and
    the engine rejects the update, the failure leaves the handler as an
    exception: the handler emits no event at all, neither an error to the
    sender nor a code-edit-action broadcast, and the durable table is as it
    was. *)
Theorem C5_rejected_update (now : Z) (client : string) (data : CodeEditPayload)
    (s : State) (a : Room) (doc' : Doc) :
  find (byId (ce_roomId data)) (activeRooms s) = Some a ->
  completed a && negb (teacher a =? ce_telegramId data) = false ->
  negb (truthyBool (studentEditCodeEnabled a)) && negb (ce_telegramId data =? teacher a)
  = false ->
  (ce_telegramId data =? "") = false ->
  applyUpdate (fst (getOrCreateDoc (docs s) (ce_roomId data))) (ce_update data)
  = Rejected doc' ->
  thrown (handleCodeEdit now client data s) = Some EngineError
  /\ effects (handleCodeEdit now client data s) = []
  /\ table (state (handleCodeEdit now client data s)) = table s.
Proof.
  intros F G1 G2 G3 R. unfold handleCodeEdit. rewrite F, G1, G2, G3.
  destruct (getOrCreateDoc _ _) as [doc ds]. simpl in R. rewrite R.
  simpl. auto.
Qed.

(** ** Room settings *)

Lemma find_byId_map (g : Room -> Room) (rid : string) (l : list Room) :
  (forall r, id (g r) = id r) ->
  find (byId rid) (map g l)
  = match find (byId rid) l with Some r => Some (g r) | None => None end.
Proof.
  intros Hg. induction l as [|r t IH]; simpl; [reflexivity|].
  unfold byId at 1 3. rewrite Hg. destruct (id r =? rid); [reflexivity | exact IH].
Qed.

(** [editRoom] does not throw for the teacher of a room the table holds. *)
Lemma editRoom_some (t : list RoomRdo) (rid : string) (dto : EditPayload) (d : RoomRdo) :
  findUnique t rid = Some d -> r_teacher d = ep_telegramId dto ->
  exists u t', editRoom t rid dto = Some (u, t').
Proof.
  intros F Ht. unfold editRoom.
  set (w := fun r => (r_id r =? rid) && (r_teacher r =? ep_telegramId dto)).
  destruct (find w t) as [cur|] eqn:E.
  - destruct (prismaUpdate_some t w (editData dto cur) cur E) as (t' & ->). eauto.
  - exfalso. apply find_some in F. destruct F as [Hin Hid].
    pose proof (find_none _ _ E d Hin) as Hw. unfold w in Hw.
    rewrite Hid, Ht, String.eqb_refl in Hw. discriminate.
Qed.

(** An edit-room call that nothing overlaps: when the teacher of an
    uncompleted room edits it, the room stays in the registry and every
    toggle the payload leaves unspecified keeps the value the snapshot had;
    a specified toggle takes the given value. *)
Lemma edit_room_alone_keeps_toggles (client : string) (data : EditPayload) (s : State)
    (room : RoomRdo) (a : Room) :
  reachable s ->
  getRoom (table s) (ep_roomId data) = Some room ->
  r_teacher room = ep_telegramId data -> r_completed room = false ->
  find (byId (ep_roomId data)) (activeRooms s) = Some a ->
  exists a',
    find (byId (ep_roomId data)) (activeRooms (state (handleEditRoom client data s)))
    = Some a'
    /\ (ep_studentCursorEnabled data = None ->
        studentCursorEnabled a' = studentCursorEnabled a)
    /\ (ep_studentEditCodeEnabled data = None ->
        studentEditCodeEnabled a' = studentEditCodeEnabled a)
    /\ (ep_studentSelectionEnabled data = None ->
        studentSelectionEnabled a' = studentSelectionEnabled a)
    /\ (forall b, ep_studentCursorEnabled data = Some b ->
        studentCursorEnabled a' = Some b)
    /\ (forall b, ep_studentEditCodeEnabled data = Some b ->
        studentEditCodeEnabled a' = Some b)
    /\ (forall b, ep_studentSelectionEnabled data = Some b ->
        studentSelectionEnabled a' = Some b)
    /\ members a' = members a /\ completed a' = completed a.
Proof.
  intros HR G Ht Hc F. apply reachable_Inv in HR.
  destruct (Inv_found _ _ _ HR F) as ((_ & _ & S1 & S2 & S3) & _ & Hid).
  unfold handleEditRoom. rewrite G, Ht, String.eqb_refl, Hc. simpl.
  rewrite getRoom_findUnique in G.
  destruct (editRoom_some _ _ data _ G Ht) as (u & t' & E).
  apply findUnique_id in G. rewrite G, F, E.
  destruct (editRoom_spec _ _ _ _ _ E) as [Hu _]. simpl.
  rewrite find_byId_map.
  2:{ intros r. now destruct (id r =? r_id u). }
  rewrite F, Hid, Hu, String.eqb_refl. eexists. split; [reflexivity|]. simpl.
  unfold mergedToggle.
  destruct (studentCursorEnabled a), (studentEditCodeEnabled a),
    (studentSelectionEnabled a); try discriminate.
  repeat split; try (intros ->; reflexivity); intros x ->; reflexivity.
Qed.

(** ** Joins *)

(** The durable room a join goes on with: the one the table holds, enrolled
    if it had to be; the enrolment cannot fail. *)
Lemma join_lookup (t : list RoomRdo) (rid tid : string) (room0 : RoomRdo) :
  findUnique t rid = Some room0 ->
  exists room t',
    (if (r_teacher room0 =? tid) || existsb (fun st => st =? tid) (r_students room0)
     then Some (room0, t) else joinRoom t (r_id room0) tid) = Some (room, t')
    /\ r_id room = rid /\ r_teacher room = r_teacher room0
    /\ r_completed room = r_completed room0 /\ r_language room = r_language room0
    /\ forall rid', completedOf t' rid' = completedOf t rid'.
Proof.
  intros G. pose proof (findUnique_id _ _ _ G) as Hid0.
  destruct ((r_teacher room0 =? tid) || existsb (fun st => st =? tid) (r_students room0)).
  - exists room0, t. auto 10.
  - rewrite Hid0. destruct (joinRoom_some t rid tid room0 G) as (room & t' & J).
    exists room, t'. destruct (joinRoom_spec _ _ _ _ _ J)
      as (d & Hd & Hid & Ht & Hc & Hl & Hall).
    rewrite G in Hd. injection Hd as <-. auto 10.
Qed.



(** ** Disconnects *)

Lemma reap_found (client : string) (pre post : list Room) (a : Room) (m : Member) :
  Forall (fun r => find (byClientId client) (members r) = None) pre ->
  find (byClientId client) (members a) = Some m ->
  reap client (pre ++ a :: post)
  = Some (withMembers a (updateFirst (byClientId client) markOffline (members a)),
          markOffline m,
          pre ++ withMembers a (updateFirst (byClientId client) markOffline (members a))
              :: post).
Proof.
  intros Hpre M. induction Hpre as [|r t Hr _ IH]; simpl.
  - now rewrite M.
  - now rewrite Hr, IH.
Qed.

Lemma find_app_none_l {A : Type} (p : A -> bool) (l1 l2 : list A) :
  find p (l1 ++ l2) = None -> find p l1 = None.
Proof.
  induction l1 as [|x t IH]; simpl; [reflexivity|].
  destruct (p x); [discriminate | exact IH].
Qed.

Lemma removeFirst_app_none {A : Type} (p : A -> bool) (pre l : list A) :
  find p pre = None -> removeFirst p (pre ++ l) = pre ++ removeFirst p l.
Proof.
  induction pre as [|x t IH]; simpl; intros H; [reflexivity|].
  destruct (p x); [discriminate|]. now rewrite IH.
Qed.

Lemma filter_nil_existsb {A : Type} (p : A -> bool) (l : list A) :
  (length (filter p l) =? 0)%nat = negb (existsb p l).
Proof.
  induction l as [|x t IH]; simpl; [reflexivity|].
  destruct (p x); simpl; [reflexivity | exact IH].
Qed.

(** Among members with distinct identities, the members other than [m]
    are those with another identity. *)
Lemma others_online (mpre mpost : list Member) (m : Member) :
  NoDup (map telegramId (mpre ++ m :: mpost)) ->
  existsb (fun x => online x && negb (telegramId x =? telegramId m)) (mpre ++ m :: mpost)
  = existsb online (mpre ++ markOffline m :: mpost).
Proof.
  intros Hn. rewrite !existsb_app. simpl. rewrite String.eqb_refl, andb_false_r. simpl.
  assert (forall l, (forall x, In x l -> telegramId x <> telegramId m) ->
            existsb (fun x => online x && negb (telegramId x =? telegramId m)) l
            = existsb online l) as Hl.
  { induction l as [|x t IH]; simpl; intros H; [reflexivity|].
    rewrite IH by auto.
    destruct (telegramId x =? telegramId m) eqn:E.
    - apply eqb_true in E. exfalso. apply (H x); auto.
    - simpl. now rewrite andb_true_r. }
  rewrite map_app in Hn. simpl in Hn. pose proof (NoDup_remove_2 _ _ _ Hn) as Hm.
  rewrite !Hl; [reflexivity| |]; intros x Hx E; apply Hm; rewrite <- E;
    apply in_or_app; [right|left]; now apply in_map.
Qed.

Lemma byId_withMembers (a : Room) (ms : list Member) :
  byId (id a) (withMembers a ms) = true.
Proof. unfold byId. simpl. apply String.eqb_refl. Qed.

Lemma find_app_or {A : Type} (p : A -> bool) (l1 l2 : list A) :
  find p (l1 ++ l2) = match find p l1 with Some x => Some x | None => find p l2 end.
Proof.
  induction l1 as [|x t IH]; simpl; [reflexivity|]. now destruct (p x).
Qed.

(** C9 (as amended): a disconnect is handled for the first room, in
    registry order, that has a member bound to the connection, and for the
    first such member of that room.  If no member of another identity is
    online in that room, the room is out of the registry when the handler
    returns; otherwise the room stays in the registry with that member
    offline and its last selection cleared.  The other rooms and the other
    members of that room are as they were, also those bound to the same
    connection. *)
Theorem C9_disconnect (client : string) (s : State) (pre post : list Room)
    (a : Room) (m : Member) :
  reachable s ->
  activeRooms s = pre ++ a :: post ->
  Forall (fun r => find (byClientId client) (members r) = None) pre ->
  find (byClientId client) (members a) = Some m ->
  (existsb (fun x => online x && negb (telegramId x =? telegramId m)) (members a) = false ->
   activeRooms (state (handleDisconnect client s)) = pre ++ post
   /\ find (byId (id a)) (activeRooms (state (handleDisconnect client s))) = None)
  /\ (existsb (fun x => online x && negb (telegramId x =? telegramId m)) (members a) = true ->
      exists a' m',
        activeRooms (state (handleDisconnect client s)) = pre ++ a' :: post
        /\ find (byId (id a)) (activeRooms (state (handleDisconnect client s))) = Some a'
        /\ find (byTelegramId (telegramId m)) (members a') = Some m'
        /\ online m' = false /\ lastSelection m' = None
        /\ map telegramId (members a') = map telegramId (members a)
        /\ forall tid, tid <> telegramId m ->
             find (byTelegramId tid) (members a') = find (byTelegramId tid) (members a)).
Proof.
  intros HR E Hpre M. apply reachable_Inv in HR.
  assert (In a (activeRooms s)) as Hin by (rewrite E; apply in_elt).
  destruct (Inv_room _ _ HR Hin) as ((Hn & _) & _).
  destruct HR as (Hids & _ & _). rewrite E in Hids.
  pose proof (find_key_unique id (id a) pre post a Hids eq_refl) as Hu.
  pose proof (find_app_none_l _ _ _ Hu) as Hupre.
  unfold handleDisconnect. rewrite E, (reap_found _ _ _ _ _ Hpre M). simpl.
  destruct (find_split _ _ _ M) as (mpre & mpost & Em & Hmpre & Hm).
  rewrite Em in Hn |- *. rewrite (others_online _ _ _ Hn).
  rewrite updateFirst_app_none by assumption. simpl. rewrite Hm.
  rewrite filter_nil_existsb.
  destruct (existsb online (mpre ++ markOffline m :: mpost)); simpl.
  - split; [discriminate|]. intros _.
    exists (withMembers a (mpre ++ markOffline m :: mpost)), (markOffline m).
    split; [reflexivity|].
    rewrite (find_app_none (byId (id a))) by exact Hupre. simpl.
    rewrite byId_withMembers.
    split; [reflexivity|]. split.
    + rewrite map_app in Hn. simpl in Hn. apply NoDup_remove_2 in Hn.
      rewrite find_app_none.
      * simpl. unfold byTelegramId. simpl. now rewrite String.eqb_refl.
      * apply (find_app_none_l _ mpre mpost).
        destruct (find (byTelegramId (telegramId m)) (mpre ++ mpost)) as [y|] eqn:Fy;
          [|reflexivity].
        exfalso. apply find_some in Fy. destruct Fy as [Hy Ey]. apply eqb_true in Ey.
        apply Hn. rewrite <- map_app, <- Ey. now apply in_map.
    + split; [reflexivity|]. split; [reflexivity|].
      split; [rewrite !map_app; reflexivity|].
      intros tid Hne. rewrite !find_app_or. simpl. unfold byTelegramId at 2 5. simpl.
      destruct (telegramId m =? tid) eqn:Et; [|reflexivity].
      apply eqb_true in Et. congruence.
  - split; [|discriminate]. intros _.
    rewrite removeFirst_app_none by exact Hupre. simpl.
    rewrite byId_withMembers. split; [reflexivity | exact Hu].
Qed.

(** ** Completed records *)

(** No handler clears the completed flag of a durable record. *)
Lemma table_handle_done (now : Z) (ev : Event) (s : State) (rid : string) :
  completedOf (table s) rid = Some true ->
  completedOf (table (state (handle now ev s))) rid = Some true.
Proof.
  intros H. destruct ev as [c d|c d|c d|c d|c d|c d|c d|c]; simpl.
  - unfold handleJoinRoom. cbv zeta.
    destruct (getRoom _ _) as [room0|] eqn:G; [|exact H].
    rewrite getRoom_findUnique in G.
    destruct (join_lookup _ _ (jp_telegramId d) _ G) as (room & t' & -> & _ & _ & _ & _ & Ht).
    destruct (getOrCreateDoc _ _). simpl. now rewrite Ht.
  - unfold handleEditRoom. destruct (getRoom _ _) as [room|]; [|exact H].
    destruct (negb _); [exact H|]. destruct (r_completed room); [exact H|].
    destruct (editRoom _ _ _) as [[u t']|] eqn:E; [|exact H]. simpl.
    destruct (editRoom_spec _ _ _ _ _ E) as [_ Ht]. now rewrite Ht.
  - unfold handleCursor. destruct (find _ _) as [a|]; [|exact H].
    destruct (completed a); [exact H|]. destruct (negb (truthyBool _)); [exact H|].
    now destruct (negb _).
  - unfold handleSelection. destruct (find _ _) as [a|]; [|exact H].
    destruct (completed a && _); [exact H|]. now destruct (negb (truthyBool _) && _).
  - unfold handleCodeEdit. destruct (find _ _) as [a|]; [|exact H].
    destruct (completed a && _); [exact H|].
    destruct (negb (truthyBool _) && _); [exact H|].
    destruct (ce_telegramId d =? ""); [exact H|].
    destruct (getOrCreateDoc _ _) as [doc ds]. now destruct (applyUpdate doc _).
  - unfold handleEditMember. destruct (find _ _) as [a|]; [|exact H].
    destruct (completed a); [exact H|]. destruct (find _ (members a)); [|exact H].
    now destruct (_ || _).
  - unfold handleCloseSession. destruct (getRoom _ _) as [room|]; [|exact H].
    destruct (negb _); [exact H|]. destruct (r_completed room); [exact H|].
    destruct (completeRoom _ _) as [t'|] eqn:E; [|exact H]. simpl.
    destruct (String.eqb_spec rid (jp_roomId d)) as [->|Hne].
    + exact (completeRoom_done _ _ _ E).
    + now rewrite (completeRoom_other _ _ _ E).
  - unfold handleDisconnect. destruct (reap _ _) as [[[r m] rs]|]; [|exact H]. exact H.
Qed.


(** ** The selection set *)

Lemma find_byId_updateFirst (rid : string) (f : Room -> Room) (l : list Room) :
  (forall r, id (f r) = id r) ->
  find (byId rid) (updateFirst (byId rid) f l)
  = match find (byId rid) l with Some r => Some (f r) | None => None end.
Proof.
  intros Hf. apply find_updateFirst. intros r. unfold byId. now rewrite Hf.
Qed.

(** C4 (as amended): a selection event that passes the gate sends one
    event, a selection-state broadcast to every connection of the room
    except the sender.  Its payload lists online members only, and every
    online member whose last selection is set is in it, with the fields of
    that selection; a member whose stored selection is a point appears with
    its [line] and [column] and with no range field; and a point payload of
    a sender who is a member is stored as such a point. *)
Theorem C4_selection_state (now : Z) (client : string) (data : SelectionPayload)
    (s : State) (a : Room) :
  find (byId (sp_roomId data)) (activeRooms s) = Some a ->
  completed a && negb (teacher a =? sp_telegramId data) = false ->
  negb (truthyBool (studentSelectionEnabled a)) && negb (teacher a =? sp_telegramId data)
  = false ->
  exists a' sels,
    find (byId (sp_roomId data)) (activeRooms (state (handleSelection now client data s)))
    = Some a'
    /\ effects (handleSelection now client data s)
       = [Emit (ToRoomExceptSender (id a) client)
               (SelectionState sels (sp_telegramId data))]
    /\ (forall e, In e sels ->
          exists m, In m (members a') /\ online m = true /\ e = selectionEntry m)
    /\ (forall m f, In m (members a') -> online m = true -> lastSelection m = Some f ->
          In (selectionEntry m) sels /\ se_fields (selectionEntry m) = f)
    /\ (forall m l c, In m (members a') -> online m = true ->
          lastSelection m = Some {| line := Some l; column := Some c;
                                    selectionStart := None; selectionEnd := None;
                                    selectedText := None |} ->
          exists e, In e sels /\ se_telegramId e = telegramId m
            /\ line (se_fields e) = Some l /\ column (se_fields e) = Some c
            /\ selectionStart (se_fields e) = None /\ selectionEnd (se_fields e) = None
            /\ selectedText (se_fields e) = None)
    /\ (isPoint data = true ->
        forall m0, find (byTelegramId (sp_telegramId data)) (members a) = Some m0 ->
          exists me, find (byTelegramId (sp_telegramId data)) (members a') = Some me
            /\ lastSelection me = Some {| line := sp_line data; column := sp_column data;
                                          selectionStart := None; selectionEnd := None;
                                          selectedText := None |}).
Proof.
  intros F G1 G2. unfold handleSelection. rewrite F, G1, G2. simpl.
  rewrite find_byId_updateFirst by reflexivity. rewrite F.
  eexists. eexists. split; [reflexivity|]. split; [reflexivity|]. simpl.
  set (ms := updateFirst _ _ (members a)).
  assert (forall m, In m ms -> online m = true ->
            In (selectionEntry m) (map selectionEntry (filter online ms))) as Hin.
  { intros m Hm Ho. apply in_map, filter_In. auto. }
  split; [|split; [|split]].
  - intros e He. apply in_map_iff in He. destruct He as (m & <- & Hm).
    apply filter_In in Hm. destruct Hm as [Hm Ho]. eauto.
  - intros m f Hm Ho Hs. split; [auto|]. unfold selectionEntry. simpl. now rewrite Hs.
  - intros m l c Hm Ho Hs. exists (selectionEntry m). split; [auto|].
    unfold selectionEntry. simpl. rewrite Hs. simpl. auto 10.
  - intros Hp m0 M. subst ms.
    rewrite find_updateFirst.
    2:{ intros m. unfold byTelegramId. now rewrite select_telegramId. }
    rewrite M. eexists. split; [reflexivity|]. unfold select. now rewrite Hp.
Qed.

(** ** The reply to a join *)

(** The member list a join leaves has the joiner in it, online and bound
    to the joining connection; a member the identity already had keeps its
    cursor, selection and color. *)
Lemma join_member (now : Z) (client tid : string) (name : option string)
    (ms : list Member) :
  exists me,
    find (byTelegramId tid)
         (match find (byTelegramId tid) ms with
          | Some _ => updateFirst (byTelegramId tid) (rebind client now name) ms
          | None => ms ++ [newMember client tid name now]
          end) = Some me
    /\ online me = true /\ clientId me = client
    /\ match find (byTelegramId tid) ms with
       | Some m0 => lastCursorPosition me = lastCursorPosition m0
                    /\ lastSelection me = lastSelection m0
                    /\ userColor me = userColor m0
       | None => userColor me = Some (generateUserColor tid)
       end.
Proof.
  destruct (find (byTelegramId tid) ms) as [m0|] eqn:M.
  - rewrite find_updateFirst by reflexivity. rewrite M. eexists. split; [reflexivity|].
    simpl. auto.
  - rewrite find_app_none by assumption. simpl. unfold byTelegramId at 1. simpl.
    rewrite String.eqb_refl. eexists. split; [reflexivity|]. simpl. auto.
Qed.


End Properties.

(** ** The sample sessions *)

Lemma reachable_after (evs : list Event) : reachable (after evs).
Proof. unfold after. apply reachable_run. constructor. Qed.


(** C2, the theorem at work: a cursor event in a room whose students may
    not broadcast their cursor. *)
Lemma C2_witness :
  handleCursor 9 "c1"
    {| cp_roomId := "quiet"; cp_position := [3; 4]%Z; cp_logs := [];
       cp_telegramId := "2001" |}
    (after [join "c1" "2001" "quiet"])
  = ret (after [join "c1" "2001" "quiet"]) [].
Proof.
  eapply (proj2 (C2_cursor_gate 9 "c1" _ (after [join "c1" "2001" "quiet"]))).
  - vm_compute. reflexivity.
  - right. vm_compute. reflexivity.
Defined.

(** C2, refuted as stated: a cursor event for a room that is not in the
    registry is answered with an error event. *)
Lemma C2_counterexample :
  find (byId "open") (activeRooms (after [])) = None
  /\ effects (handle 9 (cursorAt "c1" "2001" "open" [3; 4]%Z) (after []))
     = [Emit (ToClient "c1") (ErrorEvent msgRoomNotFound)].
Proof. vm_compute. split; reflexivity. Qed.



(** C4, the theorem at work: a student of the open room selects a point. *)
Lemma C4_witness :
  let s := after [join "c0" "1000" "open"; join "c1" "2001" "open"] in
  let data := {| sp_roomId := "open"; sp_telegramId := "2001"; sp_line := Some 3%Z;
                 sp_column := Some 5%Z; sp_selectionStart := None;
                 sp_selectionEnd := None; sp_selectedText := None;
                 sp_clearSelection := None |} in
  exists a,
    find (byId "open") (activeRooms s) = Some a
    /\ exists a' sels,
         find (byId "open") (activeRooms (state (handleSelection 9 "c1" data s))) = Some a'
         /\ effects (handleSelection 9 "c1" data s)
            = [Emit (ToRoomExceptSender (id a) "c1") (SelectionState sels "2001")]
         /\ exists me, find (byTelegramId "2001") (members a') = Some me
              /\ lastSelection me
                 = Some {| line := Some 3%Z; column := Some 5%Z; selectionStart := None;
                           selectionEnd := None; selectedText := None |}.
Proof.
  cbv zeta. eexists. split; [vm_compute; reflexivity|].
  edestruct (C4_selection_state 9 "c1"
               {| sp_roomId := "open"; sp_telegramId := "2001"; sp_line := Some 3%Z;
                  sp_column := Some 5%Z; sp_selectionStart := None;
                  sp_selectionEnd := None; sp_selectedText := None;
                  sp_clearSelection := None |}
               (after [join "c0" "1000" "open"; join "c1" "2001" "open"]))
    as (a' & sels & H1 & H2 & _ & _ & _ & H3).
  - vm_compute. reflexivity.
  - vm_compute. reflexivity.
  - vm_compute. reflexivity.
  - exists a', sels. split; [exact H1|]. split; [exact H2|].
    eapply H3; vm_compute; reflexivity.
Defined.

(** C4, refuted as stated: the teacher and a student have each selected a
    point and a second student has selected nothing; the first student
    clears its selection, and the payload that goes out has an entry for
    each of the three, the two students with no selection field. *)
Lemma C4_counterexample :
  let s := after [join "c0" "1000" "open"; join "c1" "2001" "open";
                  join "c2" "2002" "open";
                  pointAt "c0" "1000" "open" 3 5; pointAt "c1" "2001" "open" 7 2] in
  map (fun r => map (fun m => (telegramId m, lastSelection m)) (members r))
      (activeRooms (state (handle 9 (clearSel "c1" "2001" "open") s)))
  = [[("1000", Some {| line := Some 3%Z; column := Some 5%Z; selectionStart := None;
                       selectionEnd := None; selectedText := None |});
      ("2001", Some emptySelection);
      ("2002", None)]]
  /\ effects (handle 9 (clearSel "c1" "2001" "open") s)
     = [Emit (ToRoomExceptSender "open" "c1")
             (SelectionState
                [ {| se_telegramId := "1000";
                     se_fields := {| line := Some 3%Z; column := Some 5%Z;
                                     selectionStart := None; selectionEnd := None;
                                     selectedText := None |};
                     se_userColor := Some "#85929E"; se_username := None |};
                  {| se_telegramId := "2001"; se_fields := emptySelection;
                     se_userColor := Some "#FF6B6B"; se_username := None |};
                  {| se_telegramId := "2002"; se_fields := emptySelection;
                     se_userColor := Some "#4ECDC4"; se_username := None |} ]
                "2001")].
Proof. vm_compute. split; reflexivity. Qed.

(** C5, the theorem at work: a student of the open room sends an empty
    update, which the sample engine rejects. *)
Lemma C5_witness :
  let s := after [join "c0" "1000" "open"; join "c1" "2001" "open"] in
  let data := {| ce_roomId := "open"; ce_telegramId := "2001"; ce_update := [] |} in
  thrown (handleCodeEdit 9 "c1" data s) = Some EngineError
  /\ effects (handleCodeEdit 9 "c1" data s) = []
  /\ table (state (handleCodeEdit 9 "c1" data s)) = table s.
Proof.
  cbv zeta.
  eapply (C5_rejected_update (Y := logEngine) 9 "c1"
            {| ce_roomId := "open"; ce_telegramId := "2001"; ce_update := [] |}
            (after [join "c0" "1000" "open"; join "c1" "2001" "open"]));
    vm_compute; reflexivity.
Defined.

(** C5, refuted as stated: the rejected update ends the handler call with
    an exception, and the sender is sent nothing. *)
Lemma C5_counterexample :
  let s := after [join "c0" "1000" "open"; join "c1" "2001" "open"] in
  let out := handle 9 (codeEdit "c1" "2001" "open" []) s in
  thrown out = Some EngineError /\ effects out = []
  /\ registryView (state out)
     = [("open", false, [("1000", "c0", true, None, None); ("2001", "c1", true, None, None)])].
Proof. vm_compute. repeat split; reflexivity. Qed.

(** C7, the theorem at work: a position of three coordinates in the open
    room. *)
Lemma C7_witness :
  let s := after [join "c0" "1000" "open"; join "c1" "2001" "open"] in
  let data := {| cp_roomId := "open"; cp_position := [1; 2; 3]%Z; cp_logs := [];
                 cp_telegramId := "2001" |} in
  length (cp_position data) <> 2
  /\ state (handleCursor 9 "c1" data s) = s
  /\ filter isBroadcast (effects (handleCursor 9 "c1" data s)) = []
  /\ effects (handleCursor 9 "c1" data s)
     = [Emit (ToClient "c1") (ErrorEvent msgCursorPosition)].
Proof.
  cbv zeta.
  assert (length [1; 2; 3]%Z <> 2) as Hlen by (simpl; lia).
  split; [exact Hlen|].
  destruct (C7_bad_position 9 "c1"
              {| cp_roomId := "open"; cp_position := [1; 2; 3]%Z; cp_logs := [];
                 cp_telegramId := "2001" |}
              (after [join "c0" "1000" "open"; join "c1" "2001" "open"]) Hlen)
    as (H1 & _ & H2 & H3 & _).
  split; [exact H1|]. split; [exact H2|].
  eapply H3; vm_compute; reflexivity.
Defined.

(** C7, refuted as stated: a position of three coordinates gets no error
    in a room whose students may not broadcast their cursor, nor in a
    completed room; without an active room the error is another one. *)
Lemma C7_counterexample :
  effects (handle 9 (cursorAt "c1" "2001" "quiet" [1; 2; 3]%Z)
             (after [join "c1" "2001" "quiet"])) = []
  /\ effects (handle 9 (cursorAt "c1" "2001" "done" [1; 2; 3]%Z)
                (after [join "c1" "2001" "done"])) = []
  /\ effects (handle 9 (cursorAt "c1" "2001" "open" [1; 2; 3]%Z) (after []))
     = [Emit (ToClient "c1") (ErrorEvent msgRoomNotFound)].
Proof. vm_compute. repeat split; reflexivity. Qed.


(** C9, the theorem at work: the student leaves the open room while the
    teacher is online, and the teacher leaves after that. *)
Lemma C9_witness :
  let s := after [join "c0" "1000" "open"; join "c1" "2001" "open";
                  pointAt "c1" "2001" "open" 7 2] in
  reachable s
  /\ (exists a' m',
        find (byId "open") (activeRooms (state (handleDisconnect "c1" s))) = Some a'
        /\ find (byTelegramId "2001") (members a') = Some m'
        /\ online m' = false /\ lastSelection m' = None)
  /\ find (byId "open")
          (activeRooms (state (handleDisconnect "c0" (state (handleDisconnect "c1" s)))))
     = None.
Proof.
  cbv zeta.
  assert (reachable (after [join "c0" "1000" "open"; join "c1" "2001" "open";
                            pointAt "c1" "2001" "open" 7 2])) as HR
    by apply reachable_after.
  split; [exact HR|]. split.
  - edestruct (C9_disconnect "c1"
                 (after [join "c0" "1000" "open"; join "c1" "2001" "open";
                         pointAt "c1" "2001" "open" 7 2]) [] []) as [_ H].
    + exact HR.
    + lazy. reflexivity.
    + constructor.
    + lazy. reflexivity.
    + destruct H as (a' & m' & _ & H1 & H2 & H3 & H4 & _); [lazy; reflexivity|].
      exists a', m'. auto.
  - edestruct (C9_disconnect "c0"
                 (state (handleDisconnect "c1"
                    (after [join "c0" "1000" "open"; join "c1" "2001" "open";
                            pointAt "c1" "2001" "open" 7 2]))) [] []) as [H _].
    + exact (reachable_step _ 9 (DisconnectEv "c1") HR).
    + lazy. reflexivity.
    + constructor.
    + lazy. reflexivity.
    + apply H. lazy. reflexivity.
Defined.

(** C9, refuted as stated: one connection joins two rooms and is the only
    online member of each; its disconnect evicts the first room and leaves
    the second in the registry with the member online.  One connection that
    joins a room under two identities leaves the second one online. *)
Lemma C9_counterexample :
  let s := after [join "c1" "2001" "open"; join "c1" "2001" "quiet"] in
  let s2 := after [join "c0" "1000" "open"; join "c1" "2001" "open";
                   join "c1" "2002" "open"] in
  registryView s
  = [("open", false, [("2001", "c1", true, None, None)]);
     ("quiet", false, [("2001", "c1", true, None, None)])]
  /\ registryView (state (handle 9 (DisconnectEv "c1") s))
     = [("quiet", false, [("2001", "c1", true, None, None)])]
  /\ registryView (state (handle 9 (DisconnectEv "c1") s2))
     = [("open", false, [("1000", "c0", true, None, None);
                         ("2001", "c1", false, None, None);
                         ("2002", "c1", true, None, None)])].
Proof. vm_compute. repeat split; reflexivity. Qed.

(** C10, the theorem at work: a student with a stored point sends a
    selection at line 0, column 5. *)
Lemma C10_witness :
  let s := after [join "c0" "1000" "open"; join "c1" "2001" "open";
                  pointAt "c1" "2001" "open" 7 2] in
  let data := {| sp_roomId := "open"; sp_telegramId := "2001"; sp_line := Some 0%Z;
                 sp_column := Some 5%Z; sp_selectionStart := None;
                 sp_selectionEnd := None; sp_selectedText := None;
                 sp_clearSelection := None |} in
  isPoint data = false
  /\ map (fun r => map (fun m => (telegramId m, lastSelection m)) (members r))
         (activeRooms (state (handleSelection 9 "c1" data s)))
     = map (fun r => map (fun m => (telegramId m, lastSelection m)) (members r))
           (activeRooms s).
Proof.
  cbv zeta. apply (C10_falsy_line (Y := logEngine)); vm_compute; reflexivity.
Defined.

(** * Further properties of the gateway and of the room service *)

(** ** The color of an identity *)

Lemma toInt32_range (z : Z) : (- 2147483648 <= toInt32 z < 2147483648)%Z.
Proof.
  unfold toInt32.
  pose proof (Z.mod_pos_bound (z + 2147483648) 4294967296 ltac:(lia)). lia.
Qed.

Lemma shl5_range (z : Z) : (- 2147483648 <= shl5 z < 2147483648)%Z.
Proof. apply toInt32_range. Qed.

Lemma toNumber_small (z : Z) : (Z.abs z < 9007199254740992)%Z -> toNumber z = z.
Proof.
  intros H. unfold toNumber. apply Z.ltb_lt in H. now rewrite H.
Qed.

Lemma toNumber_le (z : Z) :
  (Z.abs z <= 2 ^ 85 + 2 ^ 32)%Z -> (Z.abs (toNumber z) <= 2 ^ 85)%Z.
Proof.
  intros H. unfold toNumber.
  destruct (Z.abs z <? 9007199254740992)%Z eqn:S.
  - apply Z.ltb_lt in S. change (2 ^ 85)%Z with 38685626227668133590597632%Z. lia.
  - apply Z.ltb_ge in S. set (m := Z.abs z) in *.
    assert (0 < m)%Z as Hm by lia.
    pose proof (Z.log2_spec m Hm) as [L1 L2].
    assert (53 <= Z.log2 m)%Z as L3.
    { change 53%Z with (Z.log2 9007199254740992). now apply Z.log2_le_mono. }
    assert (Z.log2 m < 86)%Z as L4.
    { apply Z.log2_lt_pow2; [exact Hm|].
      change (2 ^ 85)%Z with 38685626227668133590597632%Z in H.
      change (2 ^ 32)%Z with 4294967296%Z in H.
      change (2 ^ 86)%Z with 77371252455336267181195264%Z. lia. }
    set (e := (Z.log2 m - 52)%Z).
    assert (0 < 2 ^ e)%Z as Hp by (apply Z.pow_pos_nonneg; unfold e; lia).
    assert (2 ^ Z.succ (Z.log2 m) = 9007199254740992 * 2 ^ e)%Z as Hs.
    { replace (Z.succ (Z.log2 m)) with (53 + e)%Z by (unfold e; lia).
      rewrite Z.pow_add_r by (unfold e; lia). reflexivity. }
    rewrite Hs in L2.
    assert (m / 2 ^ e < 9007199254740992)%Z as Hq.
    { apply Z.div_lt_upper_bound; [exact Hp | lia]. }
    assert (0 <= m / 2 ^ e)%Z as Hq0 by (apply Z.div_pos; lia).
    set (q := (m / 2 ^ e)%Z) in *. set (r := (m mod 2 ^ e)%Z).
    set (q' := if (2 ^ (e - 1) <? r)%Z || ((r =? 2 ^ (e - 1))%Z && Z.odd q)
               then (q + 1)%Z else q).
    assert (Z.abs (Z.sgn z * (q' * 2 ^ e)) = q' * 2 ^ e)%Z as ->.
    { assert (0 <= q')%Z by (unfold q'; destruct (_ || _); lia).
      rewrite Z.abs_mul, (Z.abs_eq (q' * 2 ^ e)) by (apply Z.mul_nonneg_nonneg; lia).
      assert (Z.abs (Z.sgn z) = 1)%Z as -> by (unfold m in Hm; lia). lia. }
    destruct (Z.eq_dec (Z.log2 m) 85) as [E|E].
    + assert (e = 33)%Z as He by (unfold e; lia).
      assert (q' = q) as ->.
      { unfold q', r, q. rewrite He.
        change (2 ^ 85)%Z with 38685626227668133590597632%Z in *.
        change (2 ^ 32)%Z with 4294967296%Z in *.
        rewrite E in L1. change (2 ^ 85)%Z with 38685626227668133590597632%Z in L1.
        change (2 ^ (33 - 1))%Z with 4294967296%Z. change (2 ^ 33)%Z with 8589934592%Z.
        assert (m / 8589934592 = 4503599627370496)%Z as -> by
          (symmetry; apply (Z.div_unique m 8589934592 _ (m - 38685626227668133590597632)); lia).
        assert (m mod 8589934592 = m - 38685626227668133590597632)%Z as -> by
          (symmetry; apply (Z.mod_unique m 8589934592 4503599627370496); lia).
        replace (4294967296 <? m - 38685626227668133590597632)%Z with false
          by (symmetry; apply Z.ltb_ge; lia).
        simpl. now rewrite andb_false_r. }
      unfold q. rewrite He. change (2 ^ 33)%Z with 8589934592%Z.
      change (2 ^ 85)%Z with 38685626227668133590597632%Z in *.
      change (2 ^ 32)%Z with 4294967296%Z in *.
      pose proof (Z.mul_div_le m 8589934592 ltac:(lia)).
      assert (m / 8589934592 <= 4503599627370496)%Z.
      { apply Z.lt_succ_r. apply Z.div_lt_upper_bound; lia. }
      lia.
    + assert (q' <= 9007199254740992)%Z by (unfold q'; destruct (_ || _); lia).
      assert (2 ^ Z.succ (Z.log2 m) <= 2 ^ 85)%Z by (apply Z.pow_le_mono_r; lia).
      rewrite Hs in *. nia.
Qed.

Lemma hashLoop_step_finite (c hash : Z) :
  isCodeUnit c -> (Z.abs hash <= 2 ^ 85)%Z ->
  (Z.abs (toNumber (c + toNumber (shl5 hash - hash))) <= 2 ^ 85)%Z.
Proof.
  intros Hc Hh. pose proof (shl5_range hash) as Hs. unfold isCodeUnit in Hc.
  assert (Z.abs (toNumber (shl5 hash - hash)) <= 2 ^ 85)%Z as H1.
  { apply toNumber_le. change (2 ^ 32)%Z with 4294967296%Z. lia. }
  apply toNumber_le. change (2 ^ 32)%Z with 4294967296%Z. lia.
Qed.

Lemma hashLoop_finite (units : list Z) (hash : Z) :
  Forall isCodeUnit units -> (Z.abs hash <= 2 ^ 85)%Z ->
  (Z.abs (hashLoop units hash) <= 2 ^ 85)%Z.
Proof.
  intros Hu. revert hash. induction Hu as [|c rest Hc _ IH]; intros hash Hh; simpl.
  - exact Hh.
  - apply IH. now apply hashLoop_step_finite.
Qed.


Lemma hashLoop_small (units : list Z) (hash : Z) :
  Forall isCodeUnit units ->
  (Z.abs hash + Z.of_nat (length units) * 2147549184 <= 8590196736000000)%Z ->
  hashLoop units hash = exactLoop units hash
  /\ (Z.abs (hashLoop units hash) <= Z.abs hash + Z.of_nat (length units) * 2147549184)%Z.
Proof.
  intros Hu. revert hash. induction Hu as [|c rest Hc _ IH]; intros hash Hh.
  - simpl. split; [reflexivity | lia].
  - cbn [hashLoop exactLoop length] in *. pose proof (shl5_range hash) as Hs.
    unfold isCodeUnit in Hc.
    rewrite (toNumber_small (shl5 hash - hash)) by lia.
    rewrite (toNumber_small (c + (shl5 hash - hash))) by lia.
    destruct (IH (c + (shl5 hash - hash))%Z) as [E B]; [lia|].
    split; [exact E | lia].
Qed.

Lemma unitsOf_range (cp : Z) :
  (0 <= cp < 2097152)%Z -> Forall isCodeUnit (unitsOf cp).
Proof.
  intros H. unfold unitsOf, isCodeUnit. destruct (cp <? 65536)%Z eqn:E.
  - apply Z.ltb_lt in E. repeat constructor; lia.
  - apply Z.ltb_ge in E.
    pose proof (Z.mod_pos_bound (cp - 65536) 1024 ltac:(lia)).
    assert (0 <= (cp - 65536) / 1024 < 2048)%Z.
    { split; [apply Z.div_pos; lia | apply Z.div_lt_upper_bound; lia]. }
    repeat constructor; lia.
Qed.

Lemma byteOf_range (c : ascii) : (0 <= byteOf c < 256)%Z.
Proof. unfold byteOf. pose proof (N_ascii_bounded c). lia. Qed.

Lemma decode_range (s : string) (more : nat) (cp : Z) :
  (0 <= cp)%Z ->
  (more = 1%nat -> cp < 32768)%Z -> (more = 2%nat -> cp < 512)%Z ->
  (more = 3%nat -> cp < 8)%Z -> (more <= 3)%nat ->
  Forall isCodeUnit (decode s more cp).
Proof.
  revert more cp. induction s as [|c rest IH]; intros more cp H0 H1 H2 H3 Hm.
  - simpl. destruct more; repeat constructor; unfold isCodeUnit; lia.
  - cbn [decode]. pose proof (byteOf_range c) as Hb. set (b := byteOf c) in *.
    assert (Forall isCodeUnit (decode rest 0 0)) as R by (apply IH; lia).
    assert (isCodeUnit 65533) as U by (unfold isCodeUnit; lia).
    destruct more as [|k].
    + destruct (b <? 128)%Z eqn:E1.
      { apply Z.ltb_lt in E1. constructor; [unfold isCodeUnit; lia | exact R]. }
      destruct (b <? 192)%Z; [now constructor|].
      destruct (b <? 224)%Z.
      { pose proof (Z.mod_pos_bound b 32 ltac:(lia)). apply IH; lia. }
      destruct (b <? 240)%Z.
      { pose proof (Z.mod_pos_bound b 16 ltac:(lia)). apply IH; lia. }
      destruct (b <? 248)%Z; [|now constructor].
      pose proof (Z.mod_pos_bound b 8 ltac:(lia)). apply IH; lia.
    + destruct ((128 <=? b)%Z && (b <? 192)%Z); [|now constructor].
      pose proof (Z.mod_pos_bound b 64 ltac:(lia)).
      destruct k as [|k'].
      * apply Forall_app. split; [|exact R]. apply unitsOf_range.
        specialize (H1 eq_refl). lia.
      * apply IH; lia.
Qed.

Lemma codeUnits_range (s : string) : Forall isCodeUnit (codeUnits s).
Proof. apply decode_range; lia. Qed.

Lemma pick_in (hash : Z) : In (pick hash) colors /\ pick hash <> "".
Proof.
  assert (In (pick hash) colors) as H.
  { unfold pick. apply nth_In.
    pose proof (Z.mod_pos_bound (Z.abs hash) (Z.of_nat (length colors)) ltac:(simpl; lia)).
    lia. }
  split; [exact H|]. intros E. rewrite E in H. simpl in H.
  repeat (destruct H as [H|H]; [discriminate|]). exact H.
Qed.

(** X1: for every identity, that is for every sequence of UTF-16 code
    units, each value the variable [hash] of [generateUserColor] takes (the
    hash of each prefix, in the Number arithmetic of the source, rounding
    included) is an integer of absolute value at most 2^85, far from the
    largest Number, and the result is one of the fifteen colors of the
    table, never the empty or an undefined color. *)
Theorem generateUserColor_in_colors (units pre post : list Z) :
  Forall isCodeUnit units -> units = pre ++ post ->
  (Z.abs (hashLoop pre 0) <= 2 ^ 85)%Z
  /\ In (colorFor units) colors /\ colorFor units <> "".
Proof.
  intros Hu ->. apply Forall_app in Hu. destruct Hu as [Hp _]. split.
  - apply hashLoop_finite; [exact Hp|]. simpl. lia.
  - apply pick_in.
Qed.

(** X2: for an identity of at most four million code units, the hash of
    every prefix, which is every value the loop of [generateUserColor]
    holds, is below 2^53 in absolute value and equal to the value of the
    loop on the integers: the Number arithmetic of the source rounds
    nothing on it. *)
Theorem hashLoop_exact (userId u1 u2 : list Z) :
  Forall isCodeUnit userId ->
  (Z.of_nat (length userId) <= 4000000)%Z ->
  userId = u1 ++ u2 ->
  (Z.abs (hashLoop u1 0) < 2 ^ 53)%Z /\ hashLoop u1 0 = exactLoop u1 0.
Proof.
  intros Hu Hlen ->. rewrite length_app in Hlen.
  apply Forall_app in Hu. destruct Hu as [H1 _].
  destruct (hashLoop_small u1 0 H1) as [E B]; [simpl; lia|].
  split; [|exact E]. change (2 ^ 53)%Z with 9007199254740992%Z. simpl Z.abs in B. lia.
Qed.

Lemma find_in_unique {A : Type} (key : A -> string) (l : list A) (x : A) :
  NoDup (map key l) -> In x l -> find (fun y => key y =? key x) l = Some x.
Proof.
  induction l as [|y t IH]; simpl; intros Hn Hin; [contradiction|].
  inversion Hn as [|? ? Hy Ht]; subst. destruct Hin as [->|Hin].
  - now rewrite String.eqb_refl.
  - destruct (key y =? key x) eqn:E; [|auto].
    apply eqb_true in E. exfalso. apply Hy. rewrite E. now apply in_map.
Qed.

Section More.
Context {Y : YEngine}.

(** ** The registry and the durable table *)

(** X3: in every reachable state the registry holds one room per
    identifier, so the lookup by identifier every handler starts with finds
    each room of the registry. *)
Theorem registry_one_room_per_id (s : State) :
  reachable s ->
  NoDup (map id (activeRooms s))
  /\ forall r, In r (activeRooms s) -> find (byId (id r)) (activeRooms s) = Some r.
Proof.
  intros HR. apply reachable_Inv in HR. destruct HR as (Hn & _ & _).
  split; [exact Hn|]. intros r Hr. now apply (find_in_unique id).
Qed.

Lemma table_run_done (s : State) (rid : string) (evs : list (Z * Event)) :
  completedOf (table s) rid = Some true ->
  completedOf (table (run evs s)) rid = Some true.
Proof.
  revert s. induction evs as [|[now ev] rest IH]; simpl; intros s H; [exact H|].
  apply IH. now apply table_handle_done.
Qed.

(** X5: no sequence of events reopens a room: once the durable record of a
    room is completed it stays completed, and a room that is in the
    registry of a reachable state with its completed flag set has a
    completed record from then on. *)
Theorem completed_is_permanent (s : State) (rid : string) (evs : list (Z * Event)) :
  (completedOf (table s) rid = Some true ->
   completedOf (table (run evs s)) rid = Some true)
  /\ (reachable s ->
      forall a, find (byId rid) (activeRooms s) = Some a -> completed a = true ->
      completedOf (table (run evs s)) rid = Some true).
Proof.
  split; [apply table_run_done|].
  intros HR a F Hc. apply table_run_done.
  destruct (Inv_found _ _ _ (reachable_Inv _ HR) F) as (_ & Hs & Hid).
  unfold synced in Hs. now rewrite <- Hid, Hs, Hc.
Qed.

(** ** Exceptions and errors *)

(** X8: an error event (['error'] or ['join-room:error']) is never
    broadcast and never comes with anything else: a handler call that
    emits one emits only that, to the connection the event came from, and
    leaves the state as it was. *)
Theorem error_is_alone (now : Z) (ev : Event) (s : State) (t : Target) (p : Payload) :
  In (Emit t p) (effects (handle now ev s)) -> isError p = true ->
  handle now ev s = ret s [Emit (ToClient (sender ev)) p].
Proof.
  intros Hin Herr. revert Hin.
  destruct ev as [c d|c d|c d|c d|c d|c d|c d|c]; simpl.
  - unfold handleJoinRoom. cbv zeta.
    destruct (getRoom _ _) as [room0|].
    2:{ intros [[= <- <-]|[]]. reflexivity. }
    destruct (if _ : bool then _ else _) as [[room t']|]; [|intros []].
    destruct (getOrCreateDoc _ _). simpl.
    intros [H|[H|[H|[H|[H|[]]]]]]; try discriminate;
      injection H as <- <-; discriminate.
  - unfold handleEditRoom. destruct (getRoom _ _) as [room|].
    2:{ intros [[= <- <-]|[]]. reflexivity. }
    destruct (negb _).
    { intros [[= <- <-]|[]]. reflexivity. }
    destruct (r_completed room); [intros []|].
    destruct (editRoom _ _ _) as [[u t']|]; [|intros []].
    simpl. intros [[= <- <-]|[]]. discriminate.
  - unfold handleCursor. destruct (find _ _) as [a|].
    2:{ intros [[= <- <-]|[]]. reflexivity. }
    destruct (completed a); [intros []|].
    destruct (negb (truthyBool _)); [intros []|].
    destruct (negb _).
    { intros [[= <- <-]|[]]. reflexivity. }
    simpl. intros [[= <- <-]|[]]. discriminate.
  - unfold handleSelection. destruct (find _ _) as [a|].
    2:{ intros [[= <- <-]|[]]. reflexivity. }
    destruct (completed a && _); [intros []|].
    destruct (negb (truthyBool _) && _); [intros []|].
    simpl. intros [[= <- <-]|[]]. discriminate.
  - unfold handleCodeEdit. destruct (find _ _) as [a|].
    2:{ intros [[= <- <-]|[]]. reflexivity. }
    destruct (completed a && _); [intros []|].
    destruct (negb (truthyBool _) && _).
    { intros [[= <- <-]|[]]. reflexivity. }
    destruct (ce_telegramId d =? "").
    { intros [[= <- <-]|[]]. reflexivity. }
    destruct (getOrCreateDoc _ _) as [doc ds].
    destruct (applyUpdate doc _); [|intros []].
    simpl. intros [[= <- <-]|[]]. discriminate.
  - unfold handleEditMember. destruct (find _ _) as [a|].
    2:{ intros [[= <- <-]|[]]. reflexivity. }
    destruct (completed a); [intros []|].
    destruct (find _ (members a)).
    2:{ intros [[= <- <-]|[]]. reflexivity. }
    destruct (_ || _).
    2:{ intros [[= <- <-]|[]]. reflexivity. }
    simpl. intros [[= <- <-]|[]]. discriminate.
  - unfold handleCloseSession. destruct (getRoom _ _) as [room|].
    2:{ intros [[= <- <-]|[]]. reflexivity. }
    destruct (negb _).
    { intros [[= <- <-]|[]]. reflexivity. }
    destruct (r_completed room); [intros []|].
    destruct (completeRoom _ _); [|intros []].
    simpl. intros [[= <- <-]|[]]. discriminate.
  - unfold handleDisconnect. destruct (reap _ _) as [[[r m] rs]|]; [|intros []].
    simpl. intros [H|[H|[H|[]]]]; injection H as <- <-; discriminate.
Qed.

(** ** What only the teacher can do *)


(** ** Closing a session *)

Lemma find_filter_out (rid : string) (l : list Room) :
  find (byId rid) (filter (fun room => negb (id room =? rid)) l) = None.
Proof.
  induction l as [|r t IH]; simpl; [reflexivity|].
  destruct (id r =? rid) eqn:E; simpl; [exact IH|].
  unfold byId at 1. now rewrite E.
Qed.

(** ** Renaming a member *)

Lemma find_updateFirst_other {A : Type} (p q : A -> bool) (f : A -> A) (l : list A) :
  (forall x, q (f x) = q x) -> (forall x, p x = true -> q x = false) ->
  find q (updateFirst p f l) = find q l.
Proof.
  intros Hq Hpq. induction l as [|x t IH]; simpl; [reflexivity|].
  destruct (p x) eqn:E; simpl.
  - now rewrite Hq, (Hpq x E).
  - now rewrite IH.
Qed.

Lemma byTelegramId_other (tid tid' : string) (m : Member) :
  tid' <> tid -> byTelegramId tid m = true -> byTelegramId tid' m = false.
Proof.
  unfold byTelegramId. intros Hne E. apply eqb_true in E.
  destruct (telegramId m =? tid') eqn:E'; [|reflexivity].
  apply eqb_true in E'. congruence.
Qed.

(** X11: a roster with the trigger [username-update] is broadcast only by
    an edit-member event on a room of the registry that is not completed,
    for a member the room has, and only when the identity the payload names
    is that member's own or the teacher's. *)
Theorem rename_needs_self_or_teacher (now : Z) (ev : Event) (s : State) (t : Target)
    (roster : list MemberView) (tid : string) :
  In (Emit t (MembersUpdated roster "username-update" tid)) (effects (handle now ev s)) ->
  exists c d a m,
    ev = EditMemberEv c d
    /\ find (byId (em_roomId d)) (activeRooms s) = Some a
    /\ completed a = false
    /\ find (byTelegramId (em_changeTelegramId d)) (members a) = Some m
    /\ (em_changeTelegramId d = em_telegramId d \/ teacher a = em_telegramId d)
    /\ tid = em_telegramId d /\ t = ToRoom (id a).
Proof.
  destruct ev as [c d|c d|c d|c d|c d|c d|c d|c]; simpl.
  - unfold handleJoinRoom. cbv zeta.
    destruct (getRoom _ _) as [room0|]; [|intros [H|[]]; discriminate].
    destruct (if _ : bool then _ else _) as [[room t']|]; [|intros []].
    destruct (getOrCreateDoc _ _). simpl.
    intros [H|[H|[H|[H|[H|[]]]]]]; discriminate.
  - unfold handleEditRoom. destruct (getRoom _ _) as [room|]; [|intros [H|[]]; discriminate].
    destruct (negb _); [intros [H|[]]; discriminate|].
    destruct (r_completed room); [intros []|].
    destruct (editRoom _ _ _) as [[u t']|]; [|intros []].
    simpl. intros [H|[]]. discriminate.
  - unfold handleCursor. destruct (find _ _) as [a|]; [|intros [H|[]]; discriminate].
    destruct (completed a); [intros []|].
    destruct (negb (truthyBool _)); [intros []|].
    destruct (negb _); simpl; intros [H|[]]; discriminate.
  - unfold handleSelection. destruct (find _ _) as [a|]; [|intros [H|[]]; discriminate].
    destruct (completed a && _); [intros []|].
    destruct (negb (truthyBool _) && _); [intros []|].
    simpl. intros [H|[]]. discriminate.
  - unfold handleCodeEdit. destruct (find _ _) as [a|]; [|intros [H|[]]; discriminate].
    destruct (completed a && _); [intros []|].
    destruct (negb (truthyBool _) && _); [intros [H|[]]; discriminate|].
    destruct (ce_telegramId d =? ""); [intros [H|[]]; discriminate|].
    destruct (getOrCreateDoc _ _) as [doc ds].
    destruct (applyUpdate doc _); [|intros []].
    simpl. intros [H|[]]. discriminate.
  - unfold handleEditMember.
    destruct (find _ _) as [a|] eqn:F; [|intros [H|[]]; discriminate].
    destruct (completed a) eqn:C; [intros []|].
    destruct (find _ (members a)) as [m|] eqn:M; [|intros [H|[]]; discriminate].
    destruct (_ || _) eqn:A; [|intros [H|[]]; discriminate].
    simpl. intros [H|[]]. injection H as <- _ <-.
    exists c, d, a, m. repeat split; auto.
    apply orb_true_iff in A. destruct A as [A|A]; apply eqb_true in A; [left|now right].
    apply find_some in M. destruct M as [_ M]. apply eqb_true in M. congruence.
  - unfold handleCloseSession.
    destruct (getRoom _ _) as [room|]; [|intros [H|[]]; discriminate].
    destruct (negb _); [intros [H|[]]; discriminate|].
    destruct (r_completed room); [intros []|].
    destruct (completeRoom _ _); [|intros []].
    simpl. intros [H|[]]. discriminate.
  - unfold handleDisconnect. destruct (reap _ _) as [[[r m] rs]|]; [|intros []].
    simpl. intros [H|[H|[H|[]]]]; discriminate.
Qed.

(** X12: an edit-member event that is allowed sets the name of the target
    member to the name of the payload (to none, when the payload has none),
    leaves every other member of the room as it was, and broadcasts the
    roster of the room as it then is. *)
Theorem rename_changes_one_name (client : string) (data : EditMember) (s : State)
    (a : Room) (m : Member) :
  find (byId (em_roomId data)) (activeRooms s) = Some a ->
  completed a = false ->
  find (byTelegramId (em_changeTelegramId data)) (members a) = Some m ->
  telegramId m = em_telegramId data \/ teacher a = em_telegramId data ->
  exists a',
    find (byId (em_roomId data)) (activeRooms (state (handleEditMember client data s)))
    = Some a'
    /\ find (byTelegramId (em_changeTelegramId data)) (members a')
       = Some (withUsername (em_username data) m)
    /\ (forall tid, tid <> em_changeTelegramId data ->
          find (byTelegramId tid) (members a') = find (byTelegramId tid) (members a))
    /\ map telegramId (members a') = map telegramId (members a)
    /\ effects (handleEditMember client data s)
       = [Emit (ToRoom (id a))
               (MembersUpdated (map memberView (members a')) "username-update"
                  (em_telegramId data))].
Proof.
  intros F C M A. unfold handleEditMember. rewrite F, C, M.
  assert ((telegramId m =? em_telegramId data) || (teacher a =? em_telegramId data) = true)
    as ->.
  { apply orb_true_iff. destruct A as [->| ->]; rewrite String.eqb_refl; auto. }
  simpl. rewrite find_byId_updateFirst by reflexivity. rewrite F.
  eexists. split; [reflexivity|]. simpl.
  split; [rewrite find_updateFirst by reflexivity; now rewrite M|].
  split.
  { intros tid Hne. apply find_updateFirst_other; [reflexivity|].
    intros x. now apply byTelegramId_other. }
  split; [now apply map_updateFirst | reflexivity].
Qed.

(** ** Documents *)

Lemma docsGet_docsSet (ds : list (string * Doc)) (rid : string) (d : Doc) :
  docsGet (docsSet ds rid d) rid = Some d.
Proof.
  unfold docsGet. induction ds as [|kv t IH]; simpl.
  - now rewrite String.eqb_refl.
  - destruct (fst kv =? rid) eqn:E; simpl.
    + now rewrite String.eqb_refl.
    + rewrite E. exact IH.
Qed.

Lemma docsGet_docsSet_other (ds : list (string * Doc)) (rid rid' : string) (d : Doc) :
  rid' <> rid -> docsGet (docsSet ds rid d) rid' = docsGet ds rid'.
Proof.
  intros Hne. unfold docsGet. induction ds as [|kv t IH]; simpl.
  - destruct (rid =? rid') eqn:E; [|reflexivity]. apply eqb_true in E. congruence.
  - destruct (fst kv =? rid) eqn:E; simpl.
    + apply eqb_true in E. rewrite E.
      destruct (rid =? rid') eqn:E'; [|reflexivity]. apply eqb_true in E'. congruence.
    + destruct (fst kv =? rid'); [reflexivity | exact IH].
Qed.

(** [getOrCreateDoc] returns the document the map then holds for the room,
    and keeps every document the map held. *)
Lemma getOrCreateDoc_spec (ds : list (string * Doc)) (rid : string) :
  docsGet (snd (getOrCreateDoc ds rid)) rid = Some (fst (getOrCreateDoc ds rid))
  /\ forall rid' d, docsGet ds rid' = Some d ->
       docsGet (snd (getOrCreateDoc ds rid)) rid' = Some d.
Proof.
  unfold getOrCreateDoc. destruct (docsGet ds rid) as [d0|] eqn:G; simpl.
  - split; [exact G | auto].
  - split; [apply docsGet_docsSet|]. intros rid' d H.
    rewrite docsGet_docsSet_other; [exact H|]. intros ->. congruence.
Qed.

(** X13: no handler deletes a document: a room that has a document keeps
    one through every event, also through the close of its session and the
    eviction of the room by a disconnect, and it is the same document
    unless the event is a code edit for that room. *)
Theorem documents_outlive_rooms (s : State) (rid : string) (d : Doc) (now : Z)
    (ev : Event) :
  docsGet (docs s) rid = Some d ->
  (exists d', docsGet (docs (state (handle now ev s))) rid = Some d')
  /\ (kind ev <> "code-edit" \/ (exists tid rid', named ev = Some (rid', tid) /\ rid' <> rid) ->
      docsGet (docs (state (handle now ev s))) rid = Some d).
Proof.
  intros H.
  assert (kind ev <> "code-edit" ->
          docsGet (docs (state (handle now ev s))) rid = Some d) as Hk.
  { destruct ev as [c p|c p|c p|c p|c p|c p|c p|c]; simpl; intros Hk;
      try congruence.
    - unfold handleJoinRoom. cbv zeta.
      destruct (getRoom _ _) as [room0|]; [|exact H].
      destruct (if _ : bool then _ else _) as [[room t']|]; [|exact H].
      pose proof (proj2 (getOrCreateDoc_spec (docs s) (r_id room)) _ _ H) as Hd.
      destruct (getOrCreateDoc _ _). exact Hd.
    - unfold handleEditRoom. destruct (getRoom _ _) as [room|]; [|exact H].
      destruct (negb _); [exact H|]. destruct (r_completed room); [exact H|].
      now destruct (editRoom _ _ _) as [[u t']|].
    - unfold handleCursor. destruct (find _ _) as [a|]; [|exact H].
      destruct (completed a); [exact H|]. destruct (negb (truthyBool _)); [exact H|].
      now destruct (negb _).
    - unfold handleSelection. destruct (find _ _) as [a|]; [|exact H].
      destruct (completed a && _); [exact H|]. now destruct (negb (truthyBool _) && _).
    - unfold handleEditMember. destruct (find _ _) as [a|]; [|exact H].
      destruct (completed a); [exact H|]. destruct (find _ (members a)); [|exact H].
      now destruct (_ || _).
    - unfold handleCloseSession. destruct (getRoom _ _) as [room|]; [|exact H].
      destruct (negb _); [exact H|]. destruct (r_completed room); [exact H|].
      now destruct (completeRoom _ _).
    - unfold handleDisconnect. now destruct (reap _ _) as [[[r m] rs]|]. }
  destruct ev as [c p|c p|c p|c p|c p|c p|c p|c];
    try (split; [exists d; apply Hk; discriminate | intros _; apply Hk; discriminate]).
  clear Hk. simpl. unfold handleCodeEdit.
  destruct (find _ _) as [a|]; [|split; eauto].
  destruct (completed a && _); [split; eauto|].
  destruct (negb (truthyBool _) && _); [split; eauto|].
  destruct (ce_telegramId p =? ""); [split; eauto|].
  pose proof (proj2 (getOrCreateDoc_spec (docs s) (ce_roomId p)) _ _ H) as Hd.
  destruct (getOrCreateDoc _ _) as [doc ds]. simpl in Hd.
  assert (forall doc', (exists d', docsGet (docsSet ds (ce_roomId p) doc') rid = Some d')
            /\ (ce_roomId p <> rid -> docsGet (docsSet ds (ce_roomId p) doc') rid = Some d))
    as Hset.
  { intros doc'. destruct (String.eqb_spec (ce_roomId p) rid) as [->|Hne].
    - split; [|congruence]. exists doc'. apply docsGet_docsSet.
    - rewrite docsGet_docsSet_other by congruence. eauto. }
  destruct (applyUpdate doc _) as [doc'|doc']; simpl;
    (split; [apply Hset|]; intros [Hk|(tid & rid' & [= <- _] & Hne)];
     [congruence | now apply Hset]).
Qed.

(** X14: a code edit the engine applies stores the new document for the
    room, and whoever joins the room next is sent the full state of that
    very document, in a [code-edit-action] for the joiner alone. *)
Theorem late_joiner_gets_document (now : Z) (client : string) (data : CodeEditPayload)
    (s : State) (a : Room) (doc' : Doc) :
  reachable s ->
  find (byId (ce_roomId data)) (activeRooms s) = Some a ->
  completed a && negb (teacher a =? ce_telegramId data) = false ->
  negb (truthyBool (studentEditCodeEnabled a)) && negb (ce_telegramId data =? teacher a)
  = false ->
  (ce_telegramId data =? "") = false ->
  applyUpdate (fst (getOrCreateDoc (docs s) (ce_roomId data))) (ce_update data)
  = Applied doc' ->
  docsGet (docs (state (handleCodeEdit now client data s))) (ce_roomId data) = Some doc'
  /\ forall now' client' join',
       jp_roomId join' = ce_roomId data ->
       In (Emit (ToClient client')
                (CodeEditAction None None None (encodeStateAsUpdate doc')))
          (effects (handleJoinRoom now' join' client'
                      (state (handleCodeEdit now client data s)))).
Proof.
  intros HR F G1 G2 G3 A. apply reachable_Inv in HR.
  destruct (Inv_found _ _ _ HR F) as (_ & Hs & Hid).
  unfold synced, completedOf in Hs. rewrite Hid in Hs.
  destruct (findUnique (table s) (ce_roomId data)) as [room0|] eqn:G; [|discriminate].
  unfold handleCodeEdit. rewrite F, G1, G2, G3.
  destruct (getOrCreateDoc _ _) as [doc ds]. simpl in A. rewrite A. simpl.
  split; [apply docsGet_docsSet|].
  intros now' client' join' Hr. unfold handleJoinRoom. cbv zeta. simpl.
  rewrite Hr, getRoom_findUnique, G.
  destruct (join_lookup _ _ (jp_telegramId join') _ G) as (room & t' & -> & Hrid & _).
  rewrite Hrid. unfold getOrCreateDoc at 1. rewrite docsGet_docsSet. simpl.
  right. right. right. left. reflexivity.
Qed.

(** ** Reconnecting *)

Lemma reap_none (client : string) (rooms : list Room) :
  (forall r m, In r rooms -> In m (members r) -> clientId m <> client) ->
  reap client rooms = None.
Proof.
  induction rooms as [|r t IH]; simpl; intros H; [reflexivity|].
  destruct (find (byClientId client) (members r)) as [m|] eqn:F.
  - exfalso. apply find_some in F. destruct F as [Hin E]. apply eqb_true in E.
    exact (H r m (or_introl eq_refl) Hin E).
  - rewrite IH; [reflexivity|]. intros r' m' Hr'. apply H. now right.
Qed.

Lemma key_not_in_rest {A : Type} (key : A -> string) (pre post : list A) (a x : A) :
  NoDup (map key (pre ++ a :: post)) -> In x (pre ++ post) -> key x <> key a.
Proof.
  intros Hn Hx E. rewrite map_app in Hn. simpl in Hn. apply NoDup_remove_2 in Hn.
  apply Hn. rewrite <- map_app, <- E. now apply in_map.
Qed.

(** X15: the disconnect of a connection no member is bound to changes
    nothing and sends nothing.  So when an identity whose member is the only
    one bound to an old connection joins its room again from a new
    connection, the disconnect of the old connection, when it comes, changes
    nothing and sends nothing. *)
Theorem reconnect_survives_old_disconnect (now : Z) (data : JoinPayload)
    (old client : string) (s : State) :
  ((forall r m, In r (activeRooms s) -> In m (members r) -> clientId m <> old) ->
   handleDisconnect old s = ret s [])
  /\ (reachable s ->
      old <> client ->
      (forall r m, In r (activeRooms s) -> In m (members r) -> clientId m = old ->
         id r = jp_roomId data /\ telegramId m = jp_telegramId data) ->
      handleDisconnect old (state (handleJoinRoom now data client s))
      = ret (state (handleJoinRoom now data client s)) []).
Proof.
  split.
  { intros Hfree. unfold handleDisconnect. now rewrite (reap_none _ _ Hfree). }
  intros HR Hne Hold. apply reachable_Inv in HR.
  assert (forall r m, In r (activeRooms (state (handleJoinRoom now data client s))) ->
            In m (members r) -> clientId m <> old) as Hfree.
  2:{ unfold handleDisconnect. now rewrite (reap_none _ _ Hfree). }
  unfold handleJoinRoom. cbv zeta.
  destruct (getRoom _ _) as [room0|] eqn:G.
  2:{ simpl. intros r m Hr Hm E. destruct (Hold r m Hr Hm E) as [Hid _].
      destruct (Inv_room _ _ HR Hr) as [_ Hs]. unfold synced, completedOf in Hs.
      rewrite getRoom_findUnique in G. rewrite Hid, G in Hs. discriminate. }
  rewrite getRoom_findUnique in G.
  destruct (join_lookup _ _ (jp_telegramId data) _ G) as (room & t' & -> & Hid & _).
  destruct (getOrCreateDoc _ _) as [doc docs']. rewrite Hid. simpl.
  set (tid := jp_telegramId data) in *. set (rid := jp_roomId data) in *.
  assert (forall a, (forall m, In m (members a) -> clientId m = old -> telegramId m = tid) ->
            NoDup (map telegramId (members a)) ->
            forall m, In m match find (byTelegramId tid) (members a) with
                           | Some _ => updateFirst (byTelegramId tid)
                                         (rebind client now (jp_username data)) (members a)
                           | None => members a ++ [newMember client tid (jp_username data) now]
                           end -> clientId m <> old) as Hms.
  { intros a Ha Hn m. destruct (find (byTelegramId tid) (members a)) as [m0|] eqn:M.
    - destruct (updateFirst_found _ (rebind client now (jp_username data)) _ _ M)
        as (mpre & mpost & E & _ & Hm0 & ->).
      rewrite E in Hn, Ha. intros Hin E'.
      apply in_app_or in Hin. destruct Hin as [Hin|[<-|Hin]].
      + apply (key_not_in_rest telegramId mpre mpost m0 m Hn); [apply in_or_app; auto|].
        apply eqb_true in Hm0. rewrite Hm0. apply Ha; [apply in_or_app; auto | exact E'].
      + simpl in E'. congruence.
      + apply (key_not_in_rest telegramId mpre mpost m0 m Hn); [apply in_or_app; auto|].
        apply eqb_true in Hm0. rewrite Hm0.
        apply Ha; [apply in_or_app; right; now right | exact E'].
    - intros Hin E'. apply in_app_or in Hin. destruct Hin as [Hin|[<-|[]]].
      + pose proof (find_none _ _ M m Hin) as Hf. unfold byTelegramId in Hf.
        rewrite (Ha m Hin E'), String.eqb_refl in Hf. discriminate.
      + simpl in E'. congruence. }
  destruct (find (byId rid) (activeRooms s)) as [a|] eqn:F.
  - destruct (updateFirst_found _
                (fun r => withMembers r
                   match find (byTelegramId tid) (members a) with
                   | Some _ => updateFirst (byTelegramId tid)
                                 (rebind client now (jp_username data)) (members a)
                   | None => members a ++ [newMember client tid (jp_username data) now]
                   end) _ _ F) as (pre & post & E & _ & Ha & ->).
    destruct HR as (Hn & Ho & _). rewrite E in Hn, Ho, Hold.
    intros r m Hr Hm. apply in_app_or in Hr. destruct Hr as [Hr|[<-|Hr]].
    + intros E'. apply (key_not_in_rest id pre post a r Hn); [apply in_or_app; auto|].
      apply eqb_true in Ha. rewrite Ha.
      apply (Hold r m); [apply in_or_app; auto | exact Hm | exact E'].
    + simpl in Hm. revert Hm. apply Hms.
      * intros m' Hm' E'. apply (Hold a m'); [apply in_elt | exact Hm' | exact E'].
      * apply Forall_app in Ho. destruct Ho as [_ Ho]. inversion Ho; subst. apply H1.
    + intros E'. apply (key_not_in_rest id pre post a r Hn); [apply in_or_app; auto|].
      apply eqb_true in Ha. rewrite Ha.
      apply (Hold r m); [apply in_or_app; right; now right | exact Hm | exact E'].
  - rewrite updateFirst_app_none by assumption. simpl.
    unfold byId at 1. simpl. rewrite Hid, String.eqb_refl.
    intros r m Hr Hm. apply in_app_or in Hr. destruct Hr as [Hr|[<-|[]]].
    + intros E'. destruct (Hold r m Hr Hm E') as [Hrid _].
      pose proof (find_none _ _ F r Hr) as Hf. unfold byId in Hf.
      rewrite Hrid, String.eqb_refl in Hf. discriminate.
    + simpl in Hm. destruct Hm as [<-|[]]. simpl. congruence.
Qed.

(** ** What every member of a reachable state satisfies *)

Lemma Forall_updateFirst_to {A : Type} (Q : A -> Prop) (p : A -> bool) (f : A -> A)
    (l : list A) :
  (forall x, In x l -> Q (f x)) -> Forall Q l -> Forall Q (updateFirst p f l).
Proof.
  induction l as [|x t IH]; simpl; intros Hf H; [constructor|].
  inversion H; subst. destruct (p x); constructor; auto.
Qed.

Section MemberInvariant.
Variable P : Member -> Prop.
Hypothesis P_new : forall client tid name now, P (newMember client tid name now).
Hypothesis P_rebind : forall client now name m, P m -> P (rebind client now name m).
Hypothesis P_touch : forall now m, P m -> P (touch now m).
Hypothesis P_cursor : forall p m, P m -> P (withCursor p m).
Hypothesis P_select : forall data m, P m -> P (select data m).
Hypothesis P_name : forall name m, P m -> P (withUsername name m).
Hypothesis P_offline : forall m, P m -> P (markOffline m).

Let allP (rooms : list Room) : Prop := Forall (fun r => Forall P (members r)) rooms.

Lemma allP_found (rooms : list Room) (rid : string) (a : Room) :
  allP rooms -> find (byId rid) rooms = Some a -> Forall P (members a).
Proof.
  intros H F. apply find_some in F. destruct F as [Hin _].
  unfold allP in H. rewrite Forall_forall in H. now apply H.
Qed.

Lemma allP_update (rooms : list Room) (rid : string) (ms : list Member) :
  allP rooms -> Forall P ms ->
  allP (updateFirst (byId rid) (fun r => withMembers r ms) rooms).
Proof. intros H Hms. apply Forall_updateFirst_to; auto. Qed.

Lemma allP_handle (now : Z) (ev : Event) (s : State) :
  allP (activeRooms s) -> allP (activeRooms (state (handle now ev s))).
Proof.
  intros H. destruct ev as [c d|c d|c d|c d|c d|c d|c d|c]; simpl.
  - unfold handleJoinRoom. cbv zeta.
    destruct (getRoom _ _) as [room0|]; [|exact H].
    destruct (if _ : bool then _ else _) as [[room t']|]; [|exact H].
    destruct (getOrCreateDoc _ _). simpl.
    destruct (find (byId (r_id room)) (activeRooms s)) as [a|] eqn:F.
    + pose proof (allP_found _ _ _ H F) as Ha. apply allP_update; [exact H|].
      destruct (find _ (members a)).
      * apply Forall_updateFirst; auto.
      * apply Forall_app. split; [exact Ha|]. repeat constructor. apply P_new.
    + apply allP_update.
      * apply Forall_app. split; [exact H|]. repeat constructor.
      * simpl. repeat constructor. apply P_new.
  - unfold handleEditRoom. destruct (getRoom _ _) as [room|]; [|exact H].
    destruct (negb _); [exact H|]. destruct (r_completed room); [exact H|].
    destruct (editRoom _ _ _) as [[u t']|]; [|exact H]. simpl.
    unfold allP in *. rewrite Forall_forall in *. intros r' Hr'.
    apply in_map_iff in Hr'. destruct Hr' as (r & <- & Hr).
    destruct (id r =? r_id u); simpl; auto.
  - unfold handleCursor. destruct (find _ _) as [a|] eqn:F; [|exact H].
    destruct (completed a); [exact H|]. destruct (negb (truthyBool _)); [exact H|].
    destruct (negb _); [exact H|]. simpl.
    apply allP_update; [exact H|]. apply Forall_updateFirst; [auto|].
    exact (allP_found _ _ _ H F).
  - unfold handleSelection. destruct (find _ _) as [a|] eqn:F; [|exact H].
    destruct (completed a && _); [exact H|].
    destruct (negb (truthyBool _) && _); [exact H|]. simpl.
    apply allP_update; [exact H|]. apply Forall_updateFirst; [auto|].
    exact (allP_found _ _ _ H F).
  - unfold handleCodeEdit. destruct (find _ _) as [a|] eqn:F; [|exact H].
    destruct (completed a && _); [exact H|].
    destruct (negb (truthyBool _) && _); [exact H|].
    destruct (ce_telegramId d =? ""); [exact H|].
    destruct (getOrCreateDoc _ _) as [doc ds].
    destruct (applyUpdate doc _); simpl;
      (apply allP_update; [exact H|]; apply Forall_updateFirst; [auto|];
       exact (allP_found _ _ _ H F)).
  - unfold handleEditMember. destruct (find _ _) as [a|] eqn:F; [|exact H].
    destruct (completed a); [exact H|]. destruct (find _ (members a)); [|exact H].
    destruct (_ || _); [|exact H]. simpl.
    apply allP_update; [exact H|]. apply Forall_updateFirst; [auto|].
    exact (allP_found _ _ _ H F).
  - unfold handleCloseSession. destruct (getRoom _ _) as [room|]; [|exact H].
    destruct (negb _); [exact H|]. destruct (r_completed room); [exact H|].
    destruct (completeRoom _ _); [|exact H]. simpl. now apply Forall_filter.
  - unfold handleDisconnect.
    destruct (reap c (activeRooms s)) as [[[r' m'] rooms1]|] eqn:R; [|exact H].
    destruct (reap_spec _ _ _ _ _ R) as (pre & a & post & m & E & _ & _ & -> & _ & ->).
    simpl. unfold allP in *. rewrite E in H.
    apply Forall_app in H. destruct H as [H1 H2]. inversion H2; subst.
    assert (Forall (fun r => Forall P (members r))
              (pre ++ withMembers a (updateFirst (byClientId c) markOffline (members a))
                   :: post)) as H'.
    { apply Forall_app. split; [exact H1|]. constructor; [|assumption].
      simpl. apply Forall_updateFirst; auto. }
    destruct (length _ =? 0)%nat; [now apply Forall_removeFirst | exact H'].
Qed.

Lemma reachable_members (s : State) (r : Room) (m : Member) :
  reachable s -> In r (activeRooms s) -> In m (members r) -> P m.
Proof.
  intros HR. assert (allP (activeRooms s)) as H.
  { induction HR as [rooms|s now ev _ IH]; [constructor | now apply allP_handle]. }
  intros Hr Hm. unfold allP in H. rewrite Forall_forall in H.
  specialize (H r Hr). rewrite Forall_forall in H. now apply H.
Qed.

End MemberInvariant.

(** X16: in every reachable state the last selection of every member is
    absent, a point (a line other than 0 and a column, no range field), a
    range (start, end and a non-empty text, no point field) or the cleared
    selection: point and range fields are never mixed. *)
Theorem selection_never_mixed (s : State) (r : Room) (m : Member) :
  reachable s -> In r (activeRooms s) -> In m (members r) ->
  wellShaped (lastSelection m) = true.
Proof.
  apply (reachable_members (fun m => wellShaped (lastSelection m) = true)); auto.
  intros data m0 H. unfold select.
  destruct (isPoint data) eqn:Hp.
  - simpl. unfold isPoint in Hp. apply andb_true_iff in Hp. destruct Hp as [Hp _].
    apply andb_true_iff in Hp. destruct Hp as [Hl Hc].
    destruct (sp_line data) as [l|]; [|discriminate].
    destruct (sp_column data); [exact Hl | discriminate].
  - destruct (isRange data) eqn:Hr.
    + simpl. unfold isRange in Hr. apply andb_true_iff in Hr. destruct Hr as [Hr Ht].
      apply andb_true_iff in Hr. destruct Hr as [Hs He].
      destruct (sp_selectionStart data); [|discriminate].
      destruct (sp_selectionEnd data); [|discriminate].
      destruct (sp_selectedText data); [|discriminate].
      simpl in Ht. now rewrite Ht.
    + now destruct (isClear data).
Qed.

(** ** Enrolment *)




(** ** The roster a join broadcasts *)

Lemma length_filter_map {A B : Type} (f : A -> B) (p : B -> bool) (l : list A) :
  length (filter p (map f l)) = length (filter (fun x => p (f x)) l).
Proof.
  induction l as [|x t IH]; simpl; [reflexivity|].
  destruct (p (f x)); simpl; now rewrite IH.
Qed.

(** What a join of a room the table holds leaves and broadcasts: the room
    is in the registry, the joiner is a member of it, online and bound to
    the joining connection; the member list is the one the room had, with
    the joiner's member rebound or a new member appended; the roster of that
    list is the only broadcast. *)
Lemma join_outcome (now : Z) (data : JoinPayload) (client : string) (s : State)
    (room0 : RoomRdo) :
  findUnique (table s) (jp_roomId data) = Some room0 ->
  exists r' me,
    find (byId (jp_roomId data)) (activeRooms (state (handleJoinRoom now data client s)))
    = Some r'
    /\ find (byTelegramId (jp_telegramId data)) (members r') = Some me
    /\ online me = true /\ clientId me = client
    /\ members r'
       = (let ms := match find (byId (jp_roomId data)) (activeRooms s) with
                    | Some a => members a
                    | None => []
                    end in
          match find (byTelegramId (jp_telegramId data)) ms with
          | Some _ => updateFirst (byTelegramId (jp_telegramId data))
                        (rebind client now (jp_username data)) ms
          | None => ms ++ [newMember client (jp_telegramId data) (jp_username data) now]
          end)
    /\ In (Emit (ToRoom (jp_roomId data))
                (MembersUpdated (map (joinView (jp_telegramId data)) (members r')) "join"
                   (jp_telegramId data)))
          (effects (handleJoinRoom now data client s))
    /\ broadcasts (effects (handleJoinRoom now data client s))
       = [(jp_roomId data, "members-updated")].
Proof.
  intros G. unfold handleJoinRoom. cbv zeta. rewrite getRoom_findUnique, G.
  destruct (join_lookup _ _ (jp_telegramId data) _ G) as (room & t' & -> & Hid & _).
  destruct (getOrCreateDoc _ _) as [doc docs']. rewrite Hid. simpl.
  set (tid := jp_telegramId data). set (rid := jp_roomId data).
  set (ar := match find (byId rid) (activeRooms s) with
             | Some r => r | None => activate room end).
  assert (members ar = match find (byId rid) (activeRooms s) with
                       | Some a => members a | None => [] end) as Hms.
  { subst ar. now destruct (find (byId rid) (activeRooms s)). }
  rewrite <- Hms.
  destruct (join_member now client tid (jp_username data) (members ar))
    as (me & Hme & Hon & Hcl & _).
  set (ms := match find (byTelegramId tid) (members ar) with
             | Some _ => updateFirst (byTelegramId tid)
                           (rebind client now (jp_username data)) (members ar)
             | None => members ar ++ [newMember client tid (jp_username data) now]
             end) in *.
  exists (withMembers ar ms), me.
  split.
  { rewrite find_byId_updateFirst by reflexivity. subst ar.
    destruct (find (byId rid) (activeRooms s)) as [r|] eqn:F.
    - now rewrite F.
    - rewrite find_app_none by assumption. simpl. unfold byId at 1. simpl.
      now rewrite Hid, String.eqb_refl. }
  simpl. split; [exact Hme|]. split; [exact Hon|]. split; [exact Hcl|].
  split; [reflexivity|]. split; [right; left; reflexivity | reflexivity].
Qed.

(** X19: the only broadcast of a join is the roster of the room as the join
    leaves it, sent to the whole room; in a reachable state the roster has
    one entry per identity, and exactly one entry is flagged [isYourself]:
    the entry of the joiner, which is online. *)
Theorem join_roster (now : Z) (data : JoinPayload) (client : string) (s : State)
    (room0 : RoomRdo) :
  reachable s ->
  getRoom (table s) (jp_roomId data) = Some room0 ->
  exists r' roster,
    find (byId (jp_roomId data)) (activeRooms (state (handleJoinRoom now data client s)))
    = Some r'
    /\ roster = map (joinView (jp_telegramId data)) (members r')
    /\ In (Emit (ToRoom (jp_roomId data))
                (MembersUpdated roster "join" (jp_telegramId data)))
          (effects (handleJoinRoom now data client s))
    /\ broadcasts (effects (handleJoinRoom now data client s))
       = [(jp_roomId data, "members-updated")]
    /\ NoDup (map mv_telegramId roster)
    /\ length (filter (fun v => truthyBool (mv_isYourself v)) roster) = 1
    /\ forall v, In v roster -> mv_isYourself v = Some true ->
         mv_telegramId v = jp_telegramId data /\ mv_online v = true.
Proof.
  intros HR G. rewrite getRoom_findUnique in G.
  destruct (join_outcome now data client s room0 G)
    as (r' & me & F & M & Hon & _ & _ & Hin & Hb).
  pose proof (reachable_Inv _ (reachable_step s now (JoinRoomEv client data) HR)) as HI.
  simpl in HI. destruct (Inv_found _ _ _ HI F) as ((Hn & _) & _).
  exists r', (map (joinView (jp_telegramId data)) (members r')).
  split; [exact F|]. split; [reflexivity|]. split; [exact Hin|]. split; [exact Hb|].
  split; [now rewrite map_map|]. split.
  - rewrite length_filter_map. simpl.
    pose proof (filter_key_le1 telegramId (jp_telegramId data) (members r') Hn) as Hle.
    pose proof (find_some _ _ M) as [Hme Eme].
    assert (In me (filter (fun x => telegramId x =? jp_telegramId data) (members r'))) as Hf.
    { apply filter_In. split; [exact Hme | exact Eme]. }
    destruct (filter (fun x => telegramId x =? jp_telegramId data) (members r'))
      as [|x [|y t]]; simpl in *; [contradiction | reflexivity | lia].
  - intros v Hv Hy. apply in_map_iff in Hv. destruct Hv as (m & <- & Hm).
    simpl in *. injection Hy as Hy. apply eqb_true in Hy. split; [exact Hy|].
    pose proof (find_some _ _ M) as [Hme Eme]. apply eqb_true in Eme.
    assert (m = me) as ->; [|exact Hon].
    pose proof (find_in_unique telegramId (members r') m Hn Hm) as F1.
    pose proof (find_in_unique telegramId (members r') me Hn Hme) as F2.
    rewrite Hy in F1. rewrite Eme in F2. congruence.
Qed.

(** ** A cursor event that passes *)

(** X20: a cursor event with two coordinates, for a room of the registry
    that is not completed and has the student cursor enabled, stores the
    position on the member of the sender identity, with the time, leaves
    every other member as it was, and sends one event: the payload, relayed
    to every connection of the room but the sender's, with the color and
    name of that member.  When the identity has no member in the room the
    payload is relayed all the same, with no color and no name, and no
    member changes. *)
Theorem cursor_moves_one_cursor (now : Z) (client : string) (data : CursorPayload)
    (s : State) (a : Room) (x y : Z) :
  find (byId (cp_roomId data)) (activeRooms s) = Some a ->
  completed a = false -> truthyBool (studentCursorEnabled a) = true ->
  cp_position data = [x; y] ->
  exists a',
    find (byId (cp_roomId data)) (activeRooms (state (handleCursor now client data s)))
    = Some a'
    /\ (forall tid, tid <> cp_telegramId data ->
          find (byTelegramId tid) (members a') = find (byTelegramId tid) (members a))
    /\ match find (byTelegramId (cp_telegramId data)) (members a) with
       | Some m =>
           find (byTelegramId (cp_telegramId data)) (members a')
           = Some (touch now (withCursor (x, y) m))
           /\ effects (handleCursor now client data s)
              = [Emit (ToRoomExceptSender (id a) client)
                      (CursorAction data (userColor m) (username m))]
       | None =>
           members a' = members a
           /\ effects (handleCursor now client data s)
              = [Emit (ToRoomExceptSender (id a) client) (CursorAction data None None)]
       end
    /\ docs (state (handleCursor now client data s)) = docs s
    /\ table (state (handleCursor now client data s)) = table s.
Proof.
  intros F C T P. unfold handleCursor. rewrite F, C, T, P. simpl.
  rewrite find_byId_updateFirst by reflexivity. rewrite F.
  eexists. split; [reflexivity|]. simpl. split.
  { intros tid Hne. apply find_updateFirst_other; [reflexivity|].
    intros m. now apply byTelegramId_other. }
  split; [|split; reflexivity].
  destruct (find (byTelegramId (cp_telegramId data)) (members a)) as [m|] eqn:M.
  - split; [|reflexivity]. rewrite find_updateFirst by reflexivity. now rewrite M.
  - split; [|reflexivity]. now apply updateFirst_none.
Qed.

(** ** Leaving and coming back *)

(** X21: a member that disconnects while a member of another identity is
    online, and whose identity then joins the room again, from any
    connection, is the same member again: online, bound to the new
    connection, with the cursor and the color it had and with no selection;
    it keeps its name unless the join gives one, and the room has the
    members it had. *)
Theorem leave_and_rejoin (now : Z) (data : JoinPayload) (old client : string)
    (s : State) (pre post : list Room) (a : Room) (m : Member) :
  reachable s ->
  activeRooms s = pre ++ a :: post ->
  Forall (fun r => find (byClientId old) (members r) = None) pre ->
  find (byClientId old) (members a) = Some m ->
  existsb (fun x => online x && negb (telegramId x =? telegramId m)) (members a) = true ->
  jp_roomId data = id a -> jp_telegramId data = telegramId m ->
  exists r' me,
    find (byId (id a))
         (activeRooms (state (handleJoinRoom now data client
                                (state (handleDisconnect old s))))) = Some r'
    /\ find (byTelegramId (telegramId m)) (members r') = Some me
    /\ online me = true /\ clientId me = client
    /\ lastCursorPosition me = lastCursorPosition m
    /\ lastSelection me = None
    /\ userColor me = userColor m
    /\ username me = (if truthyStr (jp_username data) then jp_username data
                      else username m)
    /\ map telegramId (members r') = map telegramId (members a).
Proof.
  intros HR E Hpre M Hothers Hrid Htid. pose proof (reachable_Inv _ HR) as HI.
  assert (In a (activeRooms s)) as Hin by (rewrite E; apply in_elt).
  destruct (Inv_room _ _ HI Hin) as ((Hn & _) & Hs).
  destruct HI as (Hids & _ & _). rewrite E in Hids.
  pose proof (find_app_none_l _ _ _ (find_key_unique id (id a) pre post a Hids eq_refl))
    as Hupre.
  destruct (find_split _ _ _ M) as (mpre & mpost & Em & Hmpre & Hm).
  assert (find (byTelegramId (telegramId m)) (mpre ++ markOffline m :: mpost)
          = Some (markOffline m)) as Hfm.
  { rewrite Em in Hn. rewrite find_app_or.
    destruct (find (byTelegramId (telegramId m)) mpre) as [z|] eqn:Fz.
    - exfalso. apply find_some in Fz. destruct Fz as [Hz Ez]. apply eqb_true in Ez.
      apply (key_not_in_rest telegramId mpre mpost m z Hn); [apply in_or_app; auto | exact Ez].
    - simpl. unfold byTelegramId at 1. simpl. now rewrite String.eqb_refl. }
  assert (activeRooms (state (handleDisconnect old s))
          = pre ++ withMembers a (mpre ++ markOffline m :: mpost) :: post
          /\ table (state (handleDisconnect old s)) = table s) as [E1 T1].
  { unfold handleDisconnect. rewrite E, (reap_found _ _ _ _ _ Hpre M). simpl.
    rewrite Em in Hn, Hothers |- *. rewrite (others_online _ _ _ Hn) in Hothers.
    rewrite updateFirst_app_none by assumption. simpl. rewrite Hm.
    rewrite filter_nil_existsb, Hothers. simpl. auto. }
  unfold synced, completedOf in Hs.
  destruct (findUnique (table s) (id a)) as [room0|] eqn:G; [|discriminate].
  assert (findUnique (table (state (handleDisconnect old s))) (jp_roomId data) = Some room0)
    as G1 by (now rewrite T1, Hrid).
  destruct (join_outcome now data client _ room0 G1)
    as (r' & me & F & Fme & Hon & Hcl & Hms & _).
  rewrite Hrid in F. rewrite Htid in Fme.
  exists r', me. split; [exact F|]. split; [exact Fme|].
  split; [exact Hon|]. split; [exact Hcl|].
  rewrite E1, Hrid, Htid in Hms.
  rewrite (find_app_none (byId (id a))) in Hms by exact Hupre.
  simpl in Hms. rewrite byId_withMembers in Hms. simpl in Hms. rewrite Hfm in Hms.
  rewrite Hms in Fme. rewrite find_updateFirst in Fme by reflexivity.
  rewrite Hfm in Fme. injection Fme as <-. simpl.
  repeat split; try reflexivity.
  rewrite Hms, Em. rewrite map_updateFirst by reflexivity. now rewrite !map_app.
Qed.

End More.

(** ** Deleting a room *)

Lemma removeFirst_length {A : Type} (p : A -> bool) (l : list A) (x : A) :
  find p l = Some x -> S (length (removeFirst p l)) = length l.
Proof.
  induction l as [|y t IH]; simpl; intros H; [discriminate|].
  destruct (p y); [reflexivity|]. simpl. now rewrite IH.
Qed.

Lemma findUnique_removeFirst_other (t : list RoomRdo) (w : RoomRdo -> bool)
    (rid rid' : string) :
  (forall r, w r = true -> r_id r = rid) -> rid' <> rid ->
  findUnique (removeFirst w t) rid' = findUnique t rid'.
Proof.
  intros Hw Hne. unfold findUnique. induction t as [|r t IH]; simpl; [reflexivity|].
  destruct (w r) eqn:W.
  - apply Hw in W. destruct (r_id r =? rid') eqn:E; [|reflexivity].
    apply eqb_true in E. congruence.
  - simpl. destruct (r_id r =? rid'); [reflexivity | exact IH].
Qed.

(** X22: [deleteRoom] removes a record only for its teacher: with anyone
    else it fails and there is no new table; when it succeeds exactly one
    record is gone, it had that identifier and that teacher, the records of
    the other rooms are still found, and in a table with one record per
    identifier the room is not found any more. *)
Theorem deleteRoom_by_teacher_only (t : list RoomRdo) (rid tid : string) :
  (NoDup (map r_id t) ->
   forall d, findUnique t rid = Some d -> r_teacher d <> tid -> deleteRoom t rid tid = None)
  /\ (findUnique t rid = None -> deleteRoom t rid tid = None)
  /\ (forall t', deleteRoom t rid tid = Some t' ->
        (exists d, In d t /\ r_id d = rid /\ r_teacher d = tid)
        /\ S (length t') = length t
        /\ (forall rid', rid' <> rid -> findUnique t' rid' = findUnique t rid')
        /\ (NoDup (map r_id t) -> findUnique t' rid = None)).
Proof.
  unfold deleteRoom.
  set (w := fun r => (r_id r =? rid) && (r_teacher r =? tid)).
  assert (forall r, w r = true -> r_id r = rid /\ r_teacher r = tid) as Hw.
  { intros r Hr. unfold w in Hr. apply andb_true_iff in Hr.
    destruct Hr as [H1 H2]. split; now apply eqb_true. }
  split; [|split].
  - intros Hn d F Ht. destruct (find w t) as [x|] eqn:Fx; [|reflexivity].
    exfalso. apply find_some in Fx. destruct Fx as [Hx Wx].
    destruct (Hw x Wx) as [Hid Hteach].
    pose proof (find_some _ _ F) as [Hd Ed]. apply eqb_true in Ed.
    pose proof (find_in_unique r_id t x Hn Hx) as F1.
    pose proof (find_in_unique r_id t d Hn Hd) as F2.
    rewrite Hid in F1. rewrite Ed in F2. congruence.
  - intros F. destruct (find w t) as [x|] eqn:Fx; [|reflexivity].
    exfalso. apply find_some in Fx. destruct Fx as [Hx Wx].
    destruct (Hw x Wx) as [Hid _].
    pose proof (find_none _ _ F x Hx) as Hf. simpl in Hf.
    rewrite Hid, String.eqb_refl in Hf. discriminate.
  - intros t'. destruct (find w t) as [x|] eqn:Fx; [|discriminate].
    intros [= <-]. pose proof (find_some _ _ Fx) as [Hx Wx].
    destruct (Hw x Wx) as [Hid Hteach].
    split; [exists x; auto|]. split; [exact (removeFirst_length _ _ _ Fx)|].
    split.
    + intros rid' Hne. apply (findUnique_removeFirst_other t w rid rid'); [|exact Hne].
      intros r Hr. apply (Hw r Hr).
    + intros Hn. destruct (find_split _ _ _ Fx) as (pre & post & E & Hpre & _).
      rewrite E. rewrite removeFirst_app_none by exact Hpre. simpl. rewrite Wx.
      rewrite E in Hn. exact (find_key_unique r_id rid pre post x Hn Hid).
Qed.

Section Gates.
Context {Y : YEngine}.

(** ** The gates after an edit of the room *)

(** What an edit-room of the teacher of a room that is not completed
    leaves of a room of the registry: the room with the merged toggles. *)
Lemma editRoom_outcome (client : string) (data : EditPayload) (s : State)
    (room : RoomRdo) (a : Room) :
  findUnique (table s) (ep_roomId data) = Some room ->
  r_teacher room = ep_telegramId data -> r_completed room = false ->
  find (byId (ep_roomId data)) (activeRooms s) = Some a ->
  find (byId (ep_roomId data)) (activeRooms (state (handleEditRoom client data s)))
  = Some (withToggles a
            (mergedToggle (ep_studentCursorEnabled data) (Some a)
               studentCursorEnabled (r_studentCursorEnabled room))
            (mergedToggle (ep_studentEditCodeEnabled data) (Some a)
               studentEditCodeEnabled (r_studentEditCodeEnabled room))
            (mergedToggle (ep_studentSelectionEnabled data) (Some a)
               studentSelectionEnabled (r_studentSelectionEnabled room))).
Proof.
  intros G T C F. unfold handleEditRoom.
  rewrite getRoom_findUnique, G, T, String.eqb_refl, C. simpl.
  destruct (editRoom_some _ _ data _ G T) as (u & t' & E).
  pose proof (findUnique_id _ _ _ G) as Hid. rewrite Hid, F, E.
  destruct (editRoom_spec _ _ _ _ _ E) as [Hu _]. simpl.
  rewrite find_byId_map.
  2:{ intros r. now destruct (id r =? r_id u). }
  rewrite F. pose proof (find_some _ _ F) as [_ Ha]. apply eqb_true in Ha.
  now rewrite Ha, Hu, String.eqb_refl.
Qed.

(** X23: a toggle the teacher turns off in a reachable state gates the very
    next event.  With the edit toggle off, a code edit of any identity but
    the teacher's is answered with the editing-disabled error and changes
    nothing; with the cursor toggle off, every cursor event for the room,
    the teacher's as well, is dropped in silence; with the selection toggle
    off, a selection of any identity but the teacher's is dropped in
    silence. *)
Theorem toggles_gate_at_once (client : string) (data : EditPayload) (s : State)
    (room : RoomRdo) (a : Room) :
  reachable s ->
  getRoom (table s) (ep_roomId data) = Some room ->
  r_teacher room = ep_telegramId data -> r_completed room = false ->
  find (byId (ep_roomId data)) (activeRooms s) = Some a ->
  (ep_studentEditCodeEnabled data = Some false ->
   forall now c edit, ce_roomId edit = ep_roomId data -> ce_telegramId edit <> teacher a ->
     handleCodeEdit now c edit (state (handleEditRoom client data s))
     = ret (state (handleEditRoom client data s))
           [Emit (ToClient c) (ErrorEvent msgEditDisabled)])
  /\ (ep_studentCursorEnabled data = Some false ->
      forall now c cur, cp_roomId cur = ep_roomId data ->
        handleCursor now c cur (state (handleEditRoom client data s))
        = ret (state (handleEditRoom client data s)) [])
  /\ (ep_studentSelectionEnabled data = Some false ->
      forall now c sel, sp_roomId sel = ep_roomId data -> sp_telegramId sel <> teacher a ->
        handleSelection now c sel (state (handleEditRoom client data s))
        = ret (state (handleEditRoom client data s)) []).
Proof.
  intros HR G T C F. rewrite getRoom_findUnique in G.
  pose proof (editRoom_outcome client data s room a G T C F) as F'.
  destruct (Inv_found _ _ _ (reachable_Inv _ HR) F) as (_ & Hs & Hid).
  unfold synced, completedOf in Hs. rewrite Hid, G, C in Hs. injection Hs as Hc.
  assert (forall x y : string, x <> y -> (x =? y) = false) as Hneq.
  { intros x y Hne. destruct (x =? y) eqn:E; [|reflexivity].
    apply eqb_true in E. contradiction. }
  split; [|split].
  - intros He now c edit Hr Hne. unfold handleCodeEdit. rewrite Hr, F'. simpl.
    rewrite <- Hc. simpl. rewrite He. simpl.
    now rewrite (Hneq _ _ Hne).
  - intros He now c cur Hr. unfold handleCursor. rewrite Hr, F'. simpl.
    rewrite <- Hc. rewrite He. reflexivity.
  - intros He now c sel Hr Hne. unfold handleSelection. rewrite Hr, F'. simpl.
    rewrite <- Hc. simpl. rewrite He. simpl.
    assert ((teacher a =? sp_telegramId sel) = false) as ->; [|reflexivity].
    apply Hneq. congruence.
Qed.

(** X24: a code edit of the teacher passes whatever the toggle and the
    completed flag say, and a code edit of another identity passes when the
    room is not completed and the edit toggle is on.  When the engine
    applies the update, the handler sends one event: the update, with the
    sender identity and the color and name of its member, relayed to every
    connection of the room but the sender's; the member of the sender gets
    the time and no other member changes. *)
Theorem code_edit_relays (now : Z) (client : string) (data : CodeEditPayload)
    (s : State) (a : Room) (doc' : Doc) :
  find (byId (ce_roomId data)) (activeRooms s) = Some a ->
  teacher a = ce_telegramId data
  \/ (completed a = false /\ truthyBool (studentEditCodeEnabled a) = true) ->
  ce_telegramId data <> "" ->
  applyUpdate (fst (getOrCreateDoc (docs s) (ce_roomId data))) (ce_update data)
  = Applied doc' ->
  exists a',
    find (byId (ce_roomId data)) (activeRooms (state (handleCodeEdit now client data s)))
    = Some a'
    /\ thrown (handleCodeEdit now client data s) = None
    /\ effects (handleCodeEdit now client data s)
       = [Emit (ToRoomExceptSender (id a) client)
               (CodeEditAction (Some (ce_telegramId data))
                  match find (byTelegramId (ce_telegramId data)) (members a) with
                  | Some m => userColor m | None => None end
                  match find (byTelegramId (ce_telegramId data)) (members a) with
                  | Some m => username m | None => None end
                  (ce_update data))]
    /\ members a' = updateFirst (byTelegramId (ce_telegramId data)) (touch now) (members a)
    /\ (forall tid, tid <> ce_telegramId data ->
          find (byTelegramId tid) (members a') = find (byTelegramId tid) (members a))
    /\ table (state (handleCodeEdit now client data s)) = table s.
Proof.
  intros F G Hne A. unfold handleCodeEdit. rewrite F.
  assert (completed a && negb (teacher a =? ce_telegramId data) = false) as ->.
  { destruct G as [->|[-> _]]; [|reflexivity].
    rewrite String.eqb_refl. apply andb_false_r. }
  assert (negb (truthyBool (studentEditCodeEnabled a))
          && negb (ce_telegramId data =? teacher a) = false) as ->.
  { destruct G as [->|[_ ->]]; [|reflexivity].
    rewrite String.eqb_refl. apply andb_false_r. }
  assert ((ce_telegramId data =? "") = false) as ->.
  { destruct (ce_telegramId data =? "") eqn:E; [|reflexivity].
    apply eqb_true in E. contradiction. }
  destruct (getOrCreateDoc _ _) as [doc ds]. simpl in A. rewrite A. simpl.
  rewrite find_byId_updateFirst by reflexivity. rewrite F.
  eexists. split; [reflexivity|]. simpl.
  split; [reflexivity|]. split; [reflexivity|]. split; [reflexivity|].
  split; [|reflexivity].
  intros tid Ht. apply find_updateFirst_other; [reflexivity|].
  intros m. now apply byTelegramId_other.
Qed.

End Gates.

(** ** The further properties on the sample sessions *)

Lemma generateUserColor_in_colors_witness :
  Forall isCodeUnit (codeUnits "я2001")
  /\ codeUnits "я2001" = [1103; 50]%Z ++ [48; 48; 49]%Z
  /\ (Z.abs (hashLoop [1103; 50]%Z 0) <= 2 ^ 85)%Z
  /\ In (generateUserColor "я2001") colors /\ generateUserColor "я2001" <> "".
Proof.
  assert (Forall isCodeUnit (codeUnits "я2001")) as H by apply codeUnits_range.
  split; [exact H|]. split; [reflexivity|].
  exact (generateUserColor_in_colors (codeUnits "я2001") [1103; 50]%Z [48; 48; 49]%Z
           H eq_refl).
Defined.

Lemma hashLoop_exact_witness :
  Forall isCodeUnit (codeUnits "я2001")
  /\ (Z.of_nat (length (codeUnits "я2001")) <= 4000000)%Z
  /\ codeUnits "я2001" = [1103; 50]%Z ++ [48; 48; 49]%Z
  /\ (Z.abs (hashLoop [1103; 50]%Z 0) < 2 ^ 53)%Z
  /\ hashLoop [1103; 50]%Z 0 = exactLoop [1103; 50]%Z 0.
Proof.
  assert (Forall isCodeUnit (codeUnits "я2001")) as H by apply codeUnits_range.
  assert (Z.of_nat (length (codeUnits "я2001")) <= 4000000)%Z as L by (simpl; lia).
  split; [exact H|]. split; [exact L|]. split; [reflexivity|].
  exact (hashLoop_exact (codeUnits "я2001") [1103; 50]%Z [48; 48; 49]%Z H L eq_refl).
Defined.

Lemma registry_one_room_per_id_witness :
  reachable (after [join "c0" "1000" "open"; join "c1" "2001" "quiet";
                    join "c2" "2002" "open"])
  /\ NoDup (map id (activeRooms (after [join "c0" "1000" "open"; join "c1" "2001" "quiet";
                                        join "c2" "2002" "open"]))).
Proof.
  assert (reachable (after [join "c0" "1000" "open"; join "c1" "2001" "quiet";
                            join "c2" "2002" "open"])) as HR by apply reachable_after.
  split; [exact HR|]. exact (proj1 (registry_one_room_per_id _ HR)).
Defined.

Lemma completed_is_permanent_witness :
  completedOf (table (after [join "c1" "2001" "done"])) "done" = Some true
  /\ completedOf
       (table (run [(7, join "c0" "1000" "done");
                    (8, EditRoomEv "c0" (onlyCursor "1000" "done" false));
                    (9, DisconnectEv "c1")]%Z
                 (after [join "c1" "2001" "done"]))) "done" = Some true.
Proof.
  assert (completedOf (table (after [join "c1" "2001" "done"])) "done" = Some true) as H
    by (vm_compute; reflexivity).
  split; [exact H|]. exact (proj1 (completed_is_permanent _ "done" _) H).
Defined.

Lemma error_is_alone_witness :
  In (Emit (ToClient "c1") (ErrorEvent msgCursorPosition))
     (effects (handle 9 (cursorAt "c1" "2001" "open" [1; 2; 3]%Z)
                 (after [join "c0" "1000" "open"; join "c1" "2001" "open"])))
  /\ handle 9 (cursorAt "c1" "2001" "open" [1; 2; 3]%Z)
       (after [join "c0" "1000" "open"; join "c1" "2001" "open"])
     = ret (after [join "c0" "1000" "open"; join "c1" "2001" "open"])
           [Emit (ToClient "c1") (ErrorEvent msgCursorPosition)].
Proof.
  assert (In (Emit (ToClient "c1") (ErrorEvent msgCursorPosition))
             (effects (handle 9 (cursorAt "c1" "2001" "open" [1; 2; 3]%Z)
                         (after [join "c0" "1000" "open"; join "c1" "2001" "open"]))))
    as H by (vm_compute; left; reflexivity).
  split; [exact H|]. exact (error_is_alone _ _ _ _ _ H eq_refl).
Defined.


Lemma rename_needs_self_or_teacher_witness :
  exists c d a m,
    EditMemberEv "c0" {| em_telegramId := "1000"; em_username := Some "Ann";
                         em_roomId := "open"; em_changeTelegramId := "2001" |}
    = EditMemberEv c d
    /\ find (byId (em_roomId d))
            (activeRooms (after [join "c0" "1000" "open"; join "c1" "2001" "open"]))
       = Some a
    /\ find (byTelegramId (em_changeTelegramId d)) (members a) = Some m
    /\ (em_changeTelegramId d = em_telegramId d \/ teacher a = em_telegramId d).
Proof.
  edestruct (rename_needs_self_or_teacher 9
               (EditMemberEv "c0" {| em_telegramId := "1000"; em_username := Some "Ann";
                                     em_roomId := "open"; em_changeTelegramId := "2001" |})
               (after [join "c0" "1000" "open"; join "c1" "2001" "open"]))
    as (c & d & a & m & H1 & H2 & _ & H3 & H4 & _).
  - lazy. left. reflexivity.
  - exists c, d, a, m. auto.
Defined.

Lemma rename_changes_one_name_witness :
  exists a',
    find (byId "open")
         (activeRooms (state (handleEditMember "c0"
            {| em_telegramId := "1000"; em_username := Some "Ann";
               em_roomId := "open"; em_changeTelegramId := "2001" |}
            (after [join "c0" "1000" "open"; join "c1" "2001" "open"])))) = Some a'
    /\ map (fun m => (telegramId m, username m)) (members a')
       = [("1000", None); ("2001", Some "Ann")].
Proof.
  edestruct (rename_changes_one_name "c0"
               {| em_telegramId := "1000"; em_username := Some "Ann";
                  em_roomId := "open"; em_changeTelegramId := "2001" |}
               (after [join "c0" "1000" "open"; join "c1" "2001" "open"]))
    as (a' & H1 & _).
  - lazy. reflexivity.
  - lazy. reflexivity.
  - lazy. reflexivity.
  - right. lazy. reflexivity.
  - exists a'. split; [exact H1|].
    vm_compute in H1. injection H1 as <-. vm_compute. reflexivity.
Defined.

Lemma documents_outlive_rooms_witness :
  registryView (after [join "c0" "1000" "open";
                       codeEdit "c0" "1000" "open" [Byte.x01; Byte.x02];
                       DisconnectEv "c0"]) = []
  /\ docsGet (docs (after [join "c0" "1000" "open";
                           codeEdit "c0" "1000" "open" [Byte.x01; Byte.x02];
                           DisconnectEv "c0"])) "open"
     = Some [[Byte.x01; Byte.x02]]
  /\ docsGet (docs (state (handle 9
                (CloseSessionEv "c0" {| jp_telegramId := "1000"; jp_username := None;
                                        jp_roomId := "open" |})
                (after [join "c0" "1000" "open";
                        codeEdit "c0" "1000" "open" [Byte.x01; Byte.x02];
                        DisconnectEv "c0"])))) "open"
     = Some [[Byte.x01; Byte.x02]].
Proof.
  assert (docsGet (docs (after [join "c0" "1000" "open";
                                codeEdit "c0" "1000" "open" [Byte.x01; Byte.x02];
                                DisconnectEv "c0"])) "open"
          = Some [[Byte.x01; Byte.x02]]) as H by (vm_compute; reflexivity).
  split; [vm_compute; reflexivity|]. split; [exact H|].
  apply (proj2 (documents_outlive_rooms _ "open" _ 9
                  (CloseSessionEv "c0" {| jp_telegramId := "1000"; jp_username := None;
                                          jp_roomId := "open" |}) H)).
  left. discriminate.
Defined.

Lemma late_joiner_gets_document_witness :
  reachable (after [join "c0" "1000" "open"])
  /\ In (Emit (ToClient "c1") (CodeEditAction None None None [Byte.x01; Byte.x02]))
        (effects (handleJoinRoom 9
                    {| jp_telegramId := "2001"; jp_username := None; jp_roomId := "open" |}
                    "c1"
                    (state (handleCodeEdit 8 "c0"
                              {| ce_roomId := "open"; ce_telegramId := "1000";
                                 ce_update := [Byte.x01; Byte.x02] |}
                              (after [join "c0" "1000" "open"]))))).
Proof.
  assert (reachable (after [join "c0" "1000" "open"])) as HR by apply reachable_after.
  split; [exact HR|].
  edestruct (late_joiner_gets_document (Y := logEngine) 8 "c0"
               {| ce_roomId := "open"; ce_telegramId := "1000";
                  ce_update := [Byte.x01; Byte.x02] |}
               (after [join "c0" "1000" "open"])) as [_ H].
  - exact HR.
  - lazy. reflexivity.
  - lazy. reflexivity.
  - lazy. reflexivity.
  - reflexivity.
  - lazy. reflexivity.
  - exact (H 9%Z "c1"
             {| jp_telegramId := "2001"; jp_username := None; jp_roomId := "open" |}
             eq_refl).
Defined.

Lemma reconnect_survives_old_disconnect_witness :
  reachable (after [join "c0" "1000" "open"; join "c1" "2001" "open"])
  /\ handleDisconnect "c1"
       (state (handleJoinRoom 9
                 {| jp_telegramId := "2001"; jp_username := None; jp_roomId := "open" |}
                 "c2" (after [join "c0" "1000" "open"; join "c1" "2001" "open"])))
     = ret (state (handleJoinRoom 9
                     {| jp_telegramId := "2001"; jp_username := None; jp_roomId := "open" |}
                     "c2" (after [join "c0" "1000" "open"; join "c1" "2001" "open"]))) [].
Proof.
  assert (reachable (after [join "c0" "1000" "open"; join "c1" "2001" "open"])) as HR
    by apply reachable_after.
  split; [exact HR|].
  apply (proj2 (reconnect_survives_old_disconnect 9
                  {| jp_telegramId := "2001"; jp_username := None; jp_roomId := "open" |}
                  "c1" "c2" _) HR).
  - discriminate.
  - intros r m Hr Hm E. vm_compute in Hr. destruct Hr as [<-|[]].
    vm_compute in Hm. destruct Hm as [<-|[<-|[]]]; vm_compute in E;
      [discriminate | split; reflexivity].
Defined.

Lemma selection_never_mixed_witness :
  reachable (after [join "c0" "1000" "open"; join "c1" "2001" "open";
                    pointAt "c1" "2001" "open" 7 2; clearSel "c1" "2001" "open";
                    pointAt "c0" "1000" "open" 3 5])
  /\ Forall (fun r => Forall (fun m => wellShaped (lastSelection m) = true) (members r))
            (activeRooms (after [join "c0" "1000" "open"; join "c1" "2001" "open";
                                 pointAt "c1" "2001" "open" 7 2;
                                 clearSel "c1" "2001" "open";
                                 pointAt "c0" "1000" "open" 3 5])).
Proof.
  assert (reachable (after [join "c0" "1000" "open"; join "c1" "2001" "open";
                            pointAt "c1" "2001" "open" 7 2; clearSel "c1" "2001" "open";
                            pointAt "c0" "1000" "open" 3 5])) as HR
    by apply reachable_after.
  split; [exact HR|]. apply Forall_forall. intros r Hr. apply Forall_forall. intros m Hm.
  exact (selection_never_mixed _ r m HR Hr Hm).
Defined.


Lemma join_roster_witness :
  reachable (after [join "c0" "1000" "open"; join "c1" "2001" "open"])
  /\ exists roster,
       In (Emit (ToRoom "open") (MembersUpdated roster "join" "2001"))
          (effects (handleJoinRoom 9
                      {| jp_telegramId := "2001"; jp_username := None;
                         jp_roomId := "open" |}
                      "c2" (after [join "c0" "1000" "open"; join "c1" "2001" "open"])))
       /\ length (filter (fun v => truthyBool (mv_isYourself v)) roster) = 1.
Proof.
  assert (reachable (after [join "c0" "1000" "open"; join "c1" "2001" "open"])) as HR
    by apply reachable_after.
  split; [exact HR|].
  edestruct (join_roster 9
               {| jp_telegramId := "2001"; jp_username := None; jp_roomId := "open" |}
               "c2" _ (durable "open" true false) HR)
    as (r' & roster & _ & _ & H1 & _ & _ & H2 & _).
  - vm_compute. reflexivity.
  - exists roster. split; [exact H1 | exact H2].
Defined.

Lemma cursor_moves_one_cursor_witness :
  exists a',
    find (byId "open")
         (activeRooms (state (handleCursor 9 "c1"
            {| cp_roomId := "open"; cp_position := [3; 4]%Z; cp_logs := [];
               cp_telegramId := "2001" |}
            (after [join "c0" "1000" "open"; join "c1" "2001" "open"])))) = Some a'
    /\ find (byTelegramId "1000") (members a')
       = find (byTelegramId "1000")
              (members (hd (activate (durable "open" true false))
                           (activeRooms (after [join "c0" "1000" "open";
                                                join "c1" "2001" "open"])))).
Proof.
  edestruct (cursor_moves_one_cursor 9 "c1"
               {| cp_roomId := "open"; cp_position := [3; 4]%Z; cp_logs := [];
                  cp_telegramId := "2001" |}
               (after [join "c0" "1000" "open"; join "c1" "2001" "open"])
               (hd (activate (durable "open" true false))
                   (activeRooms (after [join "c0" "1000" "open"; join "c1" "2001" "open"])))
               3 4) as (a' & H1 & H2 & _).
  - vm_compute. reflexivity.
  - vm_compute. reflexivity.
  - vm_compute. reflexivity.
  - reflexivity.
  - exists a'. split; [exact H1|]. apply H2. discriminate.
Defined.

Lemma leave_and_rejoin_witness :
  reachable (after [join "c0" "1000" "open"; join "c1" "2001" "open";
                    cursorAt "c1" "2001" "open" [3; 4]%Z; pointAt "c1" "2001" "open" 7 2])
  /\ exists r' me,
       find (byId "open")
            (activeRooms (state (handleJoinRoom 9
               {| jp_telegramId := "2001"; jp_username := None; jp_roomId := "open" |}
               "c2"
               (state (handleDisconnect "c1"
                  (after [join "c0" "1000" "open"; join "c1" "2001" "open";
                          cursorAt "c1" "2001" "open" [3; 4]%Z;
                          pointAt "c1" "2001" "open" 7 2])))))) = Some r'
       /\ find (byTelegramId "2001") (members r') = Some me
       /\ online me = true /\ clientId me = "c2"
       /\ lastCursorPosition me = Some (3, 4)%Z /\ lastSelection me = None.
Proof.
  assert (reachable (after [join "c0" "1000" "open"; join "c1" "2001" "open";
                            cursorAt "c1" "2001" "open" [3; 4]%Z;
                            pointAt "c1" "2001" "open" 7 2])) as HR
    by apply reachable_after.
  split; [exact HR|].
  edestruct (leave_and_rejoin 9
               {| jp_telegramId := "2001"; jp_username := None; jp_roomId := "open" |}
               "c1" "c2"
               (after [join "c0" "1000" "open"; join "c1" "2001" "open";
                       cursorAt "c1" "2001" "open" [3; 4]%Z;
                       pointAt "c1" "2001" "open" 7 2]) [] [])
    as (r' & me & H1 & H2 & H3 & H4 & H5 & H6 & _).
  - exact HR.
  - lazy. reflexivity.
  - constructor.
  - lazy. reflexivity.
  - lazy. reflexivity.
  - lazy. reflexivity.
  - lazy. reflexivity.
  - exists r', me. lazy in H1, H2, H5. lazy. auto 10.
Defined.

Lemma deleteRoom_by_teacher_only_witness :
  deleteRoom sampleTable "open" "2001" = None
  /\ exists t', deleteRoom sampleTable "open" "1000" = Some t'
       /\ S (length t') = length sampleTable
       /\ findUnique t' "open" = None
       /\ findUnique t' "quiet" = findUnique sampleTable "quiet".
Proof.
  assert (NoDup (map r_id sampleTable)) as Hn.
  { simpl. repeat constructor; simpl; intuition discriminate. }
  split.
  - apply (proj1 (deleteRoom_by_teacher_only sampleTable "open" "2001") Hn
             (durable "open" true false)); [reflexivity | discriminate].
  - eexists. split; [vm_compute; reflexivity|].
    destruct (proj2 (proj2 (deleteRoom_by_teacher_only sampleTable "open" "1000"))
                _ eq_refl) as (_ & H1 & H2 & H3).
    split; [exact H1|]. split; [exact (H3 Hn)|]. apply H2. discriminate.
Defined.

Lemma toggles_gate_at_once_witness :
  reachable (after [join "c0" "1000" "open"; join "c1" "2001" "open"])
  /\ handleCursor 9 "c0"
       {| cp_roomId := "open"; cp_position := [3; 4]%Z; cp_logs := [];
          cp_telegramId := "1000" |}
       (state (handleEditRoom "c0" (onlyCursor "1000" "open" false)
                 (after [join "c0" "1000" "open"; join "c1" "2001" "open"])))
     = ret (state (handleEditRoom "c0" (onlyCursor "1000" "open" false)
                     (after [join "c0" "1000" "open"; join "c1" "2001" "open"]))) [].
Proof.
  assert (reachable (after [join "c0" "1000" "open"; join "c1" "2001" "open"])) as HR
    by apply reachable_after.
  split; [exact HR|].
  edestruct (toggles_gate_at_once "c0" (onlyCursor "1000" "open" false)
               (after [join "c0" "1000" "open"; join "c1" "2001" "open"])
               (durable "open" true false)) as (_ & H & _).
  - exact HR.
  - vm_compute. reflexivity.
  - reflexivity.
  - reflexivity.
  - lazy. reflexivity.
  - apply H; reflexivity.
Defined.

Lemma code_edit_relays_witness :
  registryView (after [join "c0" "1000" "done"; join "c1" "2001" "done"])
  = [("done", true, [("1000", "c0", true, None, None); ("2001", "c1", true, None, None)])]
  /\ effects (handleCodeEdit 9 "c0"
                {| ce_roomId := "done"; ce_telegramId := "1000";
                   ce_update := [Byte.x01] |}
                (after [join "c0" "1000" "done"; join "c1" "2001" "done"]))
     = [Emit (ToRoomExceptSender "done" "c0")
             (CodeEditAction (Some "1000") (Some "#85929E") None [Byte.x01])].
Proof.
  split; [vm_compute; reflexivity|].
  edestruct (code_edit_relays (Y := logEngine) 9 "c0"
               {| ce_roomId := "done"; ce_telegramId := "1000"; ce_update := [Byte.x01] |}
               (after [join "c0" "1000" "done"; join "c1" "2001" "done"]))
    as (a' & _ & _ & H & _).
  - lazy. reflexivity.
  - left. lazy. reflexivity.
  - discriminate.
  - lazy. reflexivity.
  - rewrite H. vm_compute. reflexivity.
Defined.

(** * Calls that overlap *)

(** ** The list of tasks *)

Lemma nth_error_last {A : Type} (l : list A) (x : A) :
  nth_error (l ++ [x]) (length l) = Some x.
Proof. induction l as [|y t IH]; simpl; [reflexivity | exact IH]. Qed.

Lemma setNth_last {A : Type} (l : list A) (x y : A) :
  setNth (length l) y (l ++ [x]) = l ++ [y].
Proof. induction l as [|z t IH]; simpl; [reflexivity | now rewrite IH]. Qed.

Lemma dropNth_last {A : Type} (l : list A) (x : A) :
  dropNth (length l) (l ++ [x]) = l.
Proof. induction l as [|z t IH]; simpl; [reflexivity | now rewrite IH]. Qed.

Lemma nth_error_length {A : Type} (l : list A) : nth_error l (length l) = None.
Proof. induction l as [|y t IH]; simpl; [reflexivity | exact IH]. Qed.

Section Overlap.
Context {Y : YEngine}.

(** ** A call that nothing overlaps

    The handlers of the sections above are the calls nothing overlaps: an
    event that arrives, with the store executing each query at once and the
    call resuming at once, leaves what [handle] says. *)

Lemma serve_last (s : State) (ts : list Task) (q : Query) (a : Await) :
  world (wstep (Serve (length ts)) {| shared := s; tasks := ts ++ [Waiting q a] |})
  = {| shared := withTable s (snd (serve q (table s)));
       tasks := ts ++ [Answered (fst (serve q (table s))) a] |}.
Proof.
  cbn [wstep tasks shared]. rewrite nth_error_last.
  destruct (serve q (table s)) as [r t']. cbn [still world fst snd].
  now rewrite setNth_last.
Qed.

Lemma resume_last (now : Z) (s : State) (ts : list Task) (r : Reply) (a : Await) :
  wstep (Resume now (length ts)) {| shared := s; tasks := ts ++ [Answered r a] |}
  = {| world := {| shared := state (fst (resumeAwait a r s));
                   tasks := match snd (resumeAwait a r s) with
                            | Some t => ts ++ [t]
                            | None => ts
                            end |};
       sent := effects (fst (resumeAwait a r s));
       raised := thrown (fst (resumeAwait a r s)) |}.
Proof.
  cbn [wstep tasks shared]. rewrite nth_error_last.
  destruct (resumeAwait a r s) as [o [t|]]; cbn [fst snd settle].
  - now rewrite setNth_last.
  - now rewrite dropNth_last.
Qed.

Lemma resume_last_joining (now : Z) (s : State) (ts : list Task) (client : string)
    (data : JoinPayload) (room : RoomRdo) :
  wstep (Resume now (length ts)) {| shared := s; tasks := ts ++ [Joining client data room] |}
  = {| world := {| shared := state (joinPost now client data room s); tasks := ts |};
       sent := effects (joinPost now client data room s);
       raised := thrown (joinPost now client data room s) |}.
Proof.
  cbn [wstep tasks shared]. rewrite nth_error_last. now rewrite dropNth_last.
Qed.

Lemma uninterrupted_serve (k : nat) (now : Z) (s : State) (ts : list Task) (q : Query)
    (a : Await) (es : list Effect) :
  uninterrupted (S k) now (length ts)
    {| world := {| shared := s; tasks := ts ++ [Waiting q a] |}; sent := es; raised := None |}
  = uninterrupted k now (length ts)
      {| world := {| shared := withTable s (snd (serve q (table s)));
                     tasks := ts ++ [Answered (fst (serve q (table s))) a] |};
         sent := es; raised := None |}.
Proof.
  cbn [uninterrupted raised world tasks sent]. rewrite nth_error_last.
  now rewrite serve_last.
Qed.

Lemma uninterrupted_resume (k : nat) (now : Z) (s : State) (ts : list Task) (r : Reply)
    (a : Await) (es : list Effect) :
  uninterrupted (S k) now (length ts)
    {| world := {| shared := s; tasks := ts ++ [Answered r a] |}; sent := es; raised := None |}
  = uninterrupted k now (length ts)
      {| world := {| shared := state (fst (resumeAwait a r s));
                     tasks := match snd (resumeAwait a r s) with
                              | Some t => ts ++ [t]
                              | None => ts
                              end |};
         sent := es ++ effects (fst (resumeAwait a r s));
         raised := thrown (fst (resumeAwait a r s)) |}.
Proof.
  cbn [uninterrupted raised world tasks sent]. rewrite nth_error_last.
  now rewrite resume_last.
Qed.

Lemma uninterrupted_joining (k : nat) (now : Z) (s : State) (ts : list Task)
    (client : string) (data : JoinPayload) (room : RoomRdo) (es : list Effect) :
  uninterrupted (S k) now (length ts)
    {| world := {| shared := s; tasks := ts ++ [Joining client data room] |};
       sent := es; raised := None |}
  = uninterrupted k now (length ts)
      {| world := {| shared := state (joinPost now client data room s); tasks := ts |};
         sent := es ++ effects (joinPost now client data room s);
         raised := thrown (joinPost now client data room s) |}.
Proof.
  cbn [uninterrupted raised world tasks sent]. rewrite nth_error_last.
  now rewrite resume_last_joining.
Qed.

Lemma uninterrupted_over (k : nat) (now : Z) (s : State) (ts : list Task)
    (es : list Effect) (e : option Exn) :
  uninterrupted k now (length ts)
    {| world := {| shared := s; tasks := ts |}; sent := es; raised := e |}
  = {| world := {| shared := s; tasks := ts |}; sent := es; raised := e |}.
Proof.
  destruct k; [reflexivity|]. cbn [uninterrupted raised world tasks].
  rewrite nth_error_length. now destruct e.
Qed.

Lemma withTable_same (s : State) : withTable s (table s) = s.
Proof. now destruct s. Qed.

(** [handleJoinRoom] is its awaits, then line 169 on. *)
Lemma handleJoinRoom_joinPost (now : Z) (data : JoinPayload) (client : string) (s : State) :
  handleJoinRoom now data client s
  = match findUnique (table s) (jp_roomId data) with
    | None => ret s [Emit (ToClient client) (JoinRoomError msgRoomNotFound)]
    | Some room0 =>
        match (if (r_teacher room0 =? jp_telegramId data)
                  || existsb (fun st => st =? jp_telegramId data) (r_students room0)
               then Some (room0, table s)
               else joinRoom (table s) (r_id room0) (jp_telegramId data)) with
        | None => throw s [] NotFoundException
        | Some (room, table') =>
            {| state := state (joinPost now client data room (withTable s table'));
               effects := JoinGroup client (jp_roomId data)
                          :: effects (joinPost now client data room (withTable s table'));
               thrown := None |}
        end
    end.
Proof.
  unfold handleJoinRoom. rewrite getRoom_findUnique.
  destruct (findUnique _ _) as [room0|]; [|reflexivity].
  destruct (if _ : bool then _ else _) as [[room t']|]; [|reflexivity].
  unfold joinPost. cbn [withTable docs activeRooms table].
  now destruct (getOrCreateDoc (docs s) (r_id room)).
Qed.

Lemma joinPost_thrown (now : Z) (client : string) (data : JoinPayload) (room : RoomRdo)
    (s : State) :
  thrown (joinPost now client data room s) = None.
Proof. unfold joinPost. now destruct (getOrCreateDoc _ _). Qed.

Lemma alone_join (now : Z) (client : string) (data : JoinPayload) (w : World) :
  uninterrupted 8 now (length (tasks w)) (wstep (Arrive now (JoinRoomEv client data)) w)
  = {| world := {| shared := state (handleJoinRoom now data client (shared w));
                   tasks := tasks w |};
       sent := effects (handleJoinRoom now data client (shared w));
       raised := thrown (handleJoinRoom now data client (shared w)) |}.
Proof.
  destruct w as [s ts]. cbn [wstep arrive]. unfold spawn, still. cbn [shared tasks].
  rewrite uninterrupted_serve, uninterrupted_resume. cbn [serve fst snd].
  rewrite handleJoinRoom_joinPost, withTable_same. cbn [resumeAwait]. unfold fillDto.
  destruct (findUnique (table s) (jp_roomId data)) as [room0|] eqn:F.
  2:{ cbn [finish fst snd]. now rewrite uninterrupted_over. }
  pose proof (findUnique_id _ _ _ F) as Hid.
  destruct ((r_teacher room0 =? jp_telegramId data) || _) eqn:P.
  - unfold suspend. cbn [fst snd ret state effects thrown].
    rewrite uninterrupted_joining, uninterrupted_over, withTable_same.
    now rewrite joinPost_thrown.
  - unfold suspend. cbn [fst snd ret state effects thrown].
    rewrite uninterrupted_serve, uninterrupted_resume. cbn [serve fst snd].
    rewrite withTable_same, Hid, F. cbn [resumeAwait]. unfold joinRoom. rewrite F.
    unfold fillDto.
    destruct (truthyStr _ || _) eqn:T.
    + unfold suspend. cbn [fst snd ret state effects thrown].
      rewrite uninterrupted_joining, uninterrupted_over, withTable_same.
      now rewrite joinPost_thrown.
    + unfold suspend. cbn [fst snd ret state effects thrown].
      rewrite uninterrupted_serve, uninterrupted_resume. cbn [serve].
      rewrite Hid.
      destruct (prismaUpdate_some (table s) (fun r => r_id r =? jp_roomId data)
                  (pushStudent (jp_telegramId data)) room0 F) as (t' & ->).
      cbn [written fst snd resumeAwait]. unfold suspend, fillDto.
      cbn [fst snd ret state effects thrown].
      rewrite uninterrupted_joining, uninterrupted_over.
      now rewrite joinPost_thrown.
Qed.

Lemma alone_edit (now : Z) (client : string) (data : EditPayload) (w : World) :
  uninterrupted 8 now (length (tasks w)) (wstep (Arrive now (EditRoomEv client data)) w)
  = {| world := {| shared := state (handleEditRoom client data (shared w));
                   tasks := tasks w |};
       sent := effects (handleEditRoom client data (shared w));
       raised := thrown (handleEditRoom client data (shared w)) |}.
Proof.
  destruct w as [s ts]. cbn [wstep arrive]. unfold spawn, still. cbn [shared tasks].
  rewrite uninterrupted_serve, uninterrupted_resume. cbn [serve fst snd].
  unfold handleEditRoom. rewrite getRoom_findUnique, withTable_same.
  cbn [resumeAwait]. unfold fillDto.
  destruct (findUnique (table s) (ep_roomId data)) as [room|] eqn:F.
  2:{ cbn [finish fst snd]. now rewrite uninterrupted_over. }
  destruct (negb _).
  { cbn [finish fst snd]. now rewrite uninterrupted_over. }
  destruct (r_completed room).
  { cbn [finish fst snd]. now rewrite uninterrupted_over. }
  unfold suspend. cbn [fst snd ret state effects thrown].
  rewrite uninterrupted_serve, uninterrupted_resume. cbn [serve fst snd].
  rewrite withTable_same. unfold editRoom.
  destruct (find _ (table s)) as [cur|] eqn:C; cbn [resumeAwait].
  2:{ cbn [finish fst snd throw state effects thrown]. now rewrite uninterrupted_over. }
  unfold suspend. cbn [fst snd ret state effects thrown].
  rewrite uninterrupted_serve, uninterrupted_resume. cbn [serve].
  destruct (prismaUpdate_some (table s) _ (editData data cur) cur C) as (t' & ->).
  cbn [written fst snd resumeAwait finish]. unfold editPost, fillDto.
  cbn [ret state effects thrown withTable activeRooms docs table].
  now rewrite uninterrupted_over.
Qed.

Lemma alone_close (now : Z) (client : string) (data : JoinPayload) (w : World) :
  uninterrupted 8 now (length (tasks w)) (wstep (Arrive now (CloseSessionEv client data)) w)
  = {| world := {| shared := state (handleCloseSession client data (shared w));
                   tasks := tasks w |};
       sent := effects (handleCloseSession client data (shared w));
       raised := thrown (handleCloseSession client data (shared w)) |}.
Proof.
  destruct w as [s ts]. cbn [wstep arrive]. unfold spawn, still. cbn [shared tasks].
  rewrite uninterrupted_serve, uninterrupted_resume. cbn [serve fst snd].
  unfold handleCloseSession. rewrite getRoom_findUnique, withTable_same.
  cbn [resumeAwait]. unfold fillDto.
  destruct (findUnique (table s) (jp_roomId data)) as [room|] eqn:F.
  2:{ cbn [finish fst snd]. now rewrite uninterrupted_over. }
  destruct (negb _).
  { cbn [finish fst snd]. now rewrite uninterrupted_over. }
  destruct (r_completed room).
  { cbn [finish fst snd]. now rewrite uninterrupted_over. }
  unfold suspend. cbn [fst snd ret state effects thrown].
  rewrite uninterrupted_serve, uninterrupted_resume. cbn [serve].
  unfold completeRoom.
  destruct (prismaUpdate_some (table s) (fun r => r_id r =? jp_roomId data) markCompleted
              room F) as (t' & ->).
  cbn [written fst snd resumeAwait finish]. unfold closePost.
  cbn [ret state effects thrown withTable activeRooms docs table].
  now rewrite uninterrupted_over.
Qed.

(** Every handler call of the sections above is a run of the system: the
    event arrives and its call runs with nothing in between. *)
Lemma alone (now : Z) (ev : Event) (w : World) :
  uninterrupted 8 now (length (tasks w)) (wstep (Arrive now ev) w)
  = {| world := {| shared := state (handle now ev (shared w)); tasks := tasks w |};
       sent := effects (handle now ev (shared w));
       raised := thrown (handle now ev (shared w)) |}.
Proof.
  destruct ev as [c d|c d|c d|c d|c d|c d|c d|c];
    [apply alone_join | apply alone_edit | | | | | apply alone_close |];
    destruct w as [s ts]; cbn [wstep arrive handle shared tasks]; unfold lift;
    cbn [shared tasks]; apply uninterrupted_over.
Qed.

Lemma interleaved_uninterrupted (fuel : nat) (now : Z) (i : nat) (m : Move) :
  interleaved (world m) -> interleaved (world (uninterrupted fuel now i m)).
Proof.
  revert m. induction fuel as [|k IH]; intros m H; [exact H|].
  cbn [uninterrupted]. destruct (raised m); [exact H|].
  destruct (nth_error _ _) as [[q a|r a|c d room]|]; [| | |exact H];
    apply IH; cbn [world]; now constructor.
Qed.

Lemma reachable_quiescent (s : State) :
  reachable s -> interleaved {| shared := s; tasks := [] |}.
Proof.
  induction 1 as [rooms|s now ev _ IH]; [apply interleaved_start|].
  pose proof (alone now ev {| shared := s; tasks := [] |}) as E.
  cbn [shared tasks length] in E.
  change {| shared := state (handle now ev s); tasks := [] |}
    with (world {| world := {| shared := state (handle now ev s); tasks := [] |};
                   sent := effects (handle now ev s);
                   raised := thrown (handle now ev s) |}).
  rewrite <- E. apply interleaved_uninterrupted. now constructor.
Qed.

(** X26: a handler call that nothing overlaps (the store executes each of
    its queries as soon as it is sent, and the call resumes at once) leaves
    the state, sends the events and throws the exception that the handler
    taken as one step does; so the states the handlers lead to, call after
    call, are states of the system with no call in flight. *)
Theorem reachable_interleaved :
  (forall now ev w,
     uninterrupted 8 now (length (tasks w)) (wstep (Arrive now ev) w)
     = {| world := {| shared := state (handle now ev (shared w)); tasks := tasks w |};
          sent := effects (handle now ev (shared w));
          raised := thrown (handle now ev (shared w)) |})
  /\ (forall s, reachable s -> interleaved {| shared := s; tasks := [] |}).
Proof.
  split; [exact alone | exact reachable_quiescent].
Qed.

(** [RoomService.deleteRoom] is its one query. *)
Lemma deleteRoom_serve (t : list RoomRdo) (rid tid : string) :
  serve (Delete rid tid) t
  = match deleteRoom t rid tid with
    | Some t' => (Row (find (fun r => (r_id r =? rid) && (r_teacher r =? tid)) t), t')
    | None => (Failed, t)
    end.
Proof.
  unfold deleteRoom. cbn [serve]. now destruct (find _ t).
Qed.

(** ** Broadcasts to completed rooms *)



(** ** Edits that overlap *)

(** C6 (a defect of the code): when an edit-room call resumes from
    [editRoom], every toggle its payload leaves unspecified is set to the
    value the room of the registry had when the call looked it up, before it
    awaited the store (line 278), whatever value the room has now: a toggle
    that another edit-room call has changed in between is set back. *)
Theorem C6_stale_toggles (now : Z) (i : nat) (w : World) (client : string)
    (data : EditPayload) (room edited : RoomRdo) (captured current : Room) :
  nth_error (tasks w) i
  = Some (Answered (Row (Some edited)) (EditUpdate client data room (Some captured))) ->
  find (byId (r_id edited)) (activeRooms (shared w)) = Some current ->
  exists a',
    find (byId (r_id edited)) (activeRooms (shared (world (wstep (Resume now i) w))))
    = Some a'
    /\ (ep_studentCursorEnabled data = None ->
        studentCursorEnabled a'
        = nullish (studentCursorEnabled captured) (r_studentCursorEnabled room))
    /\ (ep_studentEditCodeEnabled data = None ->
        studentEditCodeEnabled a'
        = nullish (studentEditCodeEnabled captured) (r_studentEditCodeEnabled room))
    /\ (ep_studentSelectionEnabled data = None ->
        studentSelectionEnabled a'
        = nullish (studentSelectionEnabled captured) (r_studentSelectionEnabled room))
    /\ members a' = members current /\ completed a' = completed current
    /\ teacher a' = teacher current.
Proof.
  intros Hi F. cbn [wstep]. rewrite Hi. cbn [resumeAwait]. unfold finish, editPost, fillDto.
  cbn [world shared ret state activeRooms].
  rewrite find_byId_map.
  2:{ intros r. now destruct (id r =? r_id edited). }
  rewrite F. pose proof (find_some _ _ F) as [_ E]. unfold byId in E. rewrite E.
  eexists. split; [reflexivity|]. cbn [withToggles studentCursorEnabled
    studentEditCodeEnabled studentSelectionEnabled members completed teacher].
  unfold mergedToggle.
  repeat split; intros ->; reflexivity.
Qed.

(** ** Exceptions *)


(** ** The end of a session *)

(** X10: while a close-session call awaits [completeRoom], the store marks
    the record completed if it still holds one under that identifier.  When
    the call resumes with a row, it has not failed: it sends
    [complete-session] to the room, nothing else, takes every room of that
    identifier out of the registry and leaves the other rooms, the
    documents and the table as they are; in the state that leaves, a
    cursor, selection, code-edit or edit-member event for the room is
    answered with the room-not-found error and changes nothing.  When the
    store brought no row, the call ends with [NotFoundException]: nothing
    is sent and the room stays in the registry. *)
Theorem close_session_closes (now : Z) (i : nat) (w : World) (client : string)
    (data : JoinPayload) (activeRoom : RoomRdo) :
  (nth_error (tasks w) i
   = Some (Waiting (UpdateCompleted (jp_roomId data)) (CloseUpdate client data activeRoom)) ->
   forall d, findUnique (table (shared w)) (jp_roomId data) = Some d ->
   completedOf (table (shared (world (wstep (Serve i) w)))) (jp_roomId data) = Some true
   /\ nth_error (tasks (world (wstep (Serve i) w))) i
      = Some (Answered (Row (Some (markCompleted d))) (CloseUpdate client data activeRoom)))
  /\ (forall row,
        nth_error (tasks w) i
        = Some (Answered (Row (Some row)) (CloseUpdate client data activeRoom)) ->
        raised (wstep (Resume now i) w) = None
        /\ sent (wstep (Resume now i) w)
           = [Emit (ToRoom (r_id activeRoom)) (CompleteSession msgSessionClosed)]
        /\ find (byId (r_id activeRoom))
                (activeRooms (shared (world (wstep (Resume now i) w)))) = None
        /\ (forall r, In r (activeRooms (shared w)) -> id r <> r_id activeRoom ->
              In r (activeRooms (shared (world (wstep (Resume now i) w)))))
        /\ docs (shared (world (wstep (Resume now i) w))) = docs (shared w)
        /\ table (shared (world (wstep (Resume now i) w))) = table (shared w)
        /\ tasks (world (wstep (Resume now i) w)) = dropNth i (tasks w)
        /\ forall now' ev tid,
             kind ev = "cursor" \/ kind ev = "selection" \/ kind ev = "code-edit"
             \/ kind ev = "edit-member" ->
             named ev = Some (r_id activeRoom, tid) ->
             wstep (Arrive now' ev) (world (wstep (Resume now i) w))
             = {| world := world (wstep (Resume now i) w);
                  sent := [Emit (ToClient (sender ev)) (ErrorEvent msgRoomNotFound)];
                  raised := None |})
  /\ (forall r,
        nth_error (tasks w) i = Some (Answered r (CloseUpdate client data activeRoom)) ->
        r = Row None \/ r = Failed ->
        raised (wstep (Resume now i) w) = Some NotFoundException
        /\ sent (wstep (Resume now i) w) = []
        /\ world (wstep (Resume now i) w)
           = {| shared := shared w; tasks := dropNth i (tasks w) |}).
Proof.
  split; [|split].
  - intros Hi d F. cbn [wstep]. rewrite Hi. cbn [serve].
    destruct (prismaUpdate_some (table (shared w)) (fun r => r_id r =? jp_roomId data)
                markCompleted d F) as (t' & U).
    rewrite U. cbn [written still world shared tasks withTable table]. split.
    + apply (completeRoom_done (table (shared w))). unfold completeRoom. now rewrite U.
    + clear -Hi. revert i Hi. induction (tasks w) as [|t ts IH]; intros [|i] Hi;
        try discriminate; cbn in *; [reflexivity | now apply IH].
  - intros row Hi. cbn [wstep]. rewrite Hi. cbn [resumeAwait]. unfold finish, closePost.
    cbn [world shared tasks raised sent ret state effects thrown settle activeRooms docs table].
    assert (find (byId (r_id activeRoom))
              (filter (fun room => negb (id room =? r_id activeRoom))
                 (activeRooms (shared w))) = None) as Hnone.
    { apply find_filter_out. }
    repeat split; try assumption.
    + intros r Hr Hne. apply filter_In. split; [exact Hr|].
      apply negb_true_iff. now apply String.eqb_neq.
    + intros now' ev tid Hk Hn.
      destruct ev as [c d|c d|c d|c d|c d|c d|c d|c]; cbn [kind] in Hk;
        try (exfalso; intuition discriminate); cbn [named] in Hn; injection Hn as Hr _;
        cbn [wstep arrive sender]; unfold lift; cbn [shared tasks];
        [unfold handleCursor | unfold handleSelection | unfold handleCodeEdit
         | unfold handleEditMember];
        cbn [activeRooms]; rewrite Hr, Hnone; reflexivity.
  - intros r Hi Hr. cbn [wstep]. rewrite Hi. cbn [resumeAwait].
    destruct Hr as [->| ->]; unfold finish; cbn [throw state effects thrown settle];
      repeat split.
Qed.

(** ** A join that overlaps the end of the session *)

(** X27: the rest of [handleJoinRoom] (line 169 on) runs on the record the
    call read before its awaits and does not look at the table again.  When
    the registry does not hold the room, the room enters it with the
    completed flag, the teacher and the toggles of that record and with the
    joiner as its only member, whatever the table holds by then; and if that
    record is not completed and does not have the cursor off, a cursor event
    with two coordinates for the room is relayed next, also when the record
    of the table is completed. *)
Theorem join_trusts_its_record (now now' : Z) (i : nat) (w : World) (client c : string)
    (data : JoinPayload) (room : RoomRdo) (cur : CursorPayload) (x y : Z) :
  nth_error (tasks w) i = Some (Joining client data room) ->
  find (byId (r_id room)) (activeRooms (shared w)) = None ->
  find (byId (r_id room)) (activeRooms (shared (world (wstep (Resume now i) w))))
  = Some (withMembers (activate room)
            [newMember client (jp_telegramId data) (jp_username data) now])
  /\ table (shared (world (wstep (Resume now i) w))) = table (shared w)
  /\ (r_completed room = false -> r_studentCursorEnabled room <> Some false ->
      cp_roomId cur = r_id room -> cp_position cur = [x; y] ->
      exists color name,
        sent (wstep (Arrive now' (CursorEv c cur)) (world (wstep (Resume now i) w)))
        = [Emit (ToRoomExceptSender (r_id room) c) (CursorAction cur color name)]).
Proof.
  intros Hi F. cbn [wstep]. rewrite Hi. cbn [world shared]. unfold joinPost. rewrite F.
  destruct (getOrCreateDoc _ _) as [doc ds]. cbn [ret state activeRooms table].
  assert (find (byId (r_id room))
            (updateFirst (byId (r_id room))
               (fun r => withMembers r
                  match find (byTelegramId (jp_telegramId data)) (members (activate room)) with
                  | Some _ =>
                      updateFirst (byTelegramId (jp_telegramId data))
                        (rebind client now (jp_username data)) (members (activate room))
                  | None =>
                      members (activate room)
                      ++ [newMember client (jp_telegramId data) (jp_username data) now]
                  end)
               (activeRooms (shared w) ++ [activate room]))
          = Some (withMembers (activate room)
                    [newMember client (jp_telegramId data) (jp_username data) now])) as G.
  { rewrite updateFirst_app_none by exact F. rewrite find_app_none by exact F.
    cbn [updateFirst activate members find app].
    assert (byId (r_id room) (activate room) = true) as E
      by (unfold byId; cbn [activate id]; apply String.eqb_refl).
    rewrite E. cbn [find]. unfold byId at 1. cbn [withMembers id activate].
    now rewrite String.eqb_refl. }
  split; [exact G|]. split; [reflexivity|].
  intros Hc Ht Hr Hp. cbn [arrive]. unfold lift. cbn [sent shared]. unfold handleCursor.
  cbn [activeRooms]. rewrite Hr, G. cbn [withMembers completed activate].
  rewrite Hc. cbn [studentCursorEnabled withMembers activate].
  assert (truthyBool (nullish (r_studentCursorEnabled room) (Some true)) = true) as ->.
  { destruct (r_studentCursorEnabled room) as [[|]|]; try reflexivity. now elim Ht. }
  rewrite Hp. cbn [negb length Nat.eqb ret effects id]. eauto.
Qed.

(** ** A room that is closed for good *)

Lemma Forall_setNth {A : Type} (P : A -> Prop) (i : nat) (x : A) (l : list A) :
  P x -> Forall P l -> Forall P (setNth i x l).
Proof.
  intros Hx H. revert i. induction H as [|y t Hy Ht IH]; intros [|i]; simpl;
    constructor; auto.
Qed.

Lemma Forall_dropNth {A : Type} (P : A -> Prop) (i : nat) (l : list A) :
  Forall P l -> Forall P (dropNth i l).
Proof.
  intros H. revert i. induction H as [|y t Hy Ht IH]; intros [|i]; simpl;
    try constructor; auto.
Qed.

Lemma Forall_settle {A : Type} (P : A -> Prop) (i : nat) (t : option A) (l : list A) :
  match t with Some x => P x | None => True end -> Forall P l -> Forall P (settle i t l).
Proof. destruct t; simpl; auto using Forall_setNth, Forall_dropNth. Qed.

Lemma Forall_nth_error {A : Type} (P : A -> Prop) (l : list A) (i : nat) (x : A) :
  Forall P l -> nth_error l i = Some x -> P x.
Proof. intros H E. rewrite Forall_forall in H. apply H. eapply nth_error_In; eauto. Qed.

Lemma Forall_prismaUpdate (P : RoomRdo -> Prop) (t t' : list RoomRdo) (w : RoomRdo -> bool)
    (f : RoomRdo -> RoomRdo) (u : RoomRdo) :
  (forall r, P r -> P (f r)) -> Forall P t -> prismaUpdate t w f = Some (u, t') ->
  P u /\ Forall P t'.
Proof.
  intros Hf H. revert u t'. induction H as [|r t Hr Ht IH]; simpl; intros u t' U;
    [discriminate|].
  destruct (w r).
  - injection U as <- <-. split; [auto | constructor; auto].
  - destruct (prismaUpdate t w f) as [[u0 t0]|]; [|discriminate].
    injection U as <- <-. destruct (IH _ _ eq_refl). split; [auto | constructor; auto].
Qed.

(** What the store answers about a closed room, and what it leaves. *)
Lemma closed_serve (rid : string) (q : Query) (t : list RoomRdo) :
  Forall (closedRow rid) t ->
  match q with Create row => closedRow rid row | _ => True end ->
  Forall (closedRow rid) (snd (serve q t))
  /\ forall row, fst (serve q t) = Row (Some row) -> closedRow rid row.
Proof.
  intros H Hq. rewrite Forall_forall in H.
  assert (forall (w : RoomRdo -> bool) (f : RoomRdo -> RoomRdo),
            (forall r, closedRow rid r -> closedRow rid (f r)) ->
            Forall (closedRow rid) (snd (written (prismaUpdate t w f) t))
            /\ forall row, fst (written (prismaUpdate t w f) t) = Row (Some row) ->
                 closedRow rid row) as Hw.
  { intros w f Hf. destruct (prismaUpdate t w f) as [[u t']|] eqn:U; cbn [written fst snd].
    - destruct (Forall_prismaUpdate _ _ _ _ _ _ Hf (proj2 (Forall_forall _ _) H) U).
      split; [assumption|]. intros row E. now injection E as <-.
    - split; [now apply Forall_forall | discriminate]. }
  destruct q as [r|r tid|r m|r dto cur|r|r tid|row]; cbn [serve].
  - cbn [fst snd]. split; [now apply Forall_forall|].
    intros row E. injection E as E. apply H. unfold findUnique in E.
    now apply find_some in E.
  - cbn [fst snd]. split; [now apply Forall_forall|].
    intros row E. injection E as E. apply H. now apply find_some in E.
  - apply Hw. intros x Hx. exact Hx.
  - apply Hw. intros x Hx. exact Hx.
  - apply Hw. intros x Hx _. reflexivity.
  - destruct (find _ t) as [d|] eqn:F; cbn [fst snd].
    + split; [apply Forall_removeFirst; now apply Forall_forall|].
      intros row E. injection E as <-. apply H. now apply find_some in F.
    + split; [now apply Forall_forall | discriminate].
  - destruct (findUnique t (r_id row)); cbn [fst snd].
    + split; [now apply Forall_forall | discriminate].
    + split.
      * apply Forall_app. split; [now apply Forall_forall | now constructor].
      * intros x E. now injection E as <-.
Qed.

(** The handlers that do not await keep the identifier and the completed
    flag of every room, add no room and leave the table alone. *)
Lemma frame_sync (Q : Room -> Prop) (now : Z) (ev : Event) (s : State) :
  (forall r ms, Q r -> Q (withMembers r ms)) ->
  match ev with
  | JoinRoomEv _ _ | EditRoomEv _ _ | CloseSessionEv _ _ => False
  | _ => True
  end ->
  Forall Q (activeRooms s) ->
  Forall Q (activeRooms (state (handle now ev s)))
  /\ table (state (handle now ev s)) = table s.
Proof.
  intros HQ Hev H.
  assert (forall rid ms, Forall Q (updateFirst (byId rid) (fun r => withMembers r ms)
                                     (activeRooms s))) as Hu.
  { intros rid ms. apply Forall_updateFirst; auto. }
  destruct ev as [c d|c d|c d|c d|c d|c d|c d|c]; try contradiction; cbn [handle].
  - unfold handleCursor. destruct (find _ _) as [a|]; [|auto].
    destruct (completed a); [auto|]. destruct (negb (truthyBool _)); [auto|].
    destruct (negb _); [auto|]. cbn [ret state withRooms activeRooms table]. auto.
  - unfold handleSelection. destruct (find _ _) as [a|]; [|auto].
    destruct (completed a && _); [auto|]. destruct (negb (truthyBool _) && _); [auto|].
    cbn [ret state withRooms activeRooms table]. auto.
  - unfold handleCodeEdit. destruct (find _ _) as [a|]; [|auto].
    destruct (completed a && _); [auto|]. destruct (negb (truthyBool _) && _); [auto|].
    destruct (ce_telegramId d =? ""); [auto|].
    destruct (getOrCreateDoc _ _) as [doc ds].
    destruct (applyUpdate doc _); cbn [ret throw state activeRooms table]; auto.
  - unfold handleEditMember. destruct (find _ _) as [a|]; [|auto].
    destruct (completed a); [auto|]. destruct (find _ (members a)); [|auto].
    destruct (_ || _); [|auto]. cbn [ret state withRooms activeRooms table]. auto.
  - unfold handleDisconnect.
    destruct (reap c (activeRooms s)) as [[[r' m'] rooms1]|] eqn:R; [|auto].
    destruct (reap_spec _ _ _ _ _ R) as (pre & a & post & m & E & _ & _ & Hr & _ & ->).
    cbn [ret state withRooms activeRooms table]. split; [|reflexivity].
    assert (Forall Q (pre ++ r' :: post)) as H1.
    { rewrite E in H. apply Forall_app in H. destruct H as [Hp Ha].
      inversion Ha; subst. apply Forall_app. split; [exact Hp|]. constructor; auto. }
    destruct (length _ =? 0)%nat; [now apply Forall_removeFirst | exact H1].
Qed.

Lemma closed_step (rid : string) (st : Step) (w : World) :
  closed rid w -> keepsClosed rid st -> closed rid (world (wstep st w)).
Proof.
  intros (Ht & Hr & Hk) Hst. unfold closed.
  set (Q := fun a : Room => id a = rid -> completed a = true) in *.
  assert (forall r ms, Q r -> Q (withMembers r ms)) as HQ by (intros r ms H; exact H).
  destruct st as [now ev|i|i|now i|q]; cbn [wstep].
  - destruct ev as [c d|c d|c d|c d|c d|c d|c d|c]; cbn [arrive];
      try (unfold spawn, still; cbn [world shared tasks];
           repeat split; try assumption; apply Forall_app; split; [assumption|];
           now repeat constructor).
    all: unfold lift; cbn [world shared tasks].
    + destruct (frame_sync Q now (CursorEv c d) (shared w) HQ I Hr) as [H1 H2].
      cbn [handle] in *. rewrite H2. auto.
    + destruct (frame_sync Q now (SelectionEv c d) (shared w) HQ I Hr) as [H1 H2].
      cbn [handle] in *. rewrite H2. auto.
    + destruct (frame_sync Q now (CodeEditEv c d) (shared w) HQ I Hr) as [H1 H2].
      cbn [handle] in *. rewrite H2. auto.
    + destruct (frame_sync Q now (EditMemberEv c d) (shared w) HQ I Hr) as [H1 H2].
      cbn [handle] in *. rewrite H2. auto.
    + destruct (frame_sync Q now (DisconnectEv c) (shared w) HQ I Hr) as [H1 H2].
      cbn [handle] in *. rewrite H2. auto.
  - destruct (nth_error (tasks w) i) as [[q a|r a|c d room]|] eqn:Hi;
      try (now cbn [still world]).
    pose proof (Forall_nth_error _ _ _ _ Hk Hi) as Hq. cbn [closedTask] in Hq.
    destruct (closed_serve rid q (table (shared w)) Ht) as [H1 H2].
    { destruct q; auto. }
    destruct (serve q (table (shared w))) as [r t'] eqn:S. cbn [fst snd] in *.
    cbn [still world shared tasks withTable table activeRooms].
    repeat split; try assumption. apply Forall_setNth; [|assumption].
    cbn [closedTask]. destruct r as [[row|]|]; auto.
  - destruct (nth_error (tasks w) i) as [[q a|r a|c d room]|] eqn:Hi;
      try (now cbn [still world]).
    cbn [still world shared tasks]. repeat split; try assumption.
    apply Forall_setNth; [exact I | assumption].
  - destruct (nth_error (tasks w) i) as [[q a|r a|c d room]|] eqn:Hi;
      try (now cbn [still world]).
    + pose proof (Forall_nth_error _ _ _ _ Hk Hi) as Hrow. cbn [closedTask] in Hrow.
      destruct (resumeAwait a r (shared w)) as [o t] eqn:R. cbn [world shared tasks].
      assert (table (state o) = table (shared w)
              /\ Forall Q (activeRooms (state o))
              /\ match t with Some x => closedTask rid x | None => True end) as (E1 & E2 & E3).
      { destruct a as [c d|c d|c d|c d|c d room act|c d room act|c d|c d act];
          cbn [resumeAwait] in R;
          repeat match type of R with
            | context [match ?x with _ => _ end] => destruct x
            end;
          unfold finish, suspend, editPost, closePost, fillDto in R;
          injection R as <- <-; cbn [ret throw state table activeRooms closedTask];
          repeat split; auto.
        - apply Forall_forall. intros x Hx. apply in_map_iff in Hx.
          destruct Hx as (y & <- & Hy). rewrite Forall_forall in Hr.
          destruct (id y =? _); exact (Hr y Hy).
        - now apply Forall_filter. }
      rewrite E1. repeat split; try assumption. now apply Forall_settle.
    + pose proof (Forall_nth_error _ _ _ _ Hk Hi) as Hrow. cbn [closedTask] in Hrow.
      cbn [world shared tasks]. unfold joinPost.
      destruct (getOrCreateDoc _ _) as [doc ds]. cbn [ret state table activeRooms].
      repeat split; [assumption| |now apply Forall_dropNth].
      apply Forall_updateFirst; [auto|].
      destruct (find (byId (r_id room)) (activeRooms (shared w))); [assumption|].
      apply Forall_app. split; [assumption|]. constructor; [|constructor].
      unfold Q, activate. cbn [id completed]. exact Hrow.
  - cbn [still world shared tasks withTable table activeRooms].
    destruct (closed_serve rid q (table (shared w)) Ht) as [H1 _].
    { destruct q; auto. }
    auto.
Qed.

Lemma closed_run (rid : string) (steps : list Step) (w : World) :
  closed rid w -> Forall (keepsClosed rid) steps -> closed rid (wrun steps w).
Proof.
  revert w. induction steps as [|st rest IH]; intros w H Hs; [exact H|].
  inversion Hs; subst. cbn [wrun]. apply IH; [now apply closed_step | assumption].
Qed.

(** X6: once room [rid] is closed and nothing is left that says otherwise
    (no row of the table, no room of the registry, no reply on its way and
    no record held by a call in flight), it stays so through every step,
    as long as no record that says the room is open is created from
    outside; and no cursor event for the room is relayed: the handler
    changes nothing and sends either nothing or the room-not-found error to
    the sender. *)
Theorem no_cursor_once_closed (rid : string) (w : World) (steps : list Step) (now : Z)
    (client : string) (data : CursorPayload) :
  closed rid w -> Forall (keepsClosed rid) steps -> cp_roomId data = rid ->
  closed rid (wrun steps w)
  /\ (wstep (Arrive now (CursorEv client data)) (wrun steps w) = still (wrun steps w)
      \/ wstep (Arrive now (CursorEv client data)) (wrun steps w)
         = {| world := wrun steps w;
              sent := [Emit (ToClient client) (ErrorEvent msgRoomNotFound)];
              raised := None |}).
Proof.
  intros H Hs Hd. pose proof (closed_run rid steps w H Hs) as Hc.
  split; [exact Hc|]. destruct Hc as (_ & Hr & _).
  destruct (wrun steps w) as [s ts]. cbn [wstep arrive shared] in *. unfold lift, handleCursor.
  destruct (find (byId (cp_roomId data)) (activeRooms s)) as [a|] eqn:F.
  - left. pose proof (find_some _ _ F) as [Hin Hid]. apply eqb_true in Hid.
    rewrite Forall_forall in Hr. rewrite (Hr a Hin) by congruence. reflexivity.
  - right. reflexivity.
Qed.

(** ** The registry when calls overlap *)

Lemma select_fine (data : SelectionPayload) (m : Member) :
  memberFine m -> memberFine (select data m).
Proof.
  intros [Hc Hs]. split.
  - unfold memberOk in *. now rewrite select_userColor, select_telegramId.
  - unfold select. destruct (isPoint data) eqn:Hp.
    + simpl. unfold isPoint in Hp. apply andb_true_iff in Hp. destruct Hp as [Hp _].
      apply andb_true_iff in Hp. destruct Hp as [Hl Hcol].
      destruct (sp_line data) as [l|]; [|discriminate].
      destruct (sp_column data); [exact Hl | discriminate].
    + destruct (isRange data) eqn:Hr.
      * simpl. unfold isRange in Hr. apply andb_true_iff in Hr. destruct Hr as [Hr Ht].
        apply andb_true_iff in Hr. destruct Hr as [Hs1 He].
        destruct (sp_selectionStart data); [|discriminate].
        destruct (sp_selectionEnd data); [|discriminate].
        destruct (sp_selectedText data); [|discriminate].
        simpl in Ht. now rewrite Ht.
      * now destruct (isClear data).
Qed.

Lemma wellFormed_found (rooms : list Room) (rid : string) (a : Room) :
  wellFormed rooms -> find (byId rid) rooms = Some a -> roomFine a.
Proof.
  intros [_ H] F. apply find_some in F. rewrite Forall_forall in H. now apply H.
Qed.

(** A handler updates a member of the room it found, identity kept. *)
Lemma wellFormed_update (rooms : list Room) (rid : string) (a : Room)
    (p : Member -> bool) (g : Member -> Member) :
  wellFormed rooms -> find (byId rid) rooms = Some a ->
  (forall m, telegramId (g m) = telegramId m) ->
  (forall m, memberFine m -> memberFine (g m)) ->
  wellFormed (updateFirst (byId rid)
                (fun r => withMembers r (updateFirst p g (members a))) rooms).
Proof.
  intros H F Hg Hf. destruct (wellFormed_found _ _ _ H F) as [Hn Hm].
  destruct H as [Hi Hr]. split.
  - rewrite map_updateFirst by reflexivity. exact Hi.
  - apply Forall_updateFirst_to; [|exact Hr]. intros x _. split; cbn [withMembers members].
    + rewrite map_updateFirst by exact Hg. exact Hn.
    + apply Forall_updateFirst; assumption.
Qed.

Lemma wellFormed_sync (now : Z) (ev : Event) (s : State) :
  match ev with
  | JoinRoomEv _ _ | EditRoomEv _ _ | CloseSessionEv _ _ => False
  | _ => True
  end ->
  wellFormed (activeRooms s) -> wellFormed (activeRooms (state (handle now ev s))).
Proof.
  intros Hev H.
  destruct ev as [c d|c d|c d|c d|c d|c d|c d|c]; try contradiction; cbn [handle].
  - unfold handleCursor. destruct (find _ _) as [a|] eqn:F; [|exact H].
    destruct (completed a); [exact H|]. destruct (negb (truthyBool _)); [exact H|].
    destruct (negb _); [exact H|]. cbn [ret state withRooms activeRooms].
    apply wellFormed_update; auto.
  - unfold handleSelection. destruct (find _ _) as [a|] eqn:F; [|exact H].
    destruct (completed a && _); [exact H|]. destruct (negb (truthyBool _) && _); [exact H|].
    cbn [ret state withRooms activeRooms].
    apply wellFormed_update; auto using select_fine.
    intros m. now rewrite select_telegramId.
  - unfold handleCodeEdit. destruct (find _ _) as [a|] eqn:F; [|exact H].
    destruct (completed a && _); [exact H|]. destruct (negb (truthyBool _) && _); [exact H|].
    destruct (ce_telegramId d =? ""); [exact H|].
    destruct (getOrCreateDoc _ _) as [doc ds].
    destruct (applyUpdate doc _); cbn [ret throw state activeRooms];
      (apply wellFormed_update; auto).
  - unfold handleEditMember. destruct (find _ _) as [a|] eqn:F; [|exact H].
    destruct (completed a); [exact H|]. destruct (find _ (members a)); [|exact H].
    destruct (_ || _); [|exact H]. cbn [ret state withRooms activeRooms].
    apply wellFormed_update; auto.
  - unfold handleDisconnect.
    destruct (reap c (activeRooms s)) as [[[r' m'] rooms1]|] eqn:R; [|exact H].
    destruct (reap_spec _ _ _ _ _ R) as (pre & a & post & m & E & _ & _ & -> & _ & ->).
    cbn [ret state withRooms activeRooms].
    assert (wellFormed
              (pre ++ withMembers a (updateFirst (byClientId c) markOffline (members a))
                   :: post)) as H1.
    { destruct H as [Hi Hr]. rewrite E in *. split.
      - rewrite map_app in *. exact Hi.
      - apply Forall_app in Hr. destruct Hr as [Hp Ha]. inversion Ha as [|? ? [Hn Hm] Hpost].
        subst. apply Forall_app. split; [exact Hp|]. constructor; [|exact Hpost].
        split; cbn [withMembers members].
        + rewrite map_updateFirst by reflexivity. exact Hn.
        + apply Forall_updateFirst; [|exact Hm]. intros x [Hc Hs]. split; [exact Hc | reflexivity]. }
    destruct (length _ =? 0)%nat; [|exact H1].
    destruct H1 as [Hi Hr]. split; [now apply NoDup_map_removeFirst | now apply Forall_removeFirst].
Qed.

Lemma wellFormed_joinPost (now : Z) (client : string) (data : JoinPayload) (room : RoomRdo)
    (s : State) :
  wellFormed (activeRooms s) ->
  wellFormed (activeRooms (state (joinPost now client data room s))).
Proof.
  intros H. unfold joinPost. destruct (getOrCreateDoc _ _) as [doc ds].
  cbn [ret state activeRooms].
  set (tid := jp_telegramId data).
  set (act := match find (byId (r_id room)) (activeRooms s) with
              | Some r => r
              | None => activate room
              end).
  set (rooms1 := match find (byId (r_id room)) (activeRooms s) with
                 | Some _ => activeRooms s
                 | None => activeRooms s ++ [activate room]
                 end).
  assert (wellFormed rooms1 /\ roomFine act) as [[Hi Hr] [Hn Hm]].
  { unfold rooms1, act. destruct (find (byId (r_id room)) (activeRooms s)) as [a|] eqn:F.
    - split; [exact H | exact (wellFormed_found _ _ _ H F)].
    - destruct H as [Hi Hr]. split; [split|].
      + rewrite map_app. cbn [map activate id].
        apply NoDup_app; [assumption | repeat constructor; simpl; tauto |].
        intros x Hx [<-|[]]. revert Hx. now apply find_none_not_in.
      + apply Forall_app. split; [exact Hr|]. repeat constructor.
      + repeat constructor. }
  split.
  - rewrite map_updateFirst by reflexivity. exact Hi.
  - apply Forall_updateFirst_to; [|exact Hr]. intros x _. split; cbn [withMembers members].
    + destruct (find (byTelegramId tid) (members act)) eqn:M.
      * rewrite map_updateFirst by reflexivity. exact Hn.
      * rewrite map_app. cbn [map newMember telegramId].
        apply NoDup_app; [assumption | repeat constructor; simpl; tauto |].
        intros y Hy [<-|[]]. revert Hy. now apply find_none_not_in.
    + destruct (find (byTelegramId tid) (members act)) eqn:M.
      * apply Forall_updateFirst; [|exact Hm]. intros y [Hc Hs]. split; assumption.
      * apply Forall_app. split; [exact Hm|]. repeat constructor.
Qed.

Lemma wellFormed_step (st : Step) (w : World) :
  wellFormed (activeRooms (shared w)) ->
  wellFormed (activeRooms (shared (world (wstep st w)))).
Proof.
  intros H. destruct st as [now ev|i|i|now i|q]; cbn [wstep].
  - destruct ev as [c d|c d|c d|c d|c d|c d|c d|c]; cbn [arrive];
      try exact H; unfold lift; cbn [world shared].
    + exact (wellFormed_sync now (CursorEv c d) _ I H).
    + exact (wellFormed_sync now (SelectionEv c d) _ I H).
    + exact (wellFormed_sync now (CodeEditEv c d) _ I H).
    + exact (wellFormed_sync now (EditMemberEv c d) _ I H).
    + exact (wellFormed_sync now (DisconnectEv c) _ I H).
  - destruct (nth_error _ _) as [[q a|r a|c d room]|]; try exact H.
    now destruct (serve _ _).
  - now destruct (nth_error _ _) as [[q a|r a|c d room]|].
  - destruct (nth_error (tasks w) i) as [[q a|r a|c d room]|]; try exact H.
    + destruct (resumeAwait a r (shared w)) as [o t] eqn:R. cbn [world shared].
      destruct a as [c d|c d|c d|c d|c d room act|c d room act|c d|c d act];
        cbn [resumeAwait] in R;
        repeat match type of R with
          | context [match ?x with _ => _ end] => destruct x
          end;
        unfold finish, suspend, editPost, closePost in R;
        injection R as <- <-; cbn [ret throw state activeRooms]; try exact H.
      * destruct H as [Hi Hr]. split.
        -- rewrite map_map.
           rewrite (map_ext _ id); [exact Hi|]. intros x. now destruct (id x =? _).
        -- apply Forall_forall. intros x Hx. apply in_map_iff in Hx.
           destruct Hx as (y & <- & Hy). rewrite Forall_forall in Hr.
           destruct (id y =? _); exact (Hr y Hy).
      * destruct H as [Hi Hr].
        split; [now apply NoDup_map_filter | now apply Forall_filter].
    + now apply wellFormed_joinPost.
  - exact H.
Qed.

Lemma interleaved_wrun (steps : list Step) (w : World) :
  interleaved w -> interleaved (wrun steps w).
Proof.
  revert w. induction steps as [|st rest IH]; intros w H; [exact H|].
  cbn [wrun]. apply IH. now constructor.
Qed.

(** X25: in every state of the system, however the calls overlap and
    whatever is written to the table from outside the gateway, the registry
    holds one room per identifier, every room has one member per identity,
    and every member has the color of its identity and a selection that is
    absent, a point, a range or the cleared selection. *)
Theorem registry_well_formed (w : World) (r : Room) (m : Member) :
  interleaved w ->
  NoDup (map id (activeRooms (shared w)))
  /\ (In r (activeRooms (shared w)) ->
      NoDup (map telegramId (members r))
      /\ (In m (members r) ->
          userColor m = Some (generateUserColor (telegramId m))
          /\ wellShaped (lastSelection m) = true)).
Proof.
  intros HI. assert (wellFormed (activeRooms (shared w))) as [Hi Hr].
  { induction HI as [rooms|w st _ IH]; [|now apply wellFormed_step].
    split; constructor. }
  split; [exact Hi|]. intros Hin. rewrite Forall_forall in Hr.
  destruct (Hr r Hin) as [Hn Hm]. split; [exact Hn|].
  intros Hmem. rewrite Forall_forall in Hm. exact (Hm m Hmem).
Qed.

End Overlap.

(** ** Overlapping calls on the sample process *)


(** C6, the defect at work: the teacher turns the code editing of the
    students off and, at once, their cursor off.  When the second call
    resumes from [editRoom] the registry has the editing off; the call, whose
    payload names the cursor only, turns it on again. *)
Lemma C6_witness :
  togglesView (shared (wafter overlappingEdits)) = [("open", Some true, Some true, Some false)]
  /\ togglesView (shared (world (wstep (Resume 8 0) (wafter overlappingEdits))))
     = [("open", Some false, Some true, Some true)]
  /\ exists a',
       find (byId "open")
            (activeRooms (shared (world (wstep (Resume 8 0) (wafter overlappingEdits)))))
       = Some a'
       /\ studentEditCodeEnabled a' = Some true.
Proof.
  split; [vm_compute; reflexivity|]. split; [vm_compute; reflexivity|].
  edestruct (C6_stale_toggles 8 0 (wafter overlappingEdits))
    as (a' & F & _ & H & _).
  - lazy. reflexivity.
  - lazy. reflexivity.
  - exists a'. split; [exact F|]. now apply H.
Defined.


Lemma close_session_closes_witness :
  completedOf (table (shared (world (wstep (Serve 0) (wafter closing))))) "open" = Some true
  /\ sent (wstep (Resume 5 0) (world (wstep (Serve 0) (wafter closing))))
     = [Emit (ToRoom "open") (CompleteSession msgSessionClosed)]
  /\ registryView (shared (world (wstep (Resume 5 0) (world (wstep (Serve 0) (wafter closing))))))
     = [].
Proof.
  destruct (close_session_closes 5 0 (wafter closing) "c0" closeOpen (durable "open" true false))
    as (H1 & _).
  destruct (H1 ltac:(lazy; reflexivity) (durable "open" true false) ltac:(lazy; reflexivity))
    as [H2 H3].
  destruct (close_session_closes 5 0 (world (wstep (Serve 0) (wafter closing))) "c0" closeOpen
              (durable "open" true false)) as (_ & H4 & _).
  destruct (H4 _ H3) as (_ & H5 & _).
  split; [exact H2|]. split; [exact H5|]. vm_compute. reflexivity.
Defined.

(** The session of the open room is closed and a student joins again: the
    room is back in the registry, completed, and a cursor event is dropped. *)
Lemma no_cursor_once_closed_witness :
  let w := wafter (closing ++ [Serve 0; Resume 5 0]) in
  let steps := joins 6 "c1" "2001" "open" in
  let data := {| cp_roomId := "open"; cp_position := [3; 4]%Z; cp_logs := [];
                 cp_telegramId := "2001" |} in
  closed "open" w
  /\ Forall (keepsClosed "open") steps
  /\ registryView (shared (wrun steps w))
     = [("open", true, [("2001", "c1", true, None, None)])]
  /\ closed "open" (wrun steps w)
  /\ (wstep (Arrive 9 (CursorEv "c1" data)) (wrun steps w) = still (wrun steps w)
      \/ wstep (Arrive 9 (CursorEv "c1" data)) (wrun steps w)
         = {| world := wrun steps w;
              sent := [Emit (ToClient "c1") (ErrorEvent msgRoomNotFound)];
              raised := None |}).
Proof.
  cbv zeta.
  assert (closed "open" (wafter (closing ++ [Serve 0; Resume 5 0]))) as H.
  { unfold closed. vm_compute.
    repeat split;
      repeat (constructor; [first [intros _; reflexivity | intros E; discriminate E]|]);
      constructor. }
  assert (Forall (keepsClosed "open") (joins 6 "c1" "2001" "open")) as Hs
    by (repeat constructor).
  split; [exact H|]. split; [exact Hs|]. split; [vm_compute; reflexivity|].
  exact (no_cursor_once_closed "open" _ _ 9 "c1"
           {| cp_roomId := "open"; cp_position := [3; 4]%Z; cp_logs := [];
              cp_telegramId := "2001" |} H Hs eq_refl).
Defined.

Lemma registry_well_formed_witness :
  let w := wafter overlappingEdits in
  let r := hd (activate (durable "" true false)) (activeRooms (shared w)) in
  interleaved w
  /\ In r (activeRooms (shared w))
  /\ NoDup (map id (activeRooms (shared w)))
  /\ NoDup (map telegramId (members r)).
Proof.
  cbv zeta.
  assert (interleaved (wafter overlappingEdits)) as H
    by (apply interleaved_wrun, interleaved_start).
  assert (In (hd (activate (durable "" true false))
                (activeRooms (shared (wafter overlappingEdits))))
             (activeRooms (shared (wafter overlappingEdits)))) as Hr
    by (vm_compute; left; reflexivity).
  split; [exact H|]. split; [exact Hr|].
  destruct (registry_well_formed _
              (hd (activate (durable "" true false))
                  (activeRooms (shared (wafter overlappingEdits))))
              (newMember "" "" None 0) H) as [H1 H2].
  split; [exact H1|]. exact (proj1 (H2 Hr)).
Defined.

Lemma reachable_interleaved_witness :
  reachable (after [join "c0" "1000" "open"; join "c1" "2001" "open"])
  /\ interleaved {| shared := after [join "c0" "1000" "open"; join "c1" "2001" "open"];
                    tasks := [] |}.
Proof.
  assert (reachable (after [join "c0" "1000" "open"; join "c1" "2001" "open"])) as H
    by apply reachable_after.
  split; [exact H|]. exact (proj2 reachable_interleaved _ H).
Defined.
